(** * QRNG front-end pages: a shallow embedding of the browser scripts

    The repository holds several variants of one browser page that asks a
    backend for random numbers and renders them.  Every variant is embedded
    in a module of its own, named after the source file:

    - [FrontendApp]   src/frontend/app.js
    - [AssetsApp]     src/frontend/assets/app.js
    - [Script]        src/frontend/script.js
    - [V2Sync]        src/unnamed/part_001  (frontend-v2.0-sync.js)
    - [GsapPage]      src/unnamed/part_002
    - [QuantumRNG]    src/unnamed/part_003

    [Js] holds the fragment of the JavaScript semantics the scripts rely on:
    numbers, 32-bit shifts, strings, [parseInt], [toString(radix)],
    [padStart], property access, the nullish operators, exceptions and the
    binary64 arithmetic of the bucket index.  [Histo] holds the vocabulary
    the histogram statements are written in.  The definitions come first;
    the facts and theorems follow, grouped by what they are about:
    formatting, histograms, the simulated circuit, the click handlers. *)

From Stdlib Require Import ZArith List Ascii String Lia Bool.
From Stdlib Require Import Floats.SpecFloat.
From Stdlib Require Floats.PrimFloat Floats.FloatOps.
From stdpp Require Import base list gmap strings.

Local Open Scope Z_scope.

(* ===================================================================== *)
(** ** JavaScript values and primitives *)
(* ===================================================================== *)

Module Js.

(** Numbers.  The backend sends integers; [Number(x)] and [parseInt] may also
    produce [NaN], and the scripts test [Number.isFinite], so the two
    infinities are kept as well.  Fractions are outside the model: a payload
    of the model carries integers, also where a real one would carry a
    fractional mean or entropy. *)
Inductive Num : Type :=
| NInt (z : Z)
| NNaN
| NInf (negative : bool).

Definition isFinite (n : Num) : bool :=
  match n with NInt _ => true | _ => false end.

Definition isNaN (n : Num) : bool :=
  match n with NNaN => true | _ => false end.

(** Relational operators on numbers: every comparison with [NaN] is false. *)
Definition ltb (a b : Num) : bool :=
  match a, b with
  | NNaN, _ | _, NNaN => false
  | NInt x, NInt y => x <? y
  | NInt _, NInf neg => negb neg
  | NInf neg, NInt _ => neg
  | NInf n1, NInf n2 => n1 && negb n2
  end.

Definition leb (a b : Num) : bool :=
  match a, b with
  | NNaN, _ | _, NNaN => false
  | NInt x, NInt y => x <=? y
  | NInt _, NInf neg => negb neg
  | NInf neg, NInt _ => neg
  | NInf n1, NInf n2 => n1 || negb n2
  end.

Definition gtb (a b : Num) : bool := ltb b a.
Definition geb (a b : Num) : bool := leb b a.

(** *** 32-bit integer operators *)

(** [ToInt32]: wrap into [-2^31, 2^31). *)
Definition toInt32 (z : Z) : Z := (z + 2 ^ 31) mod 2 ^ 32 - 2 ^ 31.

(** [a << b]: both operands go through [ToInt32]/[ToUint32], the shift count
    is taken modulo 32 and the result wraps to a signed 32-bit integer. *)
Definition shl (a b : Z) : Z := toInt32 (Z.shiftl (toInt32 a) (b mod 32)).

(** [a | b] on 32-bit integers. *)
Definition bor (a b : Z) : Z := toInt32 (Z.lor (toInt32 a) (toInt32 b)).

(** *** Strings *)

Definition chr (n : Z) : ascii := ascii_of_N (Z.to_N n).
Definition ord (c : ascii) : Z := Z.of_N (N_of_ascii c).

(** Digit characters as [Number.prototype.toString] prints them: lower case. *)
Definition digit_char (d : Z) : ascii :=
  if d <? 10 then chr (48 + d) else chr (87 + d).

(** Digit value of a character as [parseInt] reads it: both cases. *)
Definition digit_val (c : ascii) : option Z :=
  let n := ord c in
  if (48 <=? n) && (n <=? 57) then Some (n - 48)
  else if (97 <=? n) && (n <=? 122) then Some (n - 87)
  else if (65 <=? n) && (n <=? 90) then Some (n - 55)
  else None.

Definition upper_char (c : ascii) : ascii :=
  let n := ord c in
  if (97 <=? n) && (n <=? 122) then chr (n - 32) else c.

Definition lower_char (c : ascii) : ascii :=
  let n := ord c in
  if (65 <=? n) && (n <=? 90) then chr (n + 32) else c.

(** [String.prototype.toLowerCase], on the ASCII letters. *)
Definition toLowerCase (s : string) : string :=
  string_of_list_ascii (map lower_char (list_ascii_of_string s)).

(** [String.prototype.toUpperCase], on the ASCII letters. *)
Definition toUpperCase (s : string) : string :=
  string_of_list_ascii (map upper_char (list_ascii_of_string s)).

(** Least-significant-first digits of a non-negative integer.  The fuel is
    the number of digits that may be produced. *)
Fixpoint digits_lsb (fuel : nat) (radix n : Z) : list Z :=
  match fuel with
  | O => []
  | S f => n mod radix ::
           (if n / radix =? 0 then [] else digits_lsb f radix (n / radix))
  end.

(** A non-negative [n] has at most [log2 n + 1] digits in any radix >= 2. *)
Definition digits (radix n : Z) : list Z :=
  rev (digits_lsb (S (Z.to_nat (Z.log2 n))) radix n).

Definition digit_string (radix n : Z) : list ascii :=
  map digit_char (digits radix n).

(** [Number.prototype.toString(radix)]. Integers are printed in positional
    notation (in radix 10 JavaScript does so below 10^21). *)
Definition Number_toString (radix : Z) (n : Num) : string :=
  match n with
  | NNaN => "NaN"
  | NInf false => "Infinity"
  | NInf true => "-Infinity"
  | NInt z =>
      if z <? 0 then String "-" (string_of_list_ascii (digit_string radix (- z)))
      else string_of_list_ascii (digit_string radix z)
  end.

(** [String(n)] *)
Definition String_of (n : Num) : string := Number_toString 10 n.

(** [s.padStart(width, c)] with a one-character filler. *)
Definition padStart (s : string) (width : Z) (c : ascii) : string :=
  string_of_list_ascii
    (replicate (Z.to_nat (width - Z.of_nat (String.length s))) c
       ++ list_ascii_of_string s).

(** White space skipped by [parseInt] (the ASCII part of it). *)
Definition isWhite (c : ascii) : bool :=
  let n := ord c in (n =? 32) || ((9 <=? n) && (n <=? 13)).

Fixpoint skipWhite (s : list ascii) : list ascii :=
  match s with
  | c :: r => if isWhite c then skipWhite r else s
  | [] => []
  end.

(** Longest prefix of digits that are valid in [radix], as digit values. *)
Fixpoint take_digits (radix : Z) (s : list ascii) : list Z :=
  match s with
  | c :: r =>
      match digit_val c with
      | Some d => if d <? radix then d :: take_digits radix r else []
      | None => []
      end
  | [] => []
  end.

(** Value of a most-significant-first digit list. *)
Definition value_msb (radix : Z) (ds : list Z) : Z :=
  fold_left (fun acc d => acc * radix + d) ds 0.

Definition strip_sign (s : list ascii) : bool * list ascii :=
  match s with
  | c :: r => if ord c =? 45 then (true, r)
              else if ord c =? 43 then (false, r) else (false, s)
  | [] => (false, [])
  end.

Definition strip_0x (s : list ascii) : option (list ascii) :=
  match s with
  | c0 :: cx :: r =>
      if (ord c0 =? 48) && ((ord cx =? 120) || (ord cx =? 88)) then Some r else None
  | _ => None
  end.

(** [parseInt(s, radix)]; [radix = None] is the one-argument call. *)
Definition parseInt (s : string) (radix : option Z) : Num :=
  let (neg, s1) := strip_sign (skipWhite (list_ascii_of_string s)) in
  let R := match radix with Some r => r | None => 0 end in
  if (R =? 0) || ((2 <=? R) && (R <=? 36)) then
    let (R', s2) :=
      if (R =? 0) || (R =? 16) then
        match strip_0x s1 with
        | Some r => (16, r)
        | None => (if R =? 0 then 10 else R, s1)
        end
      else (R, s1) in
    match take_digits R' s2 with
    | [] => NNaN
    | ds => NInt ((if neg then -1 else 1) * value_msb R' ds)
    end
  else NNaN.

(** [Math.ceil(a / b)] for integers [a] and positive [b]. *)
Definition ceil_div (a b : Z) : Z := - ((- a) / b).

(** *** Values *)

(** What [JSON.parse] can return, plus [undefined]. Objects are finite maps
    from property names to values. *)
#[warnings="-register-all"]
Inductive Val : Type :=
| VUndefined
| VNull
| VBool (b : bool)
| VNum (n : Num)
| VStr (s : string)
| VArr (l : list Val)
| VObj (m : gmap string Val).

(** Exceptions: an evaluation either completes normally or throws an error
    carrying a message. *)
Inductive Completion (A : Type) : Type :=
| Normal (a : A)
| Throw (msg : string).
Arguments Normal {A} a.
Arguments Throw {A} msg.

#[global] Instance Completion_ret : MRet Completion := fun A a => Normal a.
#[global] Instance Completion_bind : MBind Completion := fun A B f c =>
  match c with
  | Normal a => f a
  | Throw msg => Throw msg
  end.

#[global] Instance Completion_fmap : FMap Completion := fun A B f c =>
  match c with
  | Normal a => Normal (f a)
  | Throw msg => Throw msg
  end.

Definition threw {A} (c : Completion A) : bool :=
  match c with Throw _ => true | Normal _ => false end.

Definition nullish (v : Val) : bool :=
  match v with VUndefined | VNull => true | _ => false end.

(** [v.k]: a [TypeError] on [undefined] and [null]; own properties of
    objects; [length] of arrays and strings; [undefined] otherwise. *)
Definition getProp (v : Val) (k : string) : Completion Val :=
  match v with
  | VUndefined | VNull => Throw "TypeError: Cannot read properties of undefined or null"
  | VObj m => Normal (default VUndefined (m !! k))
  | VArr l => Normal (if String.eqb k "length" then VNum (NInt (Z.of_nat (length l)))
                      else VUndefined)
  | VStr s => Normal (if String.eqb k "length" then VNum (NInt (Z.of_nat (String.length s)))
                      else VUndefined)
  | _ => Normal VUndefined
  end.

(** [v?.k] *)
Definition getOpt (v : Val) (k : string) : Val :=
  match getProp v k with
  | Normal x => x
  | Throw _ => VUndefined
  end.

(** [a ?? b] *)
Definition coalesce (a b : Val) : Val := if nullish a then b else a.

(** ToBoolean *)
Definition truthy (v : Val) : bool :=
  match v with
  | VUndefined | VNull => false
  | VBool b => b
  | VNum (NInt z) => negb (z =? 0)
  | VNum NNaN => false
  | VNum (NInf _) => true
  | VStr s => negb (String.eqb s "")
  | VArr _ | VObj _ => true
  end.

(** [a || b] *)
Definition or_else (a b : Val) : Val := if truthy a then a else b.

(** [v === "s"] *)
Definition strict_eq_str (v : Val) (s : string) : bool :=
  match v with VStr t => String.eqb t s | _ => false end.

Fixpoint all_digits (s : list ascii) : bool :=
  match s with
  | c :: r => (48 <=? ord c) && (ord c <=? 57) && all_digits r
  | [] => true
  end.

(** [Number(s)] for a string: the empty (or blank) string is 0 and a signed
    decimal integer literal is its value.  Everything else is taken to
    [NaN] here; literals with a fraction, an exponent or a radix prefix are
    outside the model, as fractions are. *)
Definition stringToNumber (s : string) : Num :=
  let t := rev (skipWhite (rev (skipWhite (list_ascii_of_string s)))) in
  match t with
  | [] => NInt 0
  | _ =>
      let (neg, ds) := strip_sign t in
      match ds with
      | [] => NNaN
      | _ => if all_digits ds
             then NInt ((if neg then -1 else 1) * value_msb 10 (take_digits 10 ds))
             else NNaN
      end
  end.

(** [Number(v)] on the primitive values; arrays and objects are taken to
    [NaN]. *)
Definition toNumber (v : Val) : Num :=
  match v with
  | VNum n => n
  | VUndefined => NNaN
  | VNull => NInt 0
  | VBool b => NInt (if b then 1 else 0)
  | VStr s => stringToNumber s
  | VArr _ | VObj _ => NNaN
  end.

(** A parameter default: [f(x = d)] takes [d] when [undefined] is passed. *)
Definition default_param (v d : Val) : Val :=
  match v with VUndefined => d | _ => v end.

(** [a.join(sep)] on strings. *)
Definition join (sep : string) (l : list string) : string :=
  match l with
  | [] => ""
  | x :: r => foldl (fun acc y => acc +:+ sep +:+ y) x r
  end.

(** [String(v)], also what a template literal prints. *)
Fixpoint String_val (v : Val) : string :=
  match v with
  | VUndefined => "undefined"
  | VNull => "null"
  | VBool true => "true"
  | VBool false => "false"
  | VNum n => String_of n
  | VStr s => s
  | VArr l =>
      join "," (map (fun x => match x with
                              | VUndefined | VNull => ""
                              | _ => String_val x
                              end) l)
  | VObj _ => "[object Object]"
  end.

(** *** Double-precision arithmetic

    A JavaScript number is an IEEE 754 binary64 value, and so is a
    primitive float of the kernel: [/] and [*] are its division and
    multiplication.  An integer enters as the double nearest to it (the
    standard library's [binary_normalize] at precision 53 and maximal
    exponent 1024, read as a primitive float). *)

Definition double : Set := PrimFloat.float.

Definition prec : Z := 53.
Definition emax : Z := 1024.

Definition double_of_Z (z : Z) : double :=
  FloatOps.SF2Prim (binary_normalize prec emax z 0 false).

Definition double_of_Num (n : Num) : double :=
  match n with
  | NInt z => double_of_Z z
  | NNaN => PrimFloat.nan
  | NInf s => if s then PrimFloat.neg_infinity else PrimFloat.infinity
  end.

Definition ddiv (a b : double) : double := PrimFloat.div a b.
Definition dmul (a b : double) : double := PrimFloat.mul a b.

(** [Math.floor]: the result of flooring a double is integral or not
    finite, so it lives in [Num]. *)
Definition Math_floor (x : double) : Num :=
  match FloatOps.Prim2SF x with
  | S754_nan => NNaN
  | S754_infinity s => NInf s
  | S754_zero _ => NInt 0
  | S754_finite s m e => NInt (Z.shiftl (if s then Z.neg m else Z.pos m) e)
  end.

(** [Math.min] and [Math.max] of two numbers: [NaN] if either is. *)
Definition Math_min (a b : Num) : Num :=
  if isNaN a || isNaN b then NNaN else if leb a b then a else b.
Definition Math_max (a b : Num) : Num :=
  if isNaN a || isNaN b then NNaN else if leb a b then b else a.

(** [Math.round(a / b)] for an integer [a] and a power of two [b] whose
    quotient is exactly representable: round half up. *)
Definition round_div (a b : Z) : Z := (2 * a + b) / (2 * b).

(** [n.toFixed(k)] of a number of the model: an integer followed by [k]
    zeros after the point. *)
Definition toFixed (k : nat) (n : Num) : string :=
  match n with
  | NInt _ =>
      String_of n +:+
        (match k with O => "" | _ => String "." (string_of_list_ascii (replicate k "0"%char)) end)
  | _ => String_of n
  end.

(** *** Arrays of counters

    The histograms are arrays created by [new Array(n).fill(0)] and updated
    by [counts[k]++].  An element is a count, [NaN] (the result of
    incrementing [undefined]) or a hole left when the array was extended. *)
Inductive Cell : Type :=
| Count (c : nat)
| CellNaN
| Hole.

Definition incr_cell (c : Cell) : Cell :=
  match c with
  | Count k => Count (S k)
  | CellNaN | Hole => CellNaN
  end.

(** [counts[k]++].  Inside the array the element is incremented.  An array
    index past the end extends the array: the new last element is
    [undefined + 1 = NaN] and the gap is left as holes.  Any other key
    (negative, [NaN], infinite) names an ordinary property and leaves the
    elements alone. *)
Definition incr_at (counts : list Cell) (k : Num) : list Cell :=
  match k with
  | NInt i =>
      if (0 <=? i) && (i <? 2 ^ 32 - 1) then
        if i <? Z.of_nat (length counts) then alter incr_cell (Z.to_nat i) counts
        else counts ++ replicate (Z.to_nat i - length counts) Hole ++ [CellNaN]
      else counts
  | _ => counts
  end.

(** [new Array(len).fill(0)]: a [RangeError] unless [len] is an integer in
    [0, 2^32). *)
Definition new_counts (len : Num) : Completion (list Cell) :=
  match len with
  | NInt l => if (0 <=? l) && (l <? 2 ^ 32) then Normal (replicate (Z.to_nat l) (Count 0))
              else Throw "RangeError: Invalid array length"
  | _ => Throw "RangeError: Invalid array length"
  end.

(** The array element named by the key [v] in [counts[v]]: a number names
    itself, a string names the number it is the canonical print of, and any
    other key names no element. *)
Definition index_of_key (v : Val) : Num :=
  match v with
  | VNum n => n
  | VStr s => if String.eqb (String_of (stringToNumber s)) s then stringToNumber s else NNaN
  | _ => NNaN
  end.

(** [v + 1] for a value that is not a string, an array or an object. *)
Definition plus_one (v : Val) : Num :=
  match toNumber v with
  | NInt z => NInt (z + 1)
  | n => n
  end.

(** [a - b] on numbers. *)
Definition sub (a b : Num) : Num :=
  match a, b with
  | NInt x, NInt y => NInt (x - y)
  | NNaN, _ | _, NNaN => NNaN
  | NInf s, NInt _ => NInf s
  | NInt _, NInf s => NInf (negb s)
  | NInf s1, NInf s2 => if Bool.eqb s1 s2 then NNaN else NInf s1
  end.

(** [1 << bits] for a number: [ToInt32] takes [NaN] and the infinities to 0. *)
Definition shl_Num (a : Z) (bits : Num) : Z :=
  shl a (match bits with NInt b => b | _ => 0 end).

(** ToLength, as [padStart] applies it to its width. *)
Definition toLength (n : Num) : Z :=
  match n with
  | NInt z => Z.max 0 z
  | NNaN => 0
  | NInf true => 0
  | NInf false => 2 ^ 53 - 1
  end.

Definition newline : string := String (chr 10) "".

(** *** Handlers

    A handler body runs over the page state and may throw; what it did to
    the state before throwing stays done. *)
Definition Eff (S A : Type) : Type := S → Completion A * S.

#[global] Instance Eff_ret {S} : MRet (Eff S) := fun A a s => (Normal a, s).
#[global] Instance Eff_bind {S} : MBind (Eff S) := fun A B k c s =>
  match c s with
  | (Normal a, s') => k a s'
  | (Throw msg, s') => (Throw msg, s')
  end.

Definition lift {S A} (c : Completion A) : Eff S A := fun s => (c, s).
Definition modify {S} (f : S → S) : Eff S unit := fun s => (Normal tt, f s).
Definition throw {S A} (msg : string) : Eff S A := fun s => (Throw msg, s).

(** A handler body leaves a component [f] of the state alone. *)
Definition preserves {S A X} (f : S → X) (c : Eff S A) : Prop :=
  forall s, f (snd (c s)) = f s.

(** [try { body } catch (err) { handler(err.message) }] *)
Definition try_catch {S} (body : Eff S unit) (handler : string → S → S) (s : S) : S :=
  match body s with
  | (Normal _, s') => s'
  | (Throw msg, s') => handler msg s'
  end.

(** A bar chart handed to the charting library: labels and data. *)
Record Chart : Type := mkChart { labels : list string; data : list Cell }.

(** *** The network

    What [fetch] gives back: a rejected promise (network failure) or a
    response with its [ok] flag, its body parsed as JSON ([None] when the
    body is not valid JSON) and its text. *)
Inductive HttpReply : Type :=
| NetworkError
| Reply (ok : bool) (json : option Val) (text : string).

(** *** More of double-precision arithmetic *)

Definition dadd (a b : double) : double := PrimFloat.add a b.

(** The integer [n] for which [n / 10^f] is closest to [m * 2^e], the
    larger one of two that are equally close. *)
Definition scaled_round (f : nat) (m : positive) (e : Z) : Z :=
  if 0 <=? e then Z.pos m * 10 ^ Z.of_nat f * 2 ^ e
  else (2 * Z.pos m * 10 ^ Z.of_nat f + 2 ^ (- e)) / 2 ^ (- e + 1).

(** The digits of [n] with a point before the last [f] of them, zeros put
    in front so that a digit stands before the point. *)
Definition point_string (f : nat) (n : Z) : string :=
  let ds := digit_string 10 n in
  let ds := replicate (f + 1 - length ds) "0"%char ++ ds in
  let k := (length ds - f)%nat in
  string_of_list_ascii
    (take k ds ++ match f with O => [] | _ => "."%char :: drop k ds end).

(** [x.toFixed(f)] for a double below [10^21] in magnitude. *)
Definition toFixed_double (f : nat) (x : double) : string :=
  match FloatOps.Prim2SF x with
  | S754_nan => "NaN"
  | S754_infinity s => if s then "-Infinity" else "Infinity"
  | S754_zero _ => point_string f 0
  | S754_finite s m e =>
      (if s then "-" else "") +:+ point_string f (scaled_round f m e)
  end.

(** *** More of [String.prototype] *)

Fixpoint starts_with (s prefix : list ascii) : bool :=
  match prefix, s with
  | [], _ => true
  | c :: prefix', d :: s' => (ord c =? ord d) && starts_with s' prefix'
  | _ :: _, [] => false
  end.

(** [s.endsWith(suffix)] *)
Definition endsWith (s suffix : string) : bool :=
  starts_with (rev (list_ascii_of_string s)) (rev (list_ascii_of_string suffix)).

Fixpoint occurs_in (s sub : list ascii) : bool :=
  starts_with s sub || match s with
                       | [] => false
                       | _ :: s' => occurs_in s' sub
                       end.

(** [s.includes(sub)] *)
Definition includes (s sub : string) : bool :=
  occurs_in (list_ascii_of_string s) (list_ascii_of_string sub).

(** *** Errors and responses, in full

    Where a script builds its messages from the status of a response, or
    tells errors apart by their name, the error is an object with a [name]
    and a [message], and a response carries its status code. *)
Record JsError : Type := mkError { err_name : string; err_message : string }.

(** [new Error(msg)] *)
Definition new_Error (msg : string) : JsError := mkError "Error" msg.

(** What [fetch] settles to: a rejection, or a response with its [ok] flag,
    its status code and what reading its body gives. *)
Inductive FetchResult : Type :=
| FetchRejected (e : JsError)
| FetchResponse (ok : bool) (status : Z) (text : JsError + string).

(** *** Notions used to state facts about digits *)

(** Value of a least-significant-first digit list. *)
Definition value_lsb (radix : Z) (ds : list Z) : Z :=
  fold_right (fun d acc => d + radix * acc) 0 ds.

(** A character that reads as its digit whether or not it is put in upper
    case, and that is neither white space, a sign nor the [x] of a radix
    prefix: checked for the digit characters below. *)
Definition digit_ok (d : Z) : bool :=
  match digit_val (digit_char d), digit_val (upper_char (digit_char d)) with
  | Some a, Some b =>
      (a =? d) && (b =? d) && negb (isWhite (digit_char d))
      && negb (ord (digit_char d) =? 45) && negb (ord (digit_char d) =? 43)
      && negb (ord (digit_char d) =? 120) && negb (ord (digit_char d) =? 88)
      && negb (isWhite (upper_char (digit_char d)))
      && negb (ord (upper_char (digit_char d)) =? 45) && negb (ord (upper_char (digit_char d)) =? 43)
      && negb (ord (upper_char (digit_char d)) =? 120) && negb (ord (upper_char (digit_char d)) =? 88)
      && (ord (upper_char (upper_char (digit_char d))) =? ord (upper_char (digit_char d)))
  | _, _ => false
  end.

(** A character that reads as the digit [d] in [radix] and is neither white
    space, a sign nor the [x] of a radix prefix. *)
Definition plain (radix : Z) (c : ascii) (d : Z) : Prop :=
  digit_val c = Some d /\ 0 <= d < radix /\ isWhite c = false
  /\ ord c <> 45 /\ ord c <> 43 /\ ord c <> 120 /\ ord c <> 88.

End Js.

(* ===================================================================== *)
(** ** src/unnamed/part_001: frontend-v2.0-sync.js *)
(* ===================================================================== *)

Module V2Sync.
Import Js.

Definition MAX_SAMPLES : Z := 5000.
Definition MAX_BITS : Z := 16.
Definition BUCKET_THRESHOLD_BITS : Z := 12.

(** The page: the document as a map from element ids to their text (an
    absent id is an element [el] does not find), the last response, the
    chart, and the traces of toasts shown and of request bodies posted to
    [/generate]. *)
Record Page : Type := mkPage {
  dom : gmap string string;
  lastResponse : Val;
  distributionChart : option Chart;
  toasts : list (string * string);
  requests : list Val
}.

Definition set_dom (d : gmap string string) (p : Page) : Page :=
  mkPage d (lastResponse p) (distributionChart p) (toasts p) (requests p).
Definition set_lastResponse (v : Val) (p : Page) : Page :=
  mkPage (dom p) v (distributionChart p) (toasts p) (requests p).
Definition set_chart (c : option Chart) (p : Page) : Page :=
  mkPage (dom p) (lastResponse p) c (toasts p) (requests p).
Definition showToast (msg type : string) (p : Page) : Page :=
  mkPage (dom p) (lastResponse p) (distributionChart p) (toasts p ++ [(msg, type)]) (requests p).
Definition log_request (body : Val) (p : Page) : Page :=
  mkPage (dom p) (lastResponse p) (distributionChart p) (toasts p) (requests p ++ [body]).

(** [if (el(id)) el(id).textContent = txt] *)
Definition setText (id txt : string) (d : gmap string string) : gmap string string :=
  match d !! id with
  | Some _ => <[id := txt]> d
  | None => d
  end.

(** [generateRandomNumbers]: posts [{num_bits, num_samples}]; throws on a
    network failure and on a status that is not ok; [res.json()] rejects on
    a body that is not JSON. *)
Definition request_body (numBits numSamples : Num) : Val :=
  VObj {[ "num_bits" := VNum (parseInt (String_of numBits) (Some 10));
          "num_samples" := VNum (parseInt (String_of numSamples) (Some 10)) ]}.

Definition generateRandomNumbers (reply : HttpReply) : Completion Val :=
  match reply with
  | NetworkError => Throw "TypeError: Failed to fetch"
  | Reply false _ text => Throw ("Server error: " +:+ text)
  | Reply true None _ => Throw "SyntaxError: Unexpected token in JSON"
  | Reply true (Some json) _ => Normal json
  end.

(** [formatNumber(number, numBits)]: the decimal string padded to the width
    of the largest [numBits]-bit value. *)
Definition formatNumber (number : Num) (numBits : Z) : string :=
  let n := number in
  let maxValue := NInt (2 ^ numBits - 1) in
  let width := Z.of_nat (String.length (String_of maxValue)) in
  padStart (String_of n) width "0".

Definition dash : string := "—".

(** The object [updateStatistics] reads the four values from:
    [s.statistics ?? s.stats ?? s]. *)
Definition statsObj_of (statsCandidate : Val) : Completion Val :=
  let s := or_else (default_param statsCandidate (VObj ∅)) (VObj ∅) in
  a ← getProp s "statistics";
  b ← getProp s "stats";
  mret (coalesce (coalesce a b) s).

(** [x.k ?? x?.k ?? 0] *)
Definition field_or_0 (x : Val) (k : string) : Completion Val :=
  a ← getProp x k;
  mret (coalesce (coalesce a (getOpt x k)) (VNum (NInt 0))).

(** [updateStatistics(statsCandidate)] *)
Definition updateStatistics (statsCandidate : Val) (d : gmap string string)
  : Completion (gmap string string) :=
  statsObj ← statsObj_of statsCandidate;
  mean ← toNumber <$> field_or_0 statsObj "mean";
  std ← toNumber <$> field_or_0 statsObj "std";
  min ← field_or_0 statsObj "min";
  max ← field_or_0 statsObj "max";
  let d := setText "meanValue" (if isFinite mean then toFixed 2 mean else dash) d in
  let d := setText "stdValue" (if isFinite std then toFixed 2 std else dash) d in
  let d := setText "minValue" (if negb (nullish min) then String_val min else dash) d in
  let d := setText "maxValue" (if negb (nullish max) then String_val max else dash) d in
  mret d.

(** [updateSourceIndicator(source)] *)
Definition updateSourceIndicator (source : Val) (d : gmap string string)
  : gmap string string :=
  setText "sourceIndicator"
    (if strict_eq_str source "ANU" then "ANU Quantum Source" else "Qiskit Simulator") d.

(** [updateMeta(meta)] with [meta = {version, timestamp, source}]. *)
Definition updateMeta (version timestamp source : Val) (d : gmap string string)
  : gmap string string :=
  let d := if truthy version then setText "metaVersion" (String_val version) d else d in
  let d := if truthy timestamp then setText "metaTime" (String_val timestamp) d else d in
  if truthy source then updateSourceIndicator source d else d.

Definition inRange (maxValue : Z) (n : Num) : bool :=
  geb n (NInt 0) && leb n (NInt maxValue).

(** [Math.floor((n / maxValue) * (BUCKETS - 1))] in double precision. *)
Definition bucketIndex (maxValue : Z) (n : Num) : Num :=
  Math_floor (dmul (ddiv (double_of_Num n) (double_of_Z maxValue)) (double_of_Z (256 - 1))).

(** [Math.max(0, Math.min(BUCKETS - 1, idx))] *)
Definition clampIndex (idx : Num) : Num :=
  Math_max (NInt 0) (Math_min (NInt (256 - 1)) idx).

Definition exact_step (maxValue : Z) (counts : list Cell) (n : Num) : list Cell :=
  if geb n (NInt 0) && leb n (NInt maxValue) then incr_at counts n else counts.

Definition bucket_step (maxValue : Z) (counts : list Cell) (n : Num) : list Cell :=
  if ltb n (NInt 0) || gtb n (NInt maxValue) || negb (isFinite n) then counts
  else incr_at counts (clampIndex (bucketIndex maxValue n)).

Definition range_label (maxValue : Z) (i : nat) : string :=
  let from := round_div (Z.of_nat i * maxValue) 256 in
  let to := round_div ((Z.of_nat i + 1) * maxValue) 256 in
  String_of (NInt from) +:+ "–" +:+ String_of (NInt to).

(** [renderDistributionGraph(numbers, numBits)].  [canvas] tells whether the
    page has the chart's canvas.  [None] is a return without drawing. *)
Definition renderDistributionGraph (canvas : bool) (numbers : Val) (numBits : Num)
  : Completion (option Chart) :=
  if negb canvas then Normal None else
  let bits := parseInt (String_of numBits) (Some 10) in
  if isNaN bits || ltb bits (NInt 1) then Normal None else
  match default_param numbers (VArr []), bits with
  | VArr l, NInt b =>
      let nums := List.filter isFinite (map toNumber l) in
      let maxValue := shl 1 b - 1 in
      if (b <=? BUCKET_THRESHOLD_BITS) && (maxValue <=? 4096) then
        counts0 ← new_counts (NInt (maxValue + 1));
        let counts := foldl (exact_step maxValue) counts0 nums in
        mret (Some (mkChart (imap (fun i _ => String_of (NInt (Z.of_nat i))) counts) counts))
      else
        let counts := foldl (bucket_step maxValue) (replicate 256 (Count 0)) nums in
        mret (Some (mkChart (imap (fun i _ => range_label maxValue i) counts) counts))
  | _, _ => Throw "TypeError: numbers.map is not a function"
  end.

Definition table_row (numBits : Num) (i : nat) (n : Val) : string :=
  let decimal := String_val n in
  let binary := padStart (Number_toString 2 (toNumber n))
                  (toLength (parseInt (String_of numBits) (Some 10))) "0" in
  String_of (NInt (Z.of_nat i + 1)) +:+ ". " +:+ decimal +:+ " " +:+ binary.

(** [renderTable(numbers, numBits)]: into [resultDisplay] when the page has
    it, else into [tableBody], else nothing. *)
Definition renderTable (numbers : Val) (numBits : Num) (d : gmap string string)
  : Completion (gmap string string) :=
  match d !! "resultDisplay", d !! "tableBody" with
  | None, None => Normal d
  | Some _, _ =>
      match default_param numbers (VArr []) with
      | VArr l => Normal (<["resultDisplay" := join newline (imap (table_row numBits) l)]> d)
      | _ => Throw "TypeError: numbers.forEach is not a function"
      end
  | None, Some _ =>
      match default_param numbers (VArr []) with
      | VArr l =>
          Normal (<["tableBody" :=
                     join newline (imap (fun i n => String_of (NInt (Z.of_nat i + 1))
                                                    +:+ " " +:+ String_val n) l)]> d)
      | _ => Throw "TypeError: numbers.forEach is not a function"
      end
  end.

(** [showSkeletons()] *)
Definition showSkeletons (d : gmap string string) : gmap string string :=
  setText "resultDisplay" "" d.

(** Run a rendering function on the document; nothing is written when it
    throws. *)
Definition on_dom (f : gmap string string → Completion (gmap string string))
  : Eff Page unit :=
  fun p => match f (dom p) with
           | Normal d => (Normal tt, set_dom d p)
           | Throw m => (Throw m, p)
           end.

(** Draw the chart; the global keeps the old chart when nothing is drawn. *)
Definition draw_chart (numbers : Val) (numBits : Num) : Eff Page unit :=
  fun p => match renderDistributionGraph
                   (bool_decide (is_Some (dom p !! "distributionChart"))) numbers numBits with
           | Normal (Some c) => (Normal tt, set_chart (Some c) p)
           | Normal None => (Normal tt, p)
           | Throw m => (Throw m, p)
           end.

(** [data.stats ?? data.statistics ?? data] *)
Definition select_stats (data : Val) : Completion Val :=
  stats_a ← getProp data "stats";
  stats_b ← getProp data "statistics";
  mret (coalesce (coalesce stats_a stats_b) data).

(** [if (data.status !== 'success') throw new Error(data.message || 'Generation error')] *)
Definition check_status (data : Val) : Completion unit :=
  status ← getProp data "status";
  if negb (strict_eq_str status "success")
  then message ← getProp data "message";
       Throw (String_val (or_else message (VStr "Generation error")))
  else mret tt.

(** The same test in the block of lines 109-150, the success handling
    written out as a template for the handler:
    [if (data.status !== 'success') throw new Error(data.message || JSON.stringify(data))],
    with the browser's serialiser as a parameter. *)
Definition check_status_block (JSON_stringify : Val → string) (data : Val)
  : Completion unit :=
  status ← getProp data "status";
  if negb (strict_eq_str status "success")
  then message ← getProp data "message";
       Throw (if truthy message then String_val message else JSON_stringify data)
  else mret tt.

(** What the [try] block does with the response once it is saved. *)
Definition render_response (data : Val) (bits : Num) : Eff Page unit :=
  stats ← lift (select_stats data);
  on_dom (updateStatistics stats);;
  version ← lift (getProp data "version");
  timestamp ← lift (getProp data "timestamp");
  source ← lift (getProp data "source");
  meta ← lift (getProp data "meta");
  modify (fun p => set_dom (updateMeta (coalesce version (getOpt meta "version"))
                                       (coalesce timestamp (getOpt meta "timestamp"))
                                       (coalesce source (getOpt meta "source")) (dom p)) p);;
  data_numbers ← lift (getProp data "numbers");
  let numbers := or_else data_numbers (VArr []) in
  on_dom (renderTable numbers bits);;
  draw_chart numbers bits;;
  entropy ← lift (getProp data "entropy");
  stats_entropy ← lift (getProp stats "entropy");
  let e := coalesce (coalesce (coalesce entropy (getOpt meta "entropy")) stats_entropy) VNull in
  modify (fun p => set_dom (setText "entropyValue"
                              (if negb (nullish e) then toFixed 4 (toNumber e) else dash)
                              (dom p)) p);;
  num_samples ← lift (getProp data "num_samples");
  let shown := coalesce (coalesce num_samples (getOpt data_numbers "length")) (VStr "N/A") in
  modify (showToast ("Generated " +:+ String_val shown +:+ " samples ("
                       +:+ String_val source +:+ ")") "success").

(** The [try] block of the click handler, after validation. *)
Definition generate_body (backend : Val → HttpReply) (bits samples : Num) : Eff Page unit :=
  modify (fun p => set_dom (showSkeletons (dom p)) p);;
  modify (log_request (request_body bits samples));;
  data ← lift (generateRandomNumbers (backend (request_body bits samples)));
  lift (check_status data);;
  modify (set_lastResponse data);;
  render_response data bits.

(** The [catch] block. *)
Definition generate_failed (msg : string) (p : Page) : Page :=
  let m := if String.eqb msg "" then "Generation failed" else msg in
  set_dom (setText "resultDisplay" m (dom (showToast m "error" p))) (showToast m "error" p).

(** The checks at the head of the click handler: the message of the toast
    it returns with, or the two numbers it goes on with. *)
Definition validate (p : Page) : string + Num * Num :=
  match dom p !! "numBits", dom p !! "numSamples" with
  | Some bitsValue, Some samplesValue =>
      let bits := parseInt bitsValue (Some 10) in
      let samples := parseInt samplesValue (Some 10) in
      if isNaN bits || isNaN samples then inl "Enter valid numbers"
      else
        let bits := if ltb bits (NInt 1) then NInt 1 else bits in
        if gtb bits (NInt MAX_BITS) then inl "numBits max 16"
        else if ltb samples (NInt 1) || gtb samples (NInt MAX_SAMPLES)
        then inl "samples 1..5000"
        else inr (bits, samples)
  | _, _ => inl "Missing inputs"
  end.

(** The click handler installed by [initGenerateHandler]. *)
Definition onGenerate (backend : Val → HttpReply) (p : Page) : Page :=
  match validate p with
  | inl msg => showToast msg "error" p
  | inr (bits, samples) => try_catch (generate_body backend bits samples) generate_failed p
  end.

End V2Sync.

(* ===================================================================== *)
(** ** src/frontend/assets/app.js *)
(* ===================================================================== *)

Module AssetsApp.
Import Js.

Definition MAX_SAMPLES : Z := 5000.
Definition MAX_BITS : Z := 16.

(** The page: the document (element id to text), the two globals, the
    transient messages put up by [showError] and the request bodies posted
    to [/generate]. *)
Record Page : Type := mkPage {
  dom : gmap string string;
  lastResponse : Val;
  distributionChart : option Chart;
  errors : list string;
  requests : list Val
}.

Definition set_dom (d : gmap string string) (p : Page) : Page :=
  mkPage d (lastResponse p) (distributionChart p) (errors p) (requests p).
Definition set_lastResponse (v : Val) (p : Page) : Page :=
  mkPage (dom p) v (distributionChart p) (errors p) (requests p).
Definition set_chart (c : option Chart) (p : Page) : Page :=
  mkPage (dom p) (lastResponse p) c (errors p) (requests p).
Definition showError (msg : string) (p : Page) : Page :=
  mkPage (dom p) (lastResponse p) (distributionChart p) (errors p ++ [msg]) (requests p).
Definition log_request (body : Val) (p : Page) : Page :=
  mkPage (dom p) (lastResponse p) (distributionChart p) (errors p) (requests p ++ [body]).

Definition setText (id txt : string) (d : gmap string string) : gmap string string :=
  match d !! id with
  | Some _ => <[id := txt]> d
  | None => d
  end.

Definition request_body (numBits numSamples : Num) : Val :=
  VObj {[ "num_bits" := VNum (parseInt (String_of numBits) (Some 10));
          "num_samples" := VNum (parseInt (String_of numSamples) (Some 10)) ]}.

(** [generateRandomNumbers]: every failure is rethrown under one message. *)
Definition generateRandomNumbers (reply : HttpReply) : Completion Val :=
  match reply with
  | Reply true (Some json) _ => Normal json
  | _ => Throw "Failed to generate random numbers. Please ensure the backend server is running."
  end.

Definition formatNumber (number : Num) (numBits : Z) : string :=
  let n := number in
  let maxValue := NInt (2 ^ numBits - 1) in
  let width := Z.of_nat (String.length (String_of maxValue)) in
  padStart (String_of n) width "0".

(** [(v ?? 0).toFixed(2)]: only numbers have [toFixed]. *)
Definition toFixed2_or_0 (v : Val) : Completion string :=
  match coalesce v (VNum (NInt 0)) with
  | VNum n => Normal (toFixed 2 n)
  | _ => Throw "TypeError: toFixed is not a function"
  end.

(** [updateStatistics(stats)] *)
Definition updateStatistics (stats : Val) (d : gmap string string)
  : Completion (gmap string string) :=
  let stats := default_param stats (VObj ∅) in
  d ← match d !! "meanValue" with
      | Some _ => mean ← getProp stats "mean"; t ← toFixed2_or_0 mean;
                  mret (<["meanValue" := t]> d)
      | None => mret d
      end;
  d ← match d !! "stdValue" with
      | Some _ => std ← getProp stats "std"; t ← toFixed2_or_0 std;
                  mret (<["stdValue" := t]> d)
      | None => mret d
      end;
  d ← match d !! "minValue" with
      | Some _ => min ← getProp stats "min";
                  mret (<["minValue" := String_val (coalesce min (VNum (NInt 0)))]> d)
      | None => mret d
      end;
  match d !! "maxValue" with
  | Some _ => max ← getProp stats "max";
              mret (<["maxValue" := String_val (coalesce max (VNum (NInt 0)))]> d)
  | None => mret d
  end.

Definition updateSourceIndicator (source : Val) (d : gmap string string)
  : gmap string string :=
  setText "sourceIndicator"
    (if strict_eq_str source "ANU" then "ANU Quantum Source" else "Qiskit Simulator") d.

(** [Math.floor((n / maxValue) * (BUCKETS - 1))] in double precision. *)
Definition bucketIndex (maxValue : Z) (n : Num) : Num :=
  Math_floor (dmul (ddiv (double_of_Num n) (double_of_Z maxValue)) (double_of_Z (256 - 1))).

Definition clampIndex (idx : Num) : Num :=
  Math_max (NInt 0) (Math_min (NInt (256 - 1)) idx).

Definition exact_step (maxValue : Z) (counts : list Cell) (n : Num) : list Cell :=
  if isFinite n && geb n (NInt 0) && leb n (NInt maxValue) then incr_at counts n else counts.

Definition bucket_step (maxValue : Z) (counts : list Cell) (n : Num) : list Cell :=
  if negb (isFinite n) then counts
  else incr_at counts (clampIndex (bucketIndex maxValue n)).

Definition range_label (maxValue : Z) (i : nat) : string :=
  let from := round_div (Z.of_nat i * maxValue) 256 in
  let to := round_div ((Z.of_nat i + 1) * maxValue) 256 in
  String_of (NInt from) +:+ "–" +:+ String_of (NInt to).

(** [renderDistributionGraph(numbers, numBits)] *)
Definition renderDistributionGraph (canvas : bool) (numbers : Val) (numBits : Num)
  : Completion (option Chart) :=
  if negb canvas then Normal None else
  let bits := parseInt (String_of numBits) (Some 10) in
  if isNaN bits || ltb bits (NInt 1) then Normal None else
  match default_param numbers (VArr []), bits with
  | VArr l, NInt b =>
      let rawNumbers := map toNumber l in
      let maxValue := shl 1 b - 1 in
      if (b <=? 12) && (maxValue <=? 4096) then
        counts0 ← new_counts (NInt (maxValue + 1));
        let counts := foldl (exact_step maxValue) counts0 rawNumbers in
        mret (Some (mkChart (map (fun i => String_of (NInt i)) (seqZ 0 (maxValue + 1))) counts))
      else
        let counts := foldl (bucket_step maxValue) (replicate 256 (Count 0)) rawNumbers in
        mret (Some (mkChart (imap (fun i _ => range_label maxValue i) counts) counts))
  | _, _ => Throw "TypeError: numbers.map is not a function"
  end.

Definition table_row (numBits : Num) (i : nat) (n : Val) : string :=
  let decimal := String_val n in
  let binary := padStart (Number_toString 2 (toNumber n))
                  (toLength (parseInt (String_of numBits) (Some 10))) "0" in
  String_of (NInt (Z.of_nat i + 1)) +:+ ". " +:+ decimal +:+ " " +:+ binary.

(** [renderTable(numbers, numBits)] *)
Definition renderTable (numbers : Val) (numBits : Num) (d : gmap string string)
  : Completion (gmap string string) :=
  match d !! "resultDisplay" with
  | None => Normal d
  | Some _ =>
      match default_param numbers (VArr []) with
      | VArr l => Normal (<["resultDisplay" := join newline (imap (table_row numBits) l)]> d)
      | _ => Throw "TypeError: numbers.forEach is not a function"
      end
  end.

Definition on_dom (f : gmap string string → Completion (gmap string string))
  : Eff Page unit :=
  fun p => match f (dom p) with
           | Normal d => (Normal tt, set_dom d p)
           | Throw m => (Throw m, p)
           end.

(** Draw the chart; the global keeps the old chart when nothing is drawn. *)
Definition draw_chart (numbers : Val) (numBits : Num) : Eff Page unit :=
  fun p => match renderDistributionGraph
                   (bool_decide (is_Some (dom p !! "distributionChart"))) numbers numBits with
           | Normal (Some c) => (Normal tt, set_chart (Some c) p)
           | Normal None => (Normal tt, p)
           | Throw m => (Throw m, p)
           end.

(** What the [try] block does with the response once it is saved. *)
Definition render_response (result : Val) (numBits : Num) : Eff Page unit :=
  source ← lift (getProp result "source");
  modify (fun p => set_dom (updateSourceIndicator source (dom p)) p);;
  raw ← lift (getProp result "numbers");
  numbers ← lift (match or_else raw (VArr []) with
                  | VArr l => Normal (VArr (map (fun x => VNum (toNumber x)) l))
                  | _ => Throw "TypeError: map is not a function"
                  end);
  on_dom (renderTable numbers numBits);;
  statistics ← lift (getProp result "statistics");
  on_dom (updateStatistics (or_else statistics (VObj ∅)));;
  draw_chart numbers numBits.

(** The [try] block of the click handler, after validation. *)
Definition generate_body (backend : Val → HttpReply) (numBits numSamples : Num)
  : Eff Page unit :=
  modify (log_request (request_body numBits numSamples));;
  result ← lift (generateRandomNumbers (backend (request_body numBits numSamples)));
  modify (set_lastResponse result);;
  render_response result numBits.

(** The [catch] block. *)
Definition generate_failed (msg : string) (p : Page) : Page :=
  let p := showError (if String.eqb msg "" then "Generation failed." else msg) p in
  set_dom (setText "resultDisplay" msg (dom p)) p.

(** The checks at the head of the click handler: the message it returns
    with, or the two numbers it goes on with. *)
Definition validate (p : Page) : string + Num * Num :=
  match dom p !! "numBits", dom p !! "numSamples" with
  | Some bitsValue, Some samplesValue =>
      let numBits := parseInt bitsValue (Some 10) in
      let numSamples := parseInt samplesValue (Some 10) in
      if isNaN numBits || isNaN numSamples
      then inl "Please enter valid numeric values."
      else
        let numBits := if ltb numBits (NInt 1) then NInt 1 else numBits in
        if gtb numBits (NInt MAX_BITS)
        then inl "numBits too large for safe visualization. Max allowed is 16."
        else if ltb numSamples (NInt 1) || gtb numSamples (NInt MAX_SAMPLES)
        then inl "Quantity must be between 1 and 5000"
        else inr (numBits, numSamples)
  | _, _ => inl "Missing input elements"
  end.

(** The click handler installed by [initGenerateHandler]. *)
Definition onGenerate (backend : Val → HttpReply) (p : Page) : Page :=
  match validate p with
  | inl msg => showError msg p
  | inr (numBits, numSamples) =>
      try_catch (generate_body backend numBits numSamples) generate_failed p
  end.

(** The [input] handler that [initInputValidation] installs on the
    [numSamples] field, when the page has one:
    [if (isNaN(value) || value < 1) e.target.value = 1;
     if (value > MAX_SAMPLES) e.target.value = MAX_SAMPLES]. *)
Definition onSamplesInput (p : Page) : Page :=
  match dom p !! "numSamples" with
  | None => p
  | Some v =>
      let value := parseInt v (Some 10) in
      let v := if isNaN value || ltb value (NInt 1) then String_of (NInt 1) else v in
      let v := if gtb value (NInt MAX_SAMPLES) then String_of (NInt MAX_SAMPLES) else v in
      set_dom (<["numSamples" := v]> (dom p)) p
  end.

(** [parseInt(el('numBits')?.value || '1', 10)] *)
Definition export_bits (p : Page) : Num :=
  parseInt (match dom p !! "numBits" with
            | Some v => if String.eqb v "" then "1" else v
            | None => "1"
            end) (Some 10).

Definition csv_row (bits : Num) (i : nat) (n : Val) : string :=
  let dec := toNumber n in
  String_of (NInt (Z.of_nat i + 1)) +:+ "," +:+ String_of dec +:+ ","
    +:+ padStart (Number_toString 2 dec) (toLength bits) "0".

(** The click handler that [initDownloadCsv] installs: the page it leaves
    and the file it hands to [download], if any.  An exception in it is not
    caught: the handler ends and nothing is downloaded. *)
Definition onDownloadCsv (p : Page) : Page * option (string * string) :=
  let no_numbers :=
    negb (truthy (lastResponse p))
    || match getProp (lastResponse p) "numbers" with
       | Normal numbers => negb (truthy numbers)
       | Throw _ => true
       end in
  if no_numbers then (showError "No data to download" p, None)
  else
    match getProp (lastResponse p) "numbers" with
    | Normal (VArr l) =>
        (p, Some ("qrng_numbers.csv",
                  join newline ("index,decimal,binary" :: imap (csv_row (export_bits p)) l)))
    | _ => (p, None)
    end.

(** The click handler that [initDownloadJson] installs, with the browser's
    serialiser as a parameter. *)
Definition onDownloadJson (JSON_stringify : Val → string) (p : Page)
  : Page * option (string * string) :=
  if negb (truthy (lastResponse p)) then (showError "No data to download" p, None)
  else (p, Some ("qrng_response.json", JSON_stringify (lastResponse p))).

End AssetsApp.

(* ===================================================================== *)
(** ** src/frontend/app.js *)
(* ===================================================================== *)

Module FrontendApp.
Import Js.

(** [formatNumber(num, format, bits = 8)] *)
Definition formatNumber (num : Num) (format : string) (bits : Z) : string :=
  let number := parseInt (String_of num) None in
  if String.eqb format "binary" then
    padStart (Number_toString 2 number) bits "0"
  else if String.eqb format "hexadecimal" then
    let hexDigits := ceil_div bits 4 in
    padStart (toUpperCase (Number_toString 16 number)) hexDigits "0"
  else
    Number_toString 10 number.

(** [formatNumberArray(numbers, format, bits)] *)
Definition formatNumberArray (numbers : Val) (format : string) (bits : Z) : list string :=
  match numbers with
  | VArr l => map (fun num => formatNumber (toNumber num) format bits) l
  | _ => []
  end.

Definition getFormatDisplayName (format : string) : string :=
  if String.eqb format "decimal" then "Decimal"
  else if String.eqb format "binary" then "Binary"
  else if String.eqb format "hexadecimal" then "Hexadecimal"
  else "Decimal".

(** The page: the token in local storage, the guest flag, the values of the
    three inputs ([None] for an input the page does not have), the last
    response, and the traces of toasts and of bodies posted to
    [/generate]. *)
Record Page : Type := mkPage {
  token : option string;
  isGuestMode : bool;
  numBitsEl : option string;
  numSamplesEl : option string;
  formatEl : option string;
  lastResponse : Val;
  toasts : list (string * string);
  requests : list Val
}.

Definition set_lastResponse (v : Val) (p : Page) : Page :=
  mkPage (token p) (isGuestMode p) (numBitsEl p) (numSamplesEl p) (formatEl p)
         v (toasts p) (requests p).
Definition showToast (msg type : string) (p : Page) : Page :=
  mkPage (token p) (isGuestMode p) (numBitsEl p) (numSamplesEl p) (formatEl p)
         (lastResponse p) (toasts p ++ [(msg, type)]) (requests p).
Definition log_request (body : Val) (p : Page) : Page :=
  mkPage (token p) (isGuestMode p) (numBitsEl p) (numSamplesEl p) (formatEl p)
         (lastResponse p) (toasts p) (requests p ++ [body]).

(** [!getAuthToken()]: no token, or an empty one. *)
Definition no_token (p : Page) : bool :=
  match token p with
  | Some t => String.eqb t ""
  | None => true
  end.

(** [apiPost(path, body)]: returns the parsed body of an ok response and
    throws in every other case. *)
Definition apiPost (reply : HttpReply) : Completion Val :=
  match reply with
  | NetworkError => Throw "Cannot connect to server. Is the backend running?"
  | Reply true (Some json) _ => Normal json
  | Reply true None _ => Throw "SyntaxError: Unexpected token in JSON"
  | Reply false _ text => Throw text
  end.

Definition request_body (num_bits num_samples : Num) (format : string) : Val :=
  VObj {[ "num_bits" := VNum num_bits; "num_samples" := VNum num_samples;
          "format" := VStr format ]}.

(** [numBitsEl ? parseInt(numBitsEl.value || 8, 10) : 8] *)
Definition read_num_bits (p : Page) : Num :=
  match numBitsEl p with
  | Some v => parseInt (if String.eqb v "" then "8" else v) (Some 10)
  | None => NInt 8
  end.

(** [numSamplesEl ? parseInt(numSamplesEl.value || 10, 10) : 10] *)
Definition read_num_samples (p : Page) : Num :=
  match numSamplesEl p with
  | Some v => parseInt (if String.eqb v "" then "10" else v) (Some 10)
  | None => NInt 10
  end.

(** [formatEl ? formatEl.value || 'decimal' : 'decimal'] *)
Definition read_format (p : Page) : string :=
  match formatEl p with
  | Some v => if String.eqb v "" then "decimal" else v
  | None => "decimal"
  end.

(** The checks at the head of the click handler: the message of the toast
    it returns with, or the two numbers it goes on with. *)
Definition validate (p : Page) : string + Num * Num :=
  if no_token p && negb (isGuestMode p)
  then inl "Please login or continue as guest to generate numbers"
  else
    let num_bits := read_num_bits p in
    let num_samples := read_num_samples p in
    if isNaN num_bits || ltb num_bits (NInt 1) || gtb num_bits (NInt 16)
    then inl "Number of bits must be between 1 and 16"
    else if isNaN num_samples || ltb num_samples (NInt 1) || gtb num_samples (NInt 5000)
    then inl "Number of samples must be between 1 and 5000"
    else inr (num_bits, num_samples).

Section Handler.

(** [renderGenerationResult] is called by the handler; its definition is in
    the part of the script that the file leaves out.  It is a parameter
    here: it may complete or throw. *)
Variable renderGenerationResult : Val → string → Num → Completion unit.

(** What the [try] block does with the response once it is saved. *)
Definition render_response (res : Val) (format : string) (num_bits : Num) : Eff Page unit :=
  lift (renderGenerationResult res format num_bits);;
  numbers ← lift (getProp res "numbers");
  count ← lift (if truthy numbers then getProp numbers "length" else Normal (VNum (NInt 0)));
  source ← lift (getProp res "source");
  modify (showToast ("Generated " +:+ String_val count +:+ " "
                       +:+ toLowerCase (getFormatDisplayName format) +:+ " numbers from "
                       +:+ String_val (or_else source (VStr "unknown"))) "success").

(** The [try] block of the click handler, after validation. *)
Definition generate_body (backend : Val → HttpReply) (num_bits num_samples : Num)
    (format : string) : Eff Page unit :=
  modify (log_request (request_body num_bits num_samples format));;
  res ← lift (apiPost (backend (request_body num_bits num_samples format)));
  modify (set_lastResponse res);;
  render_response res format num_bits.

Definition generate_failed (msg : string) (p : Page) : Page :=
  showToast ("Generation failed: " +:+ msg) "error" p.

(** The click handler installed by [initGenerateHandler]. *)
Definition onGenerate (backend : Val → HttpReply) (p : Page) : Page :=
  match validate p with
  | inl msg => showToast msg "error" p
  | inr (num_bits, num_samples) =>
      try_catch (generate_body backend num_bits num_samples (read_format p))
                generate_failed p
  end.

End Handler.

(** *** The token in local storage *)

Definition TOKEN_KEY : string := "qrng_token".

(** [localStorage]: keys to strings. *)
Abbreviation Storage := (gmap string string).

(** [getAuthToken()]: [None] is [null]. *)
Definition getAuthToken (st : Storage) : option string := st !! TOKEN_KEY.

(** [setAuthToken(t)]: [setItem] stores [String(t)]. *)
Definition setAuthToken (t : Val) (st : Storage) : Storage :=
  if truthy t then <[TOKEN_KEY := String_val t]> st else delete TOKEN_KEY st.

(** [getAuthHeaders()] *)
Definition getAuthHeaders (st : Storage) : gmap string string :=
  match getAuthToken st with
  | Some tok => if String.eqb tok "" then ∅ else {[ "Authorization" := "Bearer " +:+ tok ]}
  | None => ∅
  end.

(** The [DOMContentLoaded] handler at the head of the script: where it
    sends the browser, if anywhere, and the value it leaves in
    [isGuestMode]. *)
Definition onLoad (pathname : string) (st : Storage) (isGuestMode : bool)
  : option string * bool :=
  if endsWith pathname "index.html" || endsWith pathname "/" then
    let no_token := match getAuthToken st with
                    | Some t => String.eqb t ""
                    | None => true
                    end in
    let isGuest := bool_decide (st !! "qrng_guest_mode" = Some "true") in
    if no_token && negb isGuest then (Some "intro.html", isGuestMode)
    else (None, if isGuest then true else isGuestMode)
  else (None, isGuestMode).

(** *** [apiGet], with its errors *)

Section ApiGet.

(** [JSON.parse]: the value, or the error it throws. *)
Variable JSON_parse : string → JsError + Val.

(** The inner [try] of [apiGet] and its [catch]:
    [const json = JSON.parse(txt);
     if (!res.ok) throw new Error(json.message || json.error || txt || `HTTP ${res.status}`);
     return json;] and
    [catch(e) { if (!res.ok) throw new Error(txt || e.message); throw e; }]. *)
Definition parse_response (ok : bool) (status : Z) (txt : string) : JsError + Val :=
  let attempt : JsError + Val :=
    match JSON_parse txt with
    | inl e => inl e
    | inr json =>
        if negb ok then
          match getProp json "message", getProp json "error" with
          | Normal message, Normal error =>
              inl (new_Error
                     (String_val
                        (or_else (or_else (or_else message error) (VStr txt))
                                 (VStr ("HTTP " +:+ String_of (NInt status))))))
          | _, _ => inl (mkError "TypeError" "Cannot read properties of null")
          end
        else inr json
    end in
  match attempt with
  | inr json => inr json
  | inl e =>
      if negb ok then inl (new_Error (if String.eqb txt "" then err_message e else txt))
      else inl e
  end.

(** The outer [catch]: a [TypeError] whose message mentions [fetch] is
    replaced, any other error is thrown again. *)
Definition connection_error (err : JsError) : JsError :=
  if String.eqb (err_name err) "TypeError" && includes (err_message err) "fetch"
  then new_Error "Cannot connect to server. Is the backend running?"
  else err.

(** [apiGet(path, withAuth)], from what [fetch] settled to. *)
Definition apiGet (r : FetchResult) : JsError + Val :=
  match r with
  | FetchRejected e => inl (connection_error e)
  | FetchResponse ok status (inl e) => inl (connection_error e)
  | FetchResponse ok status (inr txt) =>
      match parse_response ok status txt with
      | inr json => inr json
      | inl e => inl (connection_error e)
      end
  end.

End ApiGet.

End FrontendApp.

(* ===================================================================== *)
(** ** src/frontend/script.js *)
(* ===================================================================== *)

Module Script.
Import Js.

(** What [renderStats] writes into the statistics card. *)
Record Stats : Type := mkStats {
  statMean : string; statStd : string;
  statMin : Val; statMax : Val; statRange : Val;
  title : string
}.

(** The page: the two inputs, the error box ([None] when hidden), which of
    the three cards are shown, the statistics written, the rows of the
    table, the chart global and whether its chart is still alive, the last
    response and the request bodies posted to [/generate].  The loading
    overlay and the disabling of the buttons begin and end inside one run
    of the handler and are left out. *)
Record Page : Type := mkPage {
  numBits : string;
  numSamples : string;
  errorBox : option string;
  statsCard : bool;
  stats : option Stats;
  tableCard : bool;
  numbersBody : list string;
  chartCard : bool;
  chart : option Chart;
  chartAlive : bool;
  lastResponse : Val;
  requests : list Val
}.

Definition showError (msg : string) (p : Page) : Page :=
  mkPage (numBits p) (numSamples p) (Some msg) (statsCard p) (stats p) (tableCard p)
         (numbersBody p) (chartCard p) (chart p) (chartAlive p) (lastResponse p) (requests p).
Definition hideError (p : Page) : Page :=
  mkPage (numBits p) (numSamples p) None (statsCard p) (stats p) (tableCard p)
         (numbersBody p) (chartCard p) (chart p) (chartAlive p) (lastResponse p) (requests p).
Definition set_lastResponse (v : Val) (p : Page) : Page :=
  mkPage (numBits p) (numSamples p) (errorBox p) (statsCard p) (stats p) (tableCard p)
         (numbersBody p) (chartCard p) (chart p) (chartAlive p) v (requests p).
Definition log_request (body : Val) (p : Page) : Page :=
  mkPage (numBits p) (numSamples p) (errorBox p) (statsCard p) (stats p) (tableCard p)
         (numbersBody p) (chartCard p) (chart p) (chartAlive p) (lastResponse p)
         (requests p ++ [body]).
Definition set_stats (st : Stats) (p : Page) : Page :=
  mkPage (numBits p) (numSamples p) (errorBox p) true (Some st) (tableCard p)
         (numbersBody p) (chartCard p) (chart p) (chartAlive p) (lastResponse p) (requests p).
Definition set_table (rows : list string) (p : Page) : Page :=
  mkPage (numBits p) (numSamples p) (errorBox p) (statsCard p) (stats p) true
         rows (chartCard p) (chart p) (chartAlive p) (lastResponse p) (requests p).
Definition set_chart (c : Chart) (p : Page) : Page :=
  mkPage (numBits p) (numSamples p) (errorBox p) (statsCard p) (stats p) (tableCard p)
         (numbersBody p) true (Some c) true (lastResponse p) (requests p).

(** [api(path, opts)] *)
Definition api (reply : HttpReply) : Completion Val :=
  match reply with
  | NetworkError => Throw "TypeError: Failed to fetch"
  | Reply false _ text => Throw ("HTTP error " +:+ text)
  | Reply true None _ => Throw "SyntaxError: Unexpected token in JSON"
  | Reply true (Some json) _ => Normal json
  end.

(** [renderStats(stats, source)] *)
Definition renderStats (stats source : Val) : Eff Page unit :=
  mean ← lift (getProp stats "mean");
  std ← lift (getProp stats "std");
  min ← lift (getProp stats "min");
  max ← lift (getProp stats "max");
  range ← lift (getProp stats "range");
  modify (set_stats (mkStats (toFixed 3 (toNumber mean)) (toFixed 3 (toNumber std))
                             min max range
                             ("Statistics (" +:+ String_val source +:+ ")"))).

Definition table_row (numBits : Val) (i : nat) (n : Val) : string :=
  String_of (NInt (Z.of_nat i + 1)) +:+ " " +:+ String_val n +:+ " "
    +:+ padStart (Number_toString 2 (toNumber n)) (toLength (toNumber numBits)) "0".

(** [renderTable(numbers, numBits)] *)
Definition renderTable (numbers numBits : Val) : Eff Page unit :=
  match numbers with
  | VArr l => modify (set_table (imap (table_row numBits) l))
  | _ => throw "TypeError: numbers.map is not a function"
  end.

(** The arrays [renderHistogram] builds: labels [0..maxValue] and the
    counts after [numbers.forEach(n => counts[n]++)], with no test on [n]. *)
Definition histogram (numbers : list Val) (maxValue : Val) : Completion Chart :=
  let len := plus_one maxValue in
  let labels := map (fun i => String_of (NInt i)) (seqZ 0 (toLength len)) in
  counts0 ← new_counts len;
  mret (mkChart labels (foldl (fun counts n => incr_at counts (index_of_key n)) counts0 numbers)).

(** [renderHistogram(numbers, maxValue)] *)
Definition renderHistogram (numbers maxValue : Val) : Eff Page unit :=
  match numbers with
  | VArr l => c ← lift (histogram l maxValue); modify (set_chart c)
  | _ => throw "TypeError: numbers.forEach is not a function"
  end.

Definition request_body (num_bits num_samples : Num) : Val :=
  VObj {[ "num_bits" := VNum num_bits; "num_samples" := VNum num_samples ]}.

(** What the [try] block does with the response once it is saved. *)
Definition render_response (data : Val) : Eff Page unit :=
  statistics ← lift (getProp data "statistics");
  source ← lift (getProp data "source");
  renderStats statistics source;;
  numbers ← lift (getProp data "numbers");
  parameters ← lift (getProp data "parameters");
  pbits ← lift (getProp parameters "num_bits");
  renderTable numbers pbits;;
  numbers ← lift (getProp data "numbers");
  parameters ← lift (getProp data "parameters");
  max_value ← lift (getProp parameters "max_value");
  renderHistogram numbers max_value.

(** The [try] block of the click handler, after validation. *)
Definition generate_body (backend : Val → HttpReply) (num_bits num_samples : Num)
  : Eff Page unit :=
  modify (log_request (request_body num_bits num_samples));;
  data ← lift (api (backend (request_body num_bits num_samples)));
  modify (set_lastResponse data);;
  render_response data.

(** The checks at the head of the click handler: the message it returns
    with, or the two numbers it goes on with. *)
Definition validate (p : Page) : string + Num * Num :=
  let num_bits := stringToNumber (numBits p) in
  let num_samples := stringToNumber (numSamples p) in
  if negb (geb num_bits (NInt 1) && leb num_bits (NInt 16))
  then inl "num_bits must be 1–16"
  else if negb (geb num_samples (NInt 1) && leb num_samples (NInt 1000))
  then inl "num_samples must be 1–1000"
  else inr (num_bits, num_samples).

(** The click handler of [genBtn]. *)
Definition onGenerate (backend : Val → HttpReply) (p : Page) : Page :=
  let p := hideError p in
  match validate p with
  | inl msg => showError msg p
  | inr (num_bits, num_samples) =>
      try_catch (generate_body backend num_bits num_samples) showError p
  end.

(** The click handler of [clearBtn]. *)
Definition onClear (p : Page) : Page :=
  mkPage (numBits p) (numSamples p) None false (stats p) false []
         false (chart p) (match chart p with Some _ => false | None => chartAlive p end)
         VNull (requests p).

End Script.

(* ===================================================================== *)
(** ** src/unnamed/part_002 *)
(* ===================================================================== *)

Module GsapPage.
Import Js.

Record Stats : Type := mkStats {
  statMean : string; statStd : string;
  statMin : Val; statMax : Val; statRange : Val
}.

(** The page.  Inputs: the base URL and the two number fields.  Display:
    the error box ([None] when hidden), the cards and the source badge
    (shown or not), the statistics and rows written, the chart global and
    whether its chart is alive.  Then the last response, and the traces of
    request bodies posted and of files handed to [download]. *)
Record Page : Type := mkPage {
  baseUrl : string;
  numBits : string;
  numSamples : string;
  errorBox : option string;
  statsCard : bool;
  stats : option Stats;
  tableCard : bool;
  numbersBody : list string;
  chartCard : bool;
  chart : option Chart;
  chartAlive : bool;
  sourceBadge : option string;
  lastResponse : Val;
  requests : list Val;
  downloads : list (string * string)
}.

Definition showError (msg : string) (p : Page) : Page :=
  mkPage (baseUrl p) (numBits p) (numSamples p) (Some msg) (statsCard p) (stats p)
         (tableCard p) (numbersBody p) (chartCard p) (chart p) (chartAlive p)
         (sourceBadge p) (lastResponse p) (requests p) (downloads p).
Definition hideError (p : Page) : Page :=
  mkPage (baseUrl p) (numBits p) (numSamples p) None (statsCard p) (stats p)
         (tableCard p) (numbersBody p) (chartCard p) (chart p) (chartAlive p)
         (sourceBadge p) (lastResponse p) (requests p) (downloads p).
Definition set_lastResponse (v : Val) (p : Page) : Page :=
  mkPage (baseUrl p) (numBits p) (numSamples p) (errorBox p) (statsCard p) (stats p)
         (tableCard p) (numbersBody p) (chartCard p) (chart p) (chartAlive p)
         (sourceBadge p) v (requests p) (downloads p).
Definition log_request (body : Val) (p : Page) : Page :=
  mkPage (baseUrl p) (numBits p) (numSamples p) (errorBox p) (statsCard p) (stats p)
         (tableCard p) (numbersBody p) (chartCard p) (chart p) (chartAlive p)
         (sourceBadge p) (lastResponse p) (requests p ++ [body]) (downloads p).
Definition set_stats (st : Stats) (p : Page) : Page :=
  mkPage (baseUrl p) (numBits p) (numSamples p) (errorBox p) true (Some st)
         (tableCard p) (numbersBody p) (chartCard p) (chart p) (chartAlive p)
         (sourceBadge p) (lastResponse p) (requests p) (downloads p).
Definition set_table (rows : list string) (p : Page) : Page :=
  mkPage (baseUrl p) (numBits p) (numSamples p) (errorBox p) (statsCard p) (stats p)
         true rows (chartCard p) (chart p) (chartAlive p)
         (sourceBadge p) (lastResponse p) (requests p) (downloads p).
Definition set_chart (c : Chart) (p : Page) : Page :=
  mkPage (baseUrl p) (numBits p) (numSamples p) (errorBox p) (statsCard p) (stats p)
         (tableCard p) (numbersBody p) true (Some c) true
         (sourceBadge p) (lastResponse p) (requests p) (downloads p).
Definition set_badge (b : option string) (p : Page) : Page :=
  mkPage (baseUrl p) (numBits p) (numSamples p) (errorBox p) (statsCard p) (stats p)
         (tableCard p) (numbersBody p) (chartCard p) (chart p) (chartAlive p)
         b (lastResponse p) (requests p) (downloads p).
(** [download(filename, text)] *)
Definition download (filename text : string) (p : Page) : Page :=
  mkPage (baseUrl p) (numBits p) (numSamples p) (errorBox p) (statsCard p) (stats p)
         (tableCard p) (numbersBody p) (chartCard p) (chart p) (chartAlive p)
         (sourceBadge p) (lastResponse p) (requests p) (downloads p ++ [(filename, text)]).

(** [api(path, opts)] *)
Definition api (reply : HttpReply) : Completion Val :=
  match reply with
  | NetworkError => Throw "TypeError: Failed to fetch"
  | Reply false _ text => Throw ("HTTP error " +:+ text)
  | Reply true None _ => Throw "SyntaxError: Unexpected token in JSON"
  | Reply true (Some json) _ => Normal json
  end.

(** [renderStats(stats)] *)
Definition renderStats (stats : Val) : Eff Page unit :=
  if negb (truthy stats) then mret tt else
  mean ← lift (getProp stats "mean");
  std ← lift (getProp stats "std");
  std_dev ← lift (getProp stats "std_dev");
  min ← lift (getProp stats "min");
  max ← lift (getProp stats "max");
  let range :=
    match max, min with
    | VUndefined, _ | _, VUndefined => VStr "—"
    | _, _ => VNum (sub (toNumber max) (toNumber min))
    end in
  modify (set_stats
            (mkStats (toFixed 3 (toNumber (coalesce mean (VNum (NInt 0)))))
                     (toFixed 3 (toNumber (coalesce (coalesce std std_dev) (VNum (NInt 0)))))
                     (coalesce min (VStr "—")) (coalesce max (VStr "—")) range)).

Definition table_row (numBits : Num) (i : nat) (n : Val) : string :=
  String_of (NInt (Z.of_nat i + 1)) +:+ " " +:+ String_val n +:+ " "
    +:+ padStart (Number_toString 2 (toNumber n))
          (toLength (toNumber (or_else (VNum numBits) (VNum (NInt 1))))) "0".

(** [renderTable(numbers, numBits)] *)
Definition renderTable (numbers : list Val) (numBits : Num) : Eff Page unit :=
  modify (set_table (imap (table_row numBits) numbers)).

(** [renderHistogram(numbers, maxValue)]: an element is counted when
    [n >= 0 && n < counts.length]. *)
Definition histogram (numbers : list Val) (maxValue : Z) : Completion Chart :=
  let labels := map (fun i => String_of (NInt i)) (seqZ 0 (Z.max 0 (maxValue + 1))) in
  counts0 ← new_counts (NInt (maxValue + 1));
  mret (mkChart labels
          (foldl (fun counts n =>
                    if geb (toNumber n) (NInt 0)
                       && ltb (toNumber n) (NInt (Z.of_nat (length counts)))
                    then incr_at counts (index_of_key n) else counts)
                 counts0 numbers)).

Definition renderHistogram (numbers : list Val) (maxValue : Z) : Eff Page unit :=
  c ← lift (histogram numbers maxValue); modify (set_chart c).

Definition request_body (num_bits num_samples : Num) : Val :=
  VObj {[ "num_bits" := VNum num_bits; "num_samples" := VNum num_samples ]}.

(** What the [try] block does with the response once it is saved. *)
Definition render_response (data : Val) (num_bits : Num) : Eff Page unit :=
  data_bits ← lift (getProp data "num_bits");
  let bits := toNumber (coalesce data_bits (VNum num_bits)) in
  let maxValue := shl_Num 1 bits - 1 in
  data_numbers ← lift (getProp data "numbers");
  let numbers := match data_numbers with VArr l => l | _ => [] end in
  statistics ← lift (getProp data "statistics");
  let stats := coalesce statistics VNull in
  source ← lift (getProp data "source");
  modify (set_badge (if truthy source
                     then Some (if strict_eq_str source "ANU"
                                then "Source: ANU QRNG" else "Source: Qiskit Simulator")
                     else None));;
  renderStats stats;;
  renderTable numbers bits;;
  renderHistogram numbers maxValue.

(** The [try] block of the click handler of [genBtn], after validation. *)
Definition generate_body (backend : Val → HttpReply) (num_bits num_samples : Num)
  : Eff Page unit :=
  modify (log_request (request_body num_bits num_samples));;
  data ← lift (api (backend (request_body num_bits num_samples)));
  modify (set_lastResponse data);;
  render_response data num_bits.

(** The checks at the head of the click handler: the message it returns
    with, or the two numbers it goes on with. *)
Definition validate (p : Page) : string + Num * Num :=
  let num_bits := stringToNumber (numBits p) in
  let num_samples := stringToNumber (numSamples p) in
  if negb (geb num_bits (NInt 1) && leb num_bits (NInt 16))
  then inl "num_bits must be 1–16"
  else if negb (geb num_samples (NInt 1) && leb num_samples (NInt 1000))
  then inl "num_samples must be 1–1000"
  else inr (num_bits, num_samples).

(** The click handler of [genBtn]. *)
Definition onGenerate (backend : Val → HttpReply) (p : Page) : Page :=
  let p := hideError p in
  match validate p with
  | inl msg => showError msg p
  | inr (num_bits, num_samples) =>
      try_catch (generate_body backend num_bits num_samples) showError p
  end.

(** The click handler of [clearBtn]. *)
Definition onClear (p : Page) : Page :=
  mkPage (baseUrl p) (numBits p) (numSamples p) None false (stats p)
         false [] false (chart p)
         (match chart p with Some _ => false | None => chartAlive p end)
         None VNull (requests p) (downloads p).

Section ExportHandlers.

(** [JSON.stringify(v, null, 2)], the browser's serialiser. *)
Variable JSON_stringify : Val → string.

(** The click handler of [downloadJson]. *)
Definition onDownloadJson (p : Page) : Page :=
  if negb (truthy (lastResponse p)) then p
  else download "qrng_response.json" (JSON_stringify (lastResponse p)) p.

Definition csv_row (bits : Num) (i : nat) (n : Val) : string :=
  String_of (NInt (Z.of_nat i + 1)) +:+ "," +:+ String_val n +:+ ","
    +:+ padStart (Number_toString 2 (toNumber n)) (toLength bits) "0".

(** The click handler of [downloadCsv].  An exception in it is not caught:
    the handler ends and nothing is downloaded. *)
Definition onDownloadCsv (p : Page) : Page :=
  if negb (truthy (lastResponse p)) then p
  else
    match (raw ← getProp (lastResponse p) "numbers";
           nb ← getProp (lastResponse p) "num_bits";
           let bits := toNumber (coalesce nb (VNum (stringToNumber (numBits p)))) in
           match or_else raw (VArr []) with
           | VArr l => mret (join newline ("index,decimal,binary" :: imap (csv_row bits) l))
           | _ => Throw "TypeError: numbers.forEach is not a function"
           end) with
    | Normal text => download "qrng_numbers.csv" text p
    | Throw _ => p
    end.

End ExportHandlers.

End GsapPage.

(* ===================================================================== *)
(** ** src/unnamed/part_003: class QuantumRNG *)
(* ===================================================================== *)

Module QuantumRNG.
Import Js.

(** [Math.random() < 0.5] is read from a source of coin flips: [coin k] is
    the outcome of the [k]-th call.  The position in the source is threaded
    through the loops. *)
Definition Coins : Type := nat → bool.

(** The inner loop, [for (bit ...; bit < numBits; bit++)], with [todo]
    iterations left. *)
Fixpoint measure_bits (coin : Coins) (todo : nat) (bit : Z) (quantumNumber : Z) (k : nat)
  : Z * nat :=
  match todo with
  | O => (quantumNumber, k)
  | S todo' =>
      let quantumNumber :=
        if coin k then bor quantumNumber (shl 1 bit) else quantumNumber in
      measure_bits coin todo' (bit + 1) quantumNumber (S k)
  end.

(** The outer loop, [for (i ...; i < numSamples; i++)], with [todo]
    iterations left. *)
Fixpoint sample_loop (coin : Coins) (numBits : nat) (todo : nat) (k : nat) : list Z :=
  match todo with
  | O => []
  | S todo' =>
      let (quantumNumber, k') := measure_bits coin numBits 0 0 k in
      quantumNumber :: sample_loop coin numBits todo' k'
  end.

(** How often [for (let i = 0; i < n; i++)] runs: never for [NaN] and for
    [n <= 0]. *)
Definition iterations (n : Num) : nat :=
  match n with
  | NInt z => Z.to_nat z
  | _ => 0%nat
  end.

(** [simulateQuantumCircuit(numBits, numSamples)]: the array the promise
    resolves to. *)
Definition simulateQuantumCircuit (coin : Coins) (numBits numSamples : Num) : list Z :=
  sample_loop coin (iterations numBits) (iterations numSamples) 0.

(** The [switch] of [displayResults] for one number; [numBitsValue] is the
    value of the [num-bits] input, read again in the binary case. *)
Definition formatResult (numBitsValue : string) (number : Z) (format : string) : string :=
  if String.eqb format "binary" then
    let numBits := parseInt numBitsValue None in
    padStart (Number_toString 2 (NInt number)) (toLength numBits) "0"
  else if String.eqb format "hex" then
    "0x" +:+ toUpperCase (Number_toString 16 (NInt number))
  else
    Number_toString 10 (NInt number).

(** [displayResults(results, format)]: the text of the result spans, a line
    break after every fifth. *)
Definition displayResults (numBitsValue : string) (results : list Z) (format : string)
  : string :=
  let output :=
    foldl (fun output x => output +:+ x) ""
      (imap (fun index number =>
               formatResult numBitsValue number format
                 +:+ (if ((Z.of_nat index + 1) mod 5 =? 0) then newline else ""))
            results) in
  if String.eqb output "" then "No results generated" else output.

(** The page of part_003, with every element the script looks up in
    place: the three inputs, the button, the loading indicator, the
    results container (its text, as [displayResults] gives it), the
    statistics container and its four fields. *)
Record Page : Type := mkPage {
  numBitsValue : string;
  numSamplesValue : string;
  outputFormat : string;
  generateDisabled : bool;
  loadingHidden : bool;
  results : string;
  statsHidden : bool;
  statMean : string;
  statMin : string;
  statMax : string;
  statRange : string
}.

(** [showLoading()] and [hideLoading()] *)
Definition showLoading (p : Page) : Page :=
  mkPage (numBitsValue p) (numSamplesValue p) (outputFormat p) true false (results p)
         (statsHidden p) (statMean p) (statMin p) (statMax p) (statRange p).
Definition hideLoading (p : Page) : Page :=
  mkPage (numBitsValue p) (numSamplesValue p) (outputFormat p) false true (results p)
         (statsHidden p) (statMean p) (statMin p) (statMax p) (statRange p).

Definition set_results (text : string) (p : Page) : Page :=
  mkPage (numBitsValue p) (numSamplesValue p) (outputFormat p) (generateDisabled p)
         (loadingHidden p) text (statsHidden p) (statMean p) (statMin p) (statMax p)
         (statRange p).

(** [calculateStatistics(results)] on the integers the simulation returns:
    nothing for an empty array; else the mean to two places, the minimum,
    the maximum and their difference, and the container shown. *)
Definition calculateStatistics (numbers : list Z) (p : Page) : Page :=
  match numbers with
  | [] => p
  | _ =>
      let sum := foldl (fun sum num => dadd sum (double_of_Z num)) (double_of_Z 0) numbers in
      let mean := ddiv sum (double_of_Z (Z.of_nat (length numbers))) in
      let min := foldl Math_min (NInf false) (NInt <$> numbers) in
      let max := foldl Math_max (NInf true) (NInt <$> numbers) in
      let range := sub max min in
      mkPage (numBitsValue p) (numSamplesValue p) (outputFormat p) (generateDisabled p)
             (loadingHidden p) (results p) false
             (toFixed_double 2 mean) (String_of min) (String_of max) (String_of range)
  end.

(** [generateQuantumNumbers()], the click handler, with the coin flips the
    simulation draws.  The inputs are taken not to change while the
    simulation waits, so [displayResults] reads the same [num-bits] value
    again.  With every element in place nothing in the [try] block throws
    short of an engine's limit on the arguments of [Math.min(...results)],
    which is outside the model, so the [catch] is not entered. *)
Definition generateQuantumNumbers (coin : Coins) (p : Page) : Page :=
  let numBits := parseInt (numBitsValue p) None in
  let numSamples := parseInt (numSamplesValue p) None in
  let format := outputFormat p in
  let p := showLoading p in
  let numbers := simulateQuantumCircuit coin numBits numSamples in
  let p := set_results (displayResults (numBitsValue p) numbers format) p in
  let p := calculateStatistics numbers p in
  hideLoading p.

End QuantumRNG.

(* ===================================================================== *)
(** ** Notions used to state facts about the histograms *)
(* ===================================================================== *)

Module Histo.
Import Js.

(** [p] holds of the [todo] integers from [from] on. *)
Fixpoint all_below (p : Z → bool) (todo : nat) (from : Z) : bool :=
  match todo with
  | O => true
  | S todo' => p from && all_below p todo' (from + 1)
  end.

(** For every value in [0, 2^bits - 1], the bucket index computed in double
    precision is the integer quotient [z * 255 / maxValue]. *)
Definition bucket_check (bits : Z) : bool :=
  all_below (fun z => match V2Sync.bucketIndex (2 ^ bits - 1) (NInt z) with
                      | NInt k => k =? z * 255 / (2 ^ bits - 1)
                      | _ => false
                      end)
            (Z.to_nat (2 ^ bits)) 0.

(** The element a value is counted in by the one-bucket-per-value branch. *)
Definition exact_key (maxValue : Z) (n : Num) : option nat :=
  match n with
  | NInt z => if (0 <=? z) && (z <=? maxValue) then Some (Z.to_nat z) else None
  | _ => None
  end.

(** The element named by a clamped bucket index. *)
Definition index_key (idx : Num) : option nat :=
  match idx with
  | NInt i => Some (Z.to_nat i)
  | _ => None
  end.

#[global] Instance Num_eq_dec : EqDecision Num.
Proof. solve_decision. Defined.

(** How many elements of [l] have the key [j]. *)
Definition occurrences {A} (key : A → option nat) (j : nat) (l : list A) : nat :=
  length (filter (fun x => key x = Some j) l).

(** The counting loop on plain counters: an element with a key increments
    the counter of that key. *)
Definition count_step {A} (key : A → option nat) (cs : list nat) (x : A) : list nat :=
  match key x with
  | Some j => alter S j cs
  | None => cs
  end.

(** The element a value is counted in by the bucketed branch of
    part_001: none for a value out of range. *)
Definition V2Sync_bucket_key (maxValue : Z) (n : Num) : option nat :=
  if ltb n (NInt 0) || gtb n (NInt maxValue) || negb (isFinite n) then None
  else index_key (V2Sync.clampIndex (V2Sync.bucketIndex maxValue n)).

(** The same for src/frontend/assets/app.js: every finite value has one. *)
Definition AssetsApp_bucket_key (maxValue : Z) (n : Num) : option nat :=
  if negb (isFinite n) then None
  else index_key (AssetsApp.clampIndex (AssetsApp.bucketIndex maxValue n)).

Definition cell_count (c : Cell) : nat :=
  match c with Count k => k | _ => 0%nat end.

(** [sum(counts)] over the elements that are counts. *)
Definition total (counts : list Cell) : nat := sum_list (cell_count <$> counts).

End Histo.

(* ===================================================================== *)
(** ** Facts about the JavaScript primitives *)
(* ===================================================================== *)

Section DigitFacts.
Import Js.


Lemma length_string_of_list_ascii (l : list ascii) :
  String.length (string_of_list_ascii l) = length l.
Proof. induction l as [|c l IH]; simpl; congruence. Qed.

Lemma value_msb_app radix ds1 ds2 :
  value_msb radix (ds1 ++ ds2)
  = fold_left (fun acc d => acc * radix + d) ds2 (value_msb radix ds1).
Proof. unfold value_msb. apply fold_left_app. Qed.

Lemma value_msb_rev radix ds : value_msb radix (rev ds) = value_lsb radix ds.
Proof.
  induction ds as [|d ds IH]; [reflexivity|].
  simpl rev. rewrite value_msb_app. simpl. rewrite IH. lia.
Qed.

Lemma value_msb_zeros radix k ds :
  value_msb radix (replicate k 0 ++ ds) = value_msb radix ds.
Proof.
  induction k as [|k IH]; [reflexivity|].
  simpl. unfold value_msb in *. simpl. exact IH.
Qed.

Lemma digits_lsb_value fuel radix n :
  2 <= radix -> (0 < fuel)%nat -> 0 <= n < radix ^ Z.of_nat fuel ->
  value_lsb radix (digits_lsb fuel radix n) = n.
Proof.
  intros Hr. revert n. induction fuel as [|f IH]; intros n Hf Hn; [lia|].
  simpl digits_lsb. cbn [value_lsb fold_right].
  pose proof (Z.div_mod n radix ltac:(lia)) as Hdm.
  destruct (Z.eqb_spec (n / radix) 0) as [Hz|Hz].
  - simpl. rewrite Hz in Hdm. lia.
  - fold (value_lsb radix (digits_lsb f radix (n / radix))).
    assert (0 < n / radix) by (pose proof (Z.div_pos n radix); lia).
    assert (Hpow : radix ^ Z.of_nat (S f) = radix * radix ^ Z.of_nat f).
    { rewrite Nat2Z.inj_succ, Z.pow_succ_r by lia. reflexivity. }
    assert (n / radix < radix ^ Z.of_nat f).
    { apply Z.div_lt_upper_bound; lia. }
    destruct f as [|f']; [simpl in *; lia|].
    rewrite IH; lia.
Qed.

Lemma digits_lsb_range fuel radix n :
  0 < radix -> Forall (fun d => 0 <= d < radix) (digits_lsb fuel radix n).
Proof.
  intros Hr. revert n. induction fuel as [|f IH]; intros n; simpl; [constructor|].
  constructor; [apply Z.mod_pos_bound; lia|].
  destruct (n / radix =? 0); [constructor|apply IH].
Qed.

Lemma digits_lsb_length fuel radix n (k : nat) :
  2 <= radix -> (1 <= k)%nat -> 0 <= n < radix ^ Z.of_nat k ->
  (1 <= length (digits_lsb (S fuel) radix n) <= k)%nat.
Proof.
  intros Hr. revert n k. induction fuel as [|f IH]; intros n k Hk Hn.
  - simpl. destruct (n / radix =? 0); simpl; lia.
  - change (digits_lsb (S (S f)) radix n)
      with (n mod radix :: (if n / radix =? 0 then [] else digits_lsb (S f) radix (n / radix))).
    destruct (Z.eqb_spec (n / radix) 0) as [Hz|Hz]; [simpl; lia|].
    assert (0 < n / radix) by (pose proof (Z.div_pos n radix); lia).
    destruct k as [|[|k']]; [lia| |].
    + exfalso. change (Z.of_nat 1) with 1 in Hn. rewrite Z.pow_1_r in Hn.
      rewrite Z.div_small in Hz; lia.
    + assert (n / radix < radix ^ Z.of_nat (S k')).
      { apply Z.div_lt_upper_bound; [lia|].
        rewrite (Nat2Z.inj_succ (S k')), Z.pow_succ_r in Hn by lia. lia. }
      specialize (IH (n / radix) (S k') ltac:(lia) ltac:(lia)).
      cbn [length]. lia.
Qed.

Lemma enough_fuel radix n :
  2 <= radix -> 0 <= n -> n < radix ^ Z.of_nat (S (Z.to_nat (Z.log2 n))).
Proof.
  intros Hr Hn.
  rewrite Nat2Z.inj_succ, Z2Nat.id by apply Z.log2_nonneg.
  destruct (Z.eq_dec n 0) as [->|Hnz].
  - simpl. lia.
  - pose proof (Z.log2_spec n ltac:(lia)) as [_ Hlt].
    eapply Z.lt_le_trans; [exact Hlt|].
    apply Z.pow_le_mono_l. pose proof (Z.log2_nonneg n). lia.
Qed.

Lemma digits_value radix n :
  2 <= radix -> 0 <= n -> value_msb radix (digits radix n) = n.
Proof.
  intros Hr Hn. unfold digits. rewrite value_msb_rev.
  apply digits_lsb_value; [lia|lia|]. split; [lia|]. by apply enough_fuel.
Qed.

Lemma digits_range radix n :
  0 < radix -> Forall (fun d => 0 <= d < radix) (digits radix n).
Proof.
  intros Hr. unfold digits. apply Forall_rev. by apply digits_lsb_range.
Qed.

Lemma digits_length radix n (k : nat) :
  2 <= radix -> (1 <= k)%nat -> 0 <= n < radix ^ Z.of_nat k ->
  (1 <= length (digits radix n) <= k)%nat.
Proof.
  intros Hr Hk Hn. unfold digits. rewrite length_rev.
  by apply digits_lsb_length.
Qed.

End DigitFacts.

Section ParseFacts.
Import Js.

Lemma small_cases (P : Z -> Prop) (k : nat) :
  (forall i : nat, (i < k)%nat -> P (Z.of_nat i)) -> forall d, 0 <= d < Z.of_nat k -> P d.
Proof. intros H d Hd. rewrite <- (Z2Nat.id d) by lia. apply H. lia. Qed.


Lemma digit_ok_all d : 0 <= d < 33 -> digit_ok d = true.
Proof.
  apply (small_cases (fun d => digit_ok d = true) 33).
  intros i Hi. do 33 (destruct i as [|i]; [vm_compute; reflexivity|]). lia.
Qed.

End ParseFacts.

Section ParseFacts2.
Import Js.

Ltac unpack_digit_ok H :=
  repeat (apply andb_prop in H; destruct H as [H ?]);
  repeat match goal with
         | E : negb _ = true |- _ => apply negb_true_iff in E
         | E : (_ =? _) = true |- _ => apply Z.eqb_eq in E
         | E : (_ =? _) = false |- _ => apply Z.eqb_neq in E
         end.

Lemma plain_digit_char radix d :
  radix <= 33 -> 0 <= d < radix -> plain radix (digit_char d) d.
Proof.
  intros Hr Hd. pose proof (digit_ok_all d ltac:(lia)) as H.
  unfold digit_ok in H.
  destruct (digit_val (digit_char d)) as [a|] eqn:Ea; [|discriminate].
  destruct (digit_val (upper_char (digit_char d))) as [b|] eqn:Eb; [|discriminate].
  unpack_digit_ok H.
  unfold plain. repeat split; try lia; congruence.
Qed.

Lemma plain_upper_digit_char radix d :
  radix <= 33 -> 0 <= d < radix -> plain radix (upper_char (digit_char d)) d.
Proof.
  intros Hr Hd. pose proof (digit_ok_all d ltac:(lia)) as H.
  unfold digit_ok in H.
  destruct (digit_val (digit_char d)) as [a|] eqn:Ea; [|discriminate].
  destruct (digit_val (upper_char (digit_char d))) as [b|] eqn:Eb; [|discriminate].
  unpack_digit_ok H.
  unfold plain. repeat split; try lia; congruence.
Qed.

Lemma upper_char_idem d : 0 <= d < 33 ->
  upper_char (upper_char (digit_char d)) = upper_char (digit_char d).
Proof.
  intros Hd. pose proof (digit_ok_all d ltac:(lia)) as H.
  unfold digit_ok in H.
  destruct (digit_val (digit_char d)) as [a|] eqn:Ea; [|discriminate].
  destruct (digit_val (upper_char (digit_char d))) as [b|] eqn:Eb; [|discriminate].
  unpack_digit_ok H.
  match goal with E : ord (upper_char (upper_char _)) = _ |- _ => rename E into Hu end.
  unfold ord in Hu. apply (f_equal Z.to_N) in Hu. rewrite !N2Z.id in Hu.
  apply (f_equal ascii_of_N) in Hu. by rewrite !ascii_N_embedding in Hu.
Qed.

Lemma take_digits_plain radix cs ds :
  Forall2 (plain radix) cs ds -> take_digits radix cs = ds.
Proof.
  induction 1 as [|c d cs ds (Hv & Hd & _) _ IH]; [reflexivity|].
  simpl. rewrite Hv. destruct (Z.ltb_spec d radix); [|lia]. by rewrite IH.
Qed.

Lemma strip_0x_plain radix cs ds :
  Forall2 (plain radix) cs ds -> strip_0x cs = None.
Proof.
  intros H. destruct H as [|c d cs ds _ H]; [reflexivity|].
  destruct H as [|c2 d2 cs ds (_ & _ & _ & _ & _ & Hx & HX) _]; [reflexivity|].
  simpl. destruct (Z.eqb_spec (ord c2) 120); [lia|].
  destruct (Z.eqb_spec (ord c2) 88); [lia|]. by rewrite andb_false_r.
Qed.

Lemma list_ascii_of_string_inv cs :
  list_ascii_of_string (string_of_list_ascii cs) = cs.
Proof. apply list_ascii_of_string_of_list_ascii. Qed.

(** [parseInt] on an unsigned run of plain digits, with or without a sign in
    front, with an explicit radix or (for decimal) without. *)
Lemma parseInt_plain (radix : Z) (arg : option Z) (neg : bool) cs ds :
  2 <= radix <= 36 ->
  (arg = Some radix \/ (arg = None /\ radix = 10)) ->
  cs <> [] -> Forall2 (plain radix) cs ds ->
  parseInt (string_of_list_ascii ((if neg then ["-"%char] else []) ++ cs)) arg
  = NInt ((if neg then -1 else 1) * value_msb radix ds).
Proof.
  intros Hr Harg Hne Hcs. unfold parseInt. rewrite list_ascii_of_string_inv.
  pose proof (take_digits_plain _ _ _ Hcs) as Htd.
  pose proof (strip_0x_plain _ _ _ Hcs) as H0x.
  destruct Hcs as [|c d cs ds (Hv & Hd & Hw & Hm & Hp & _) Hrest]; [done|].
  assert (Hsign : strip_sign (skipWhite ((if neg then ["-"%char] else []) ++ c :: cs))
                  = (neg, c :: cs)).
  { destruct neg; simpl.
    - reflexivity.
    - rewrite Hw. simpl.
      destruct (Z.eqb_spec (ord c) 45); [lia|].
      destruct (Z.eqb_spec (ord c) 43); [lia|]. reflexivity. }
  rewrite Hsign.
  destruct Harg as [->|[-> ->]].
  - destruct (Z.eqb_spec radix 0); [lia|].
    destruct (Z.leb_spec 2 radix); [|lia].
    destruct (Z.leb_spec radix 36); [|lia]. cbn [orb andb].
    destruct (Z.eqb_spec radix 16).
    + rewrite H0x. destruct (Z.eqb_spec radix 0); [lia|]. by rewrite Htd.
    + by rewrite Htd.
  - cbn [orb Z.eqb]. rewrite H0x. by rewrite Htd.
Qed.

Lemma plain_digit_string radix n :
  2 <= radix <= 33 -> Forall2 (plain radix) (digit_string radix n) (digits radix n).
Proof.
  intros Hr. unfold digit_string.
  pose proof (digits_range radix n ltac:(lia)) as H.
  induction H as [|d ds Hd _ IH]; simpl; constructor; auto.
  apply plain_digit_char; lia.
Qed.

Lemma plain_upper_digit_string radix n :
  2 <= radix <= 33 ->
  Forall2 (plain radix) (map upper_char (digit_string radix n)) (digits radix n).
Proof.
  intros Hr. unfold digit_string.
  pose proof (digits_range radix n ltac:(lia)) as H.
  induction H as [|d ds Hd _ IH]; simpl; constructor; auto.
  apply plain_upper_digit_char; lia.
Qed.

Lemma plain_zero radix : 0 < radix -> plain radix "0"%char 0.
Proof.
  intros. unfold plain. split; [reflexivity|]. split; [lia|].
  split; [reflexivity|]. vm_compute. repeat split; congruence.
Qed.

Lemma plain_zeros radix k cs ds :
  0 < radix -> Forall2 (plain radix) cs ds ->
  Forall2 (plain radix) (replicate k "0"%char ++ cs) (replicate k 0 ++ ds).
Proof.
  intros Hr H. induction k as [|k IH]; [exact H|].
  simpl. constructor; [by apply plain_zero|exact IH].
Qed.

Lemma digits_nonempty radix n : digits radix n <> [].
Proof.
  unfold digits. simpl. intros H. apply (f_equal (@length Z)) in H.
  rewrite length_app in H. simpl in H. lia.
Qed.

(** Printing an integer in a radix and reading it back. *)
Lemma parseInt_toString radix z :
  2 <= radix <= 33 ->
  parseInt (Number_toString radix (NInt z)) (Some radix) = NInt z.
Proof.
  intros Hr. unfold Number_toString.
  destruct (Z.ltb_spec z 0).
  - change (String "-" (string_of_list_ascii (digit_string radix (- z))))
      with (string_of_list_ascii ((if true then ["-"%char] else []) ++ digit_string radix (- z))).
    rewrite (parseInt_plain radix (Some radix) true _ (digits radix (- z)));
      [|lia|by left| |by apply plain_digit_string].
    + rewrite digits_value by lia. f_equal. lia.
    + unfold digit_string. intros E. apply map_eq_nil in E. by apply digits_nonempty in E.
  - change (string_of_list_ascii (digit_string radix z))
      with (string_of_list_ascii ((if false then ["-"%char] else []) ++ digit_string radix z)).
    rewrite (parseInt_plain radix (Some radix) false _ (digits radix z));
      [|lia|by left| |by apply plain_digit_string].
    + rewrite digits_value by lia. f_equal. lia.
    + unfold digit_string. intros E. apply map_eq_nil in E. by apply digits_nonempty in E.
Qed.

Lemma parseInt_String_of z : parseInt (String_of (NInt z)) None = NInt z.
Proof.
  unfold String_of, Number_toString.
  destruct (Z.ltb_spec z 0).
  - change (String "-" (string_of_list_ascii (digit_string 10 (- z))))
      with (string_of_list_ascii ((if true then ["-"%char] else []) ++ digit_string 10 (- z))).
    rewrite (parseInt_plain 10 None true _ (digits 10 (- z)));
      [|lia|by right| |apply plain_digit_string; lia].
    + rewrite digits_value by lia. f_equal. lia.
    + unfold digit_string. intros E. apply map_eq_nil in E. by apply digits_nonempty in E.
  - change (string_of_list_ascii (digit_string 10 z))
      with (string_of_list_ascii ((if false then ["-"%char] else []) ++ digit_string 10 z)).
    rewrite (parseInt_plain 10 None false _ (digits 10 z));
      [|lia|by right| |apply plain_digit_string; lia].
    + rewrite digits_value by lia. f_equal. lia.
    + unfold digit_string. intros E. apply map_eq_nil in E. by apply digits_nonempty in E.
Qed.

End ParseFacts2.

Section FormatFacts.
Import Js.

Lemma padStart_chars cs w c :
  padStart (string_of_list_ascii cs) w c
  = string_of_list_ascii (replicate (Z.to_nat (w - Z.of_nat (length cs))) c ++ cs).
Proof.
  unfold padStart. by rewrite length_string_of_list_ascii, list_ascii_of_string_inv.
Qed.

Lemma toUpperCase_chars cs :
  toUpperCase (string_of_list_ascii cs) = string_of_list_ascii (map upper_char cs).
Proof. unfold toUpperCase. by rewrite list_ascii_of_string_inv. Qed.

Lemma Number_toString_nonneg radix n :
  0 <= n -> Number_toString radix (NInt n) = string_of_list_ascii (digit_string radix n).
Proof. intros Hn. unfold Number_toString. destruct (Z.ltb_spec n 0); [lia|done]. Qed.

Lemma value_lsb_bound radix ds :
  0 < radix -> Forall (fun d => 0 <= d < radix) ds ->
  0 <= value_lsb radix ds < radix ^ Z.of_nat (length ds).
Proof.
  intros Hr H. induction H as [|d ds Hd _ IH]; [simpl; lia|].
  cbn [value_lsb fold_right length]. fold (value_lsb radix ds).
  rewrite Nat2Z.inj_succ, Z.pow_succ_r by lia. nia.
Qed.


Section Padded.
Variable f : ascii -> ascii.
Variable radix : Z.
Hypothesis Hradix : 2 <= radix <= 33.
Hypothesis Hf : forall d, 0 <= d < radix -> plain radix (f (digit_char d)) d.

Lemma plain_mapped n : Forall2 (plain radix) (map f (digit_string radix n)) (digits radix n).
Proof.
  unfold digit_string. pose proof (digits_range radix n ltac:(lia)) as H.
  induction H as [|d ds Hd _ IH]; simpl; constructor; auto.
Qed.

(** Printed with [f] applied to the digit characters and padded with zeros
    to any width, a non-negative integer reads back as itself. *)
Lemma padded_digits_parse n w :
  0 <= n ->
  parseInt (padStart (string_of_list_ascii (map f (digit_string radix n))) w "0") (Some radix)
  = NInt n.
Proof.
  intros Hn. rewrite padStart_chars.
  set (k := Z.to_nat _).
  assert (Hne : replicate k "0"%char ++ map f (digit_string radix n) <> []).
  { intros E. apply (f_equal (@length ascii)) in E.
    rewrite length_app, length_map in E. unfold digit_string in E.
    rewrite length_map in E. pose proof (digits_nonempty radix n).
    destruct (digits radix n); [done|]. simpl in E. lia. }
  pose proof (parseInt_plain radix (Some radix) false _ _ ltac:(lia) ltac:(by left) Hne
                (plain_zeros radix k _ _ ltac:(lia) (plain_mapped n))) as Hp.
  simpl app in Hp. rewrite Hp.
  rewrite value_msb_zeros, digits_value by lia. f_equal. lia.
Qed.

Lemma padded_digits_length n w :
  String.length (padStart (string_of_list_ascii (map f (digit_string radix n))) w "0")
  = Nat.max (length (digits radix n)) (Z.to_nat w).
Proof.
  rewrite padStart_chars, length_string_of_list_ascii, length_app, length_replicate.
  unfold digit_string. rewrite !length_map. lia.
Qed.

(** Below [radix ^ w] the padded string is exactly [w] characters long. *)
Lemma padded_digits_width n w :
  1 <= w -> 0 <= n < radix ^ w ->
  String.length (padStart (string_of_list_ascii (map f (digit_string radix n))) w "0")
  = Z.to_nat w.
Proof.
  intros Hw Hn. rewrite padded_digits_length.
  pose proof (digits_length radix n (Z.to_nat w) ltac:(lia) ltac:(lia)) as H.
  rewrite Z2Nat.id in H by lia. specialize (H Hn). lia.
Qed.

End Padded.

End FormatFacts.


(* ===================================================================== *)
(** ** Formatting numbers (claims C2 and C7) *)
(* ===================================================================== *)

Section FormatTheorems.
Import Js.

Lemma map_id_digit_string radix n :
  map (fun c => c) (digit_string radix n) = digit_string radix n.
Proof. apply map_id. Qed.

Lemma ceil_div_4_bounds b : 1 <= b -> 1 <= ceil_div b 4 /\ b <= 4 * ceil_div b 4.
Proof.
  intros Hb. unfold ceil_div.
  pose proof (Z.div_mod (- b) 4 ltac:(lia)).
  pose proof (Z.mod_pos_bound (- b) 4 ltac:(lia)). lia.
Qed.

Lemma pow16_ceil b n : 1 <= b -> 0 <= n <= 2 ^ b - 1 -> 0 <= n < 16 ^ ceil_div b 4.
Proof.
  intros Hb Hn. pose proof (ceil_div_4_bounds b Hb) as [H1 H2].
  change 16 with (2 ^ 4). rewrite <- Z.pow_mul_r by lia.
  assert (2 ^ b <= 2 ^ (4 * ceil_div b 4)) by (apply Z.pow_le_mono_r; lia). lia.
Qed.

Lemma upper_string_fixed radix n k :
  2 <= radix <= 33 ->
  toUpperCase (string_of_list_ascii
                 (replicate k "0"%char ++ map upper_char (digit_string radix n)))
  = string_of_list_ascii (replicate k "0"%char ++ map upper_char (digit_string radix n)).
Proof.
  intros Hr. rewrite toUpperCase_chars. f_equal. rewrite map_app. f_equal.
  - induction k as [|k IH]; [done|]. simpl. by rewrite IH.
  - unfold digit_string. rewrite !map_map.
    pose proof (digits_range radix n ltac:(lia)) as H.
    induction H as [|d ds Hd _ IH]; [done|]. simpl. rewrite IH. f_equal.
    apply upper_char_idem. lia.
Qed.

(** [parseInt] with radix 16 on a string that carries the [0x] prefix. *)
Lemma parseInt_0x n :
  0 <= n ->
  parseInt ("0x" +:+ toUpperCase (Number_toString 16 (NInt n))) (Some 16) = NInt n.
Proof.
  intros Hn. rewrite Number_toString_nonneg, toUpperCase_chars by done.
  change ("0x" +:+ string_of_list_ascii (map upper_char (digit_string 16 n)))
    with (string_of_list_ascii ("0"%char :: "x"%char :: map upper_char (digit_string 16 n))).
  unfold parseInt. rewrite list_ascii_of_string_inv.
  change (skipWhite ("0"%char :: "x"%char :: map upper_char (digit_string 16 n)))
    with ("0"%char :: "x"%char :: map upper_char (digit_string 16 n)).
  cbn [strip_sign strip_0x]. 
  change (ord "0" =? 45) with false. change (ord "0" =? 43) with false.
  cbv beta iota. change ((16 =? 0) || (2 <=? 16) && (16 <=? 36)) with true.
  change ((16 =? 0) || (16 =? 16)) with true.
  change (strip_0x ("0"%char :: "x"%char :: map upper_char (digit_string 16 n)))
    with (Some (map upper_char (digit_string 16 n))).
  cbv beta iota.
  rewrite (take_digits_plain 16 _ _ (plain_upper_digit_string 16 n ltac:(lia))).
  pose proof (digits_nonempty 16 n).
  destruct (digits 16 n) as [|d ds] eqn:E; [done|].
  rewrite <- E, digits_value by lia. f_equal. lia.
Qed.

(** C2 (amended).  For a bit width [b] in 1..16 and [n] in [0, 2^b - 1]:
    [formatNumber] of src/frontend/app.js prints binary as a string of
    exactly [b] characters that [parseInt] reads back in base 2, and
    hexadecimal as an upper-case string of exactly [ceil(b/4)] characters,
    the digits with zeros in front, that reads back in base 16.  The
    [displayResults] of part_003 prints binary the same way, and
    hexadecimal as ["0x"] followed by the upper-case digits with no padding,
    which also reads back in base 16. *)
Theorem format_roundtrip (b n : Z) :
  1 <= b <= 16 -> 0 <= n <= 2 ^ b - 1 ->
  let bin := FrontendApp.formatNumber (NInt n) "binary" b in
  let hex := FrontendApp.formatNumber (NInt n) "hexadecimal" b in
  let bin3 := QuantumRNG.formatResult (String_of (NInt b)) n "binary" in
  let hex3 := QuantumRNG.formatResult (String_of (NInt b)) n "hex" in
  (String.length bin = Z.to_nat b /\ parseInt bin (Some 2) = NInt n)
  /\ (toUpperCase hex = hex
      /\ String.length hex = Z.to_nat (ceil_div b 4)
      /\ (exists k, hex = string_of_list_ascii
                            (replicate k "0"%char
                               ++ list_ascii_of_string
                                    (toUpperCase (Number_toString 16 (NInt n)))))
      /\ parseInt hex (Some 16) = NInt n)
  /\ (bin3 = bin)
  /\ (hex3 = "0x" +:+ toUpperCase (Number_toString 16 (NInt n))
      /\ parseInt hex3 (Some 16) = NInt n).
Proof.
  intros Hb Hn bin hex bin3 hex3.
  assert (Hbin : bin = padStart (string_of_list_ascii
                                   (map (fun c => c) (digit_string 2 n))) b "0").
  { subst bin. unfold FrontendApp.formatNumber.
    rewrite parseInt_String_of, String.eqb_refl, map_id_digit_string.
    by rewrite Number_toString_nonneg by lia. }
  assert (Hhex : hex = padStart (string_of_list_ascii
                                   (map upper_char (digit_string 16 n)))
                               (ceil_div b 4) "0").
  { subst hex. unfold FrontendApp.formatNumber.
    rewrite parseInt_String_of.
    change (String.eqb "hexadecimal" "binary") with false.
    rewrite String.eqb_refl. cbv beta iota zeta.
    by rewrite Number_toString_nonneg, toUpperCase_chars by lia. }
  pose proof (ceil_div_4_bounds b ltac:(lia)) as [Hc1 Hc2].
  assert (Hp2 : forall d, 0 <= d < 2 -> plain 2 (digit_char d) d)
    by (intros d Hd; apply plain_digit_char; lia).
  assert (Hp16 : forall d, 0 <= d < 16 -> plain 16 (upper_char (digit_char d)) d)
    by (intros d Hd; apply plain_upper_digit_char; lia).
  split; [split|split; [repeat split|split; [|split]]].
  - rewrite Hbin. apply padded_digits_width; lia.
  - rewrite Hbin. apply padded_digits_parse; [lia|exact Hp2|lia].
  - rewrite Hhex, padStart_chars. apply upper_string_fixed. lia.
  - rewrite Hhex. apply padded_digits_width; [lia|lia|]. apply pow16_ceil; lia.
  - eexists. rewrite Hhex, padStart_chars.
    rewrite Number_toString_nonneg, toUpperCase_chars, list_ascii_of_string_inv by lia.
    reflexivity.
  - rewrite Hhex. apply padded_digits_parse; [lia|exact Hp16|lia].
  - subst bin3. unfold QuantumRNG.formatResult. rewrite String.eqb_refl.
    rewrite parseInt_String_of. unfold toLength. rewrite Z.max_r by lia.
    rewrite Hbin, map_id_digit_string. by rewrite Number_toString_nonneg by lia.
  - reflexivity.
  - apply parseInt_0x. lia.
Qed.

(** The theorem at width 8 and value 255. *)
Lemma format_roundtrip_witness :
  1 <= 8 <= 16 /\ 0 <= 255 <= 2 ^ 8 - 1
  /\ String.length (FrontendApp.formatNumber (NInt 255) "binary" 8) = Z.to_nat 8
  /\ parseInt (FrontendApp.formatNumber (NInt 255) "hexadecimal" 8) (Some 16) = NInt 255.
Proof.
  assert (H1 : 1 <= 8 <= 16) by lia.
  assert (H2 : 0 <= 255 <= 2 ^ 8 - 1) by (simpl; lia).
  pose proof (format_roundtrip 8 255 H1 H2) as H.
  split; [exact H1|]. split; [exact H2|]. split.
  - exact (proj1 (proj1 H)).
  - exact (proj2 (proj2 (proj2 (proj1 (proj2 H))))).
Defined.

(** At width 8 the hexadecimal form of 10 printed by part_003's
    [displayResults] is ["0xA"]: three characters instead of two, one of
    them the lower-case [x]. *)
Lemma format_hex_prefixed_unpadded :
  let hex3 := QuantumRNG.formatResult "8" 10 "hex" in
  hex3 = "0xA"
  /\ String.length hex3 <> Z.to_nat (ceil_div 8 4)
  /\ toUpperCase hex3 <> hex3.
Proof. vm_compute. repeat split; congruence. Qed.

End FormatTheorems.

Section FormatTotal.
Import Js.




End FormatTotal.

(* ===================================================================== *)
(** ** Counting into histogram cells *)
(* ===================================================================== *)

Section CountingFacts.
Import Js Histo.

Lemma count_cons {A} (P : A -> Prop) `{forall x, Decision (P x)} (x : A) (l : list A) :
  length (filter P (x :: l)) = ((if decide (P x) then 1 else 0) + length (filter P l))%nat.
Proof. rewrite filter_cons. by destruct (decide (P x)). Qed.

Lemma cells_lookup_alter (cs : list nat) (j : nat) :
  alter incr_cell j (Count <$> cs) = Count <$> alter S j cs.
Proof.
  apply list_eq. intros i. rewrite list_lookup_fmap.
  destruct (decide (i = j)) as [->|Hne].
  - rewrite !list_lookup_alter_eq, list_lookup_fmap. by destruct (cs !! j).
  - rewrite !list_lookup_alter_ne by done. by rewrite list_lookup_fmap.
Qed.

(** [counts[k]++] inside an array of counts. *)
Lemma incr_at_inside (cs : list nat) (i : Z) :
  0 <= i < Z.of_nat (length cs) -> Z.of_nat (length cs) <= 2 ^ 32 - 1 ->
  incr_at (Count <$> cs) (NInt i) = Count <$> alter S (Z.to_nat i) cs.
Proof.
  intros Hi Hlen. unfold incr_at. rewrite length_fmap.
  destruct (Z.leb_spec 0 i); [|lia]. destruct (Z.ltb_spec i (2 ^ 32 - 1)); [|lia].
  destruct (Z.ltb_spec i (Z.of_nat (length cs))); [|lia].
  simpl. apply cells_lookup_alter.
Qed.

Section Tally.
Context {A : Type}.
Variable key : A -> option nat.
Local Abbreviation count_step := (count_step key).
Local Abbreviation occurrences := (occurrences key).

Lemma count_step_length cs x : length (count_step cs x) = length cs.
Proof. unfold count_step. destruct (key x); [apply length_alter|done]. Qed.

Lemma foldl_count_length l cs : length (foldl count_step cs l) = length cs.
Proof.
  revert cs. induction l as [|x l IH]; intros cs; [done|].
  simpl. by rewrite IH, count_step_length.
Qed.

Lemma foldl_count_lookup l cs (j : nat) :
  foldl count_step cs l !! j = (fun c => (c + occurrences j l)%nat) <$> cs !! j.
Proof.
  revert cs. induction l as [|x l IH]; intros cs.
  - simpl. unfold occurrences. simpl. destruct (cs !! j); simpl; f_equal; lia.
  - simpl. rewrite IH. unfold occurrences. rewrite count_cons.
    unfold count_step. destruct (key x) as [k|] eqn:E.
    + destruct (decide (k = j)) as [->|Hne].
      * rewrite list_lookup_alter_eq. destruct (decide (Some j = Some j)); [|done].
        destruct (cs !! j); simpl; f_equal; lia.
      * rewrite list_lookup_alter_ne by done.
        destruct (decide (Some k = Some j)); [congruence|].
        destruct (cs !! j); simpl; f_equal.
    + destruct (decide (None = Some j)); [done|]. destruct (cs !! j); simpl; f_equal.
Qed.



End Tally.
End CountingFacts.

(** The bucket index is computed in binary64; for the in-range values of
    the widths that take the bucketed branch it is the exact quotient. *)
Section BucketFacts.
Import Js Histo.

Lemma all_below_spec (p : Z -> bool) (todo : nat) (from : Z) :
  all_below p todo from = true ->
  forall z, from <= z < from + Z.of_nat todo -> p z = true.
Proof.
  revert from. induction todo as [|todo IH]; intros from H z Hz; [lia|].
  simpl in H. apply andb_prop in H as [H1 H2].
  destruct (Z.eq_dec z from) as [->|Hne]; [done|].
  apply (IH (from + 1)); [done|lia].
Qed.

Lemma bucket_check_13 : bucket_check 13 = true.
Proof. vm_compute. reflexivity. Qed.
Lemma bucket_check_14 : bucket_check 14 = true.
Proof. vm_compute. reflexivity. Qed.
Lemma bucket_check_15 : bucket_check 15 = true.
Proof. vm_compute. reflexivity. Qed.
Lemma bucket_check_16 : bucket_check 16 = true.
Proof. vm_compute. reflexivity. Qed.

(** For the bit widths that take the bucketed branch, the index computed in
    double precision is the exact [floor(z * 255 / maxValue)] for every
    value in range. *)
Lemma bucketIndex_exact (bits z : Z) :
  13 <= bits <= 16 -> 0 <= z <= 2 ^ bits - 1 ->
  V2Sync.bucketIndex (2 ^ bits - 1) (NInt z) = NInt (z * 255 / (2 ^ bits - 1)).
Proof.
  intros Hb Hz.
  assert (Hc : bucket_check bits = true).
  { assert (bits = 13 \/ bits = 14 \/ bits = 15 \/ bits = 16) as [->|[->|[->| ->]]] by lia;
      [apply bucket_check_13|apply bucket_check_14|apply bucket_check_15|apply bucket_check_16]. }
  unfold bucket_check in Hc.
  pose proof (all_below_spec _ _ _ Hc z) as H.
  rewrite Z2Nat.id in H by (pose proof (Z.pow_pos_nonneg 2 bits); lia).
  specialize (H ltac:(lia)). cbv beta in H.
  destruct (V2Sync.bucketIndex (2 ^ bits - 1) (NInt z)) as [k| |]; try discriminate.
  apply Z.eqb_eq in H. by rewrite H.
Qed.

End BucketFacts.

(* ===================================================================== *)
(** ** The histogram builders (claims C8 and C4) *)
(* ===================================================================== *)

Section HistogramSteps.
Import Js Histo.

Lemma shl_one (b : Z) : 0 <= b <= 30 -> shl 1 b = 2 ^ b.
Proof.
  intros Hb. unfold shl, toInt32.
  rewrite (Z.mod_small b 32) by lia.
  change ((1 + 2 ^ 31) mod 2 ^ 32 - 2 ^ 31) with 1.
  rewrite Z.shiftl_1_l.
  assert (2 ^ b <= 2 ^ 30) by (apply Z.pow_le_mono_r; lia).
  pose proof (Z.pow_pos_nonneg 2 b ltac:(lia) ltac:(lia)).
  rewrite Z.mod_small; lia.
Qed.

(** A counting loop of a script, run on an array of counts, is the counting
    loop on plain counters when each of its steps is. *)
Lemma foldl_cells (step : list Cell -> Num -> list Cell) (key : Num -> option nat)
    (len : nat) :
  (forall cs n, length cs = len -> step (Count <$> cs) n = Count <$> count_step key cs n) ->
  forall nums cs, length cs = len ->
    foldl step (Count <$> cs) nums = Count <$> foldl (count_step key) cs nums.
Proof.
  intros Hstep nums. induction nums as [|n nums IH]; intros cs Hlen; [done|].
  simpl. rewrite Hstep by done. apply IH. by rewrite count_step_length.
Qed.

(** Values that have no key may be filtered out before the loop. *)
Lemma foldl_count_filter (key : Num -> option nat) (p : Num -> bool) nums cs :
  (forall n, p n = false -> key n = None) ->
  foldl (count_step key) cs (List.filter p nums) = foldl (count_step key) cs nums.
Proof.
  intros Hp. revert cs. induction nums as [|n nums IH]; intros cs; [done|].
  simpl. destruct (p n) eqn:E; simpl; [apply IH|].
  assert (count_step key cs n = cs) as -> by (unfold count_step; by rewrite (Hp n E)).
  apply IH.
Qed.

Lemma exact_key_Some maxValue n j :
  exact_key maxValue n = Some j <->
  exists z, n = NInt z /\ 0 <= z <= maxValue /\ j = Z.to_nat z.
Proof.
  unfold exact_key. destruct n as [z| |]; try (split; [done|intros (?&?&_); done]).
  destruct (Z.leb_spec 0 z), (Z.leb_spec z maxValue); simpl; split;
    try done; try (intros (z' & [= <-] & ? & ?); lia).
  - intros [= <-]. eauto.
  - intros (z' & [= <-] & ? & ->). done.
Qed.

Lemma V2Sync_exact_step maxValue cs n :
  0 <= maxValue < 2 ^ 31 -> length cs = Z.to_nat (maxValue + 1) ->
  V2Sync.exact_step maxValue (Count <$> cs) n
  = Count <$> count_step (exact_key maxValue) cs n.
Proof.
  intros Hm Hlen. unfold V2Sync.exact_step, count_step, exact_key.
  destruct n as [z| |[|]]; try done.
  unfold isFinite, geb, leb.
  destruct (Z.leb_spec 0 z), (Z.leb_spec z maxValue); cbn [andb]; try done.
  apply incr_at_inside; lia.
Qed.

Lemma AssetsApp_exact_step maxValue cs n :
  0 <= maxValue < 2 ^ 31 -> length cs = Z.to_nat (maxValue + 1) ->
  AssetsApp.exact_step maxValue (Count <$> cs) n
  = Count <$> count_step (exact_key maxValue) cs n.
Proof.
  intros Hm Hlen. unfold AssetsApp.exact_step, count_step, exact_key.
  destruct n as [z| |[|]]; try done.
  unfold isFinite, geb, leb.
  destruct (Z.leb_spec 0 z), (Z.leb_spec z maxValue); cbn [andb]; try done.
  apply incr_at_inside; lia.
Qed.

(** The clamped index is [NaN] or an integer in 0..255. *)
Lemma clampIndex_range idx :
  V2Sync.clampIndex idx = NNaN
  \/ exists i, V2Sync.clampIndex idx = NInt i /\ 0 <= i <= 255.
Proof.
  unfold V2Sync.clampIndex, Math_max, Math_min. change (256 - 1) with 255.
  destruct idx as [z| |[|]]; simpl; [|by left| |].
  - right. destruct (Z.leb_spec 255 z); simpl.
    + exists 255. split; [done|lia].
    + destruct (Z.leb_spec 0 z); simpl; eexists; split; try done; lia.
  - right. exists 0. split; [done|lia].
  - right. exists 255. split; [done|lia].
Qed.

Lemma incr_at_clamped cs idx :
  length cs = 256%nat ->
  incr_at (Count <$> cs) (V2Sync.clampIndex idx)
  = Count <$> count_step (fun i => index_key (V2Sync.clampIndex i)) cs idx.
Proof.
  intros Hlen. unfold count_step.
  destruct (clampIndex_range idx) as [->|(i & -> & Hi)]; [done|].
  simpl. apply incr_at_inside; rewrite Hlen; lia.
Qed.

Lemma V2Sync_bucket_step maxValue cs n :
  length cs = 256%nat ->
  V2Sync.bucket_step maxValue (Count <$> cs) n
  = Count <$> count_step (V2Sync_bucket_key maxValue) cs n.
Proof.
  intros Hlen. unfold V2Sync.bucket_step, V2Sync_bucket_key.
  destruct (ltb n (NInt 0) || gtb n (NInt maxValue) || negb (isFinite n)) eqn:E.
  - unfold count_step. by rewrite E.
  - rewrite incr_at_clamped by done. unfold count_step. by rewrite E.
Qed.

Lemma AssetsApp_bucket_step maxValue cs n :
  length cs = 256%nat ->
  AssetsApp.bucket_step maxValue (Count <$> cs) n
  = Count <$> count_step (AssetsApp_bucket_key maxValue) cs n.
Proof.
  intros Hlen. unfold AssetsApp.bucket_step, AssetsApp_bucket_key.
  destruct (negb (isFinite n)) eqn:E.
  - unfold count_step. by rewrite E.
  - change (AssetsApp.clampIndex (AssetsApp.bucketIndex maxValue n))
      with (V2Sync.clampIndex (V2Sync.bucketIndex maxValue n)).
    rewrite incr_at_clamped by done. unfold count_step. by rewrite E.
Qed.

End HistogramSteps.

Section HistogramShape.
Import Js Histo.


Lemma V2Sync_guard maxValue n :
  ltb n (NInt 0) || gtb n (NInt maxValue) || negb (isFinite n)
  = negb (V2Sync.inRange maxValue n).
Proof.
  unfold V2Sync.inRange, gtb, geb, ltb, leb, isFinite. destruct n as [z| |[|]]; simpl; try done.
  destruct (Z.ltb_spec z 0), (Z.ltb_spec maxValue z), (Z.leb_spec 0 z), (Z.leb_spec z maxValue);
    simpl; try done; lia.
Qed.

Lemma index_key_clamped idx (j : nat) :
  index_key (V2Sync.clampIndex idx) = Some j
  <-> V2Sync.clampIndex idx = NInt (Z.of_nat j).
Proof.
  destruct (clampIndex_range idx) as [->|(i & -> & Hi)]; [done|].
  simpl. split.
  - intros [= <-]. f_equal. lia.
  - intros [= ->]. f_equal. lia.
Qed.

Lemma V2Sync_bucket_key_Some maxValue n (j : nat) :
  V2Sync_bucket_key maxValue n = Some j
  <-> V2Sync.inRange maxValue n = true
      /\ V2Sync.clampIndex (V2Sync.bucketIndex maxValue n) = NInt (Z.of_nat j).
Proof.
  unfold V2Sync_bucket_key. rewrite V2Sync_guard.
  destruct (V2Sync.inRange maxValue n); simpl.
  - rewrite index_key_clamped. tauto.
  - split; [done|]. intros [? _]. done.
Qed.

Lemma AssetsApp_bucket_key_Some maxValue n (j : nat) :
  AssetsApp_bucket_key maxValue n = Some j
  <-> isFinite n = true
      /\ AssetsApp.clampIndex (AssetsApp.bucketIndex maxValue n) = NInt (Z.of_nat j).
Proof.
  unfold AssetsApp_bucket_key.
  change (AssetsApp.clampIndex (AssetsApp.bucketIndex maxValue n))
    with (V2Sync.clampIndex (V2Sync.bucketIndex maxValue n)).
  destruct (isFinite n); simpl.
  - rewrite index_key_clamped. tauto.
  - split; [done|]. intros [? _]. done.
Qed.

Lemma cells_replicate (len : nat) : replicate len (Count 0) = Count <$> replicate len 0%nat.
Proof. by rewrite fmap_replicate. Qed.

Lemma parse_bits (bits : Z) : parseInt (String_of (NInt bits)) (Some 10) = NInt bits.
Proof. apply parseInt_toString. lia. Qed.

Lemma pow2_bounds (bits : Z) : 1 <= bits <= 16 -> 2 <= 2 ^ bits <= 65536.
Proof.
  intros Hb. split.
  - change 2 with (2 ^ 1) at 1. apply Z.pow_le_mono_r; lia.
  - change 65536 with (2 ^ 16). apply Z.pow_le_mono_r; lia.
Qed.

Lemma pow2_small (bits : Z) : 1 <= bits -> (bits <= 12 <-> 2 ^ bits - 1 <= 4096).
Proof.
  intros Hb. split; intros H.
  - assert (2 ^ bits <= 2 ^ 12) by (apply Z.pow_le_mono_r; lia). lia.
  - destruct (Z.le_gt_cases bits 12) as [|Hgt]; [done|].
    assert (2 ^ 13 <= 2 ^ bits) by (apply Z.pow_le_mono_r; lia). lia.
Qed.

(** What the one-bucket-per-value branch of part_001 draws. *)
Lemma V2Sync_render_exact (bits : Z) (l : list Val) :
  1 <= bits <= 12 ->
  V2Sync.renderDistributionGraph true (VArr l) (NInt bits)
  = Normal (Some (mkChart
      ((fun i : nat => String_of (NInt (Z.of_nat i))) <$> seq 0 (Z.to_nat (2 ^ bits)))
      (Count <$> foldl (count_step (exact_key (2 ^ bits - 1)))
                       (replicate (Z.to_nat (2 ^ bits)) 0%nat) (map toNumber l)))).
Proof.
  intros Hb. pose proof (pow2_bounds bits ltac:(lia)) as Hp.
  pose proof (proj1 (pow2_small bits ltac:(lia)) ltac:(lia)) as Hs.
  unfold V2Sync.renderDistributionGraph. rewrite parse_bits.
  cbn [negb isNaN orb ltb default_param]. destruct (Z.ltb_spec bits 1); [lia|].
  rewrite shl_one by lia. unfold V2Sync.BUCKET_THRESHOLD_BITS.
  destruct (Z.leb_spec bits 12); [|lia].
  destruct (Z.leb_spec (2 ^ bits - 1) 4096); [|lia]. cbn [andb].
  unfold new_counts. replace (2 ^ bits - 1 + 1) with (2 ^ bits) by lia.
  destruct (Z.leb_spec 0 (2 ^ bits)); [|lia].
  destruct (Z.ltb_spec (2 ^ bits) (2 ^ 32)); [|lia]. cbn [andb mbind Completion_bind mret Completion_ret].
  rewrite cells_replicate.
  rewrite (foldl_cells _ (exact_key (2 ^ bits - 1)) (Z.to_nat (2 ^ bits)));
    [| |by rewrite length_replicate].
  - rewrite foldl_count_filter by (by intros [| |]).
    do 3 f_equal. rewrite imap_seq_0, length_fmap, foldl_count_length, length_replicate. done.
  - intros cs n Hlen. apply V2Sync_exact_step; [lia|]. rewrite Hlen. f_equal. lia.
Qed.

(** What the 256-bucket branch of part_001 draws. *)
Lemma V2Sync_render_bucketed (bits : Z) (l : list Val) :
  13 <= bits <= 16 ->
  V2Sync.renderDistributionGraph true (VArr l) (NInt bits)
  = Normal (Some (mkChart
      (V2Sync.range_label (2 ^ bits - 1) <$> seq 0 256)
      (Count <$> foldl (count_step (V2Sync_bucket_key (2 ^ bits - 1)))
                       (replicate 256 0%nat) (map toNumber l)))).
Proof.
  intros Hb. pose proof (pow2_bounds bits ltac:(lia)) as Hp.
  unfold V2Sync.renderDistributionGraph. rewrite parse_bits.
  cbn [negb isNaN orb ltb default_param]. destruct (Z.ltb_spec bits 1); [lia|].
  rewrite shl_one by lia. unfold V2Sync.BUCKET_THRESHOLD_BITS.
  destruct (Z.leb_spec bits 12); [lia|]. cbn [andb mret Completion_ret].
  rewrite cells_replicate.
  rewrite (foldl_cells _ (V2Sync_bucket_key (2 ^ bits - 1)) 256);
    [| |by rewrite length_replicate].
  - rewrite foldl_count_filter.
    + do 3 f_equal. rewrite imap_seq_0, length_fmap, foldl_count_length, length_replicate. done.
    + intros n Hn. unfold V2Sync_bucket_key. rewrite Hn. cbn [negb]. by rewrite orb_true_r.
  - intros cs n Hlen. by apply V2Sync_bucket_step.
Qed.

End HistogramShape.

Section HistogramAssets.
Import Js Histo.

Lemma decimal_labels (len : Z) :
  map (fun i => String_of (NInt i)) (seqZ 0 len)
  = (fun i : nat => String_of (NInt (Z.of_nat i))) <$> seq 0 (Z.to_nat len).
Proof.
  unfold seqZ. change (map ?f ?l) with (f <$> l). rewrite <- list_fmap_compose.
  apply list_fmap_ext. intros i x _. simpl. by rewrite Z.add_0_r.
Qed.

(** What the one-bucket-per-value branch of src/frontend/assets/app.js
    draws: the same as part_001. *)
Lemma AssetsApp_render_exact (bits : Z) (l : list Val) :
  1 <= bits <= 12 ->
  AssetsApp.renderDistributionGraph true (VArr l) (NInt bits)
  = V2Sync.renderDistributionGraph true (VArr l) (NInt bits).
Proof.
  intros Hb. rewrite V2Sync_render_exact by done.
  pose proof (pow2_bounds bits ltac:(lia)) as Hp.
  pose proof (proj1 (pow2_small bits ltac:(lia)) ltac:(lia)) as Hs.
  unfold AssetsApp.renderDistributionGraph. rewrite parse_bits.
  cbn [negb isNaN orb ltb default_param]. destruct (Z.ltb_spec bits 1); [lia|].
  rewrite shl_one by lia.
  destruct (Z.leb_spec bits 12); [|lia].
  destruct (Z.leb_spec (2 ^ bits - 1) 4096); [|lia]. cbn [andb].
  unfold new_counts. replace (2 ^ bits - 1 + 1) with (2 ^ bits) by lia.
  destruct (Z.leb_spec 0 (2 ^ bits)); [|lia].
  destruct (Z.ltb_spec (2 ^ bits) (2 ^ 32)); [|lia].
  cbn [andb mbind Completion_bind mret Completion_ret].
  rewrite cells_replicate.
  rewrite (foldl_cells _ (exact_key (2 ^ bits - 1)) (Z.to_nat (2 ^ bits)));
    [| |by rewrite length_replicate].
  - by rewrite decimal_labels.
  - intros cs n Hlen. apply AssetsApp_exact_step; [lia|]. rewrite Hlen. f_equal. lia.
Qed.

(** What its 256-bucket branch draws. *)
Lemma AssetsApp_render_bucketed (bits : Z) (l : list Val) :
  13 <= bits <= 16 ->
  AssetsApp.renderDistributionGraph true (VArr l) (NInt bits)
  = Normal (Some (mkChart
      (AssetsApp.range_label (2 ^ bits - 1) <$> seq 0 256)
      (Count <$> foldl (count_step (AssetsApp_bucket_key (2 ^ bits - 1)))
                       (replicate 256 0%nat) (map toNumber l)))).
Proof.
  intros Hb. pose proof (pow2_bounds bits ltac:(lia)) as Hp.
  unfold AssetsApp.renderDistributionGraph. rewrite parse_bits.
  cbn [negb isNaN orb ltb default_param]. destruct (Z.ltb_spec bits 1); [lia|].
  rewrite shl_one by lia.
  destruct (Z.leb_spec bits 12); [lia|]. cbn [andb mret Completion_ret].
  rewrite cells_replicate.
  rewrite (foldl_cells _ (AssetsApp_bucket_key (2 ^ bits - 1)) 256);
    [| |by rewrite length_replicate].
  - do 3 f_equal. rewrite imap_seq_0, length_fmap, foldl_count_length, length_replicate. done.
  - intros cs n Hlen. by apply AssetsApp_bucket_step.
Qed.

Lemma exact_quotient_range (z maxValue : Z) :
  0 < maxValue -> 0 <= z <= maxValue -> 0 <= z * 255 / maxValue <= 255.
Proof.
  intros Hm Hz. split.
  - apply Z.div_pos; lia.
  - apply Z.div_le_upper_bound; nia.
Qed.

(** In the bucketed branch a value in range lands in the bucket
    [floor(z * 255 / maxValue)], which lies in 0..255. *)
Lemma bucket_of_value (bits z : Z) :
  13 <= bits <= 16 -> 0 <= z <= 2 ^ bits - 1 ->
  V2Sync.clampIndex (V2Sync.bucketIndex (2 ^ bits - 1) (NInt z))
  = NInt (z * 255 / (2 ^ bits - 1))
  /\ 0 <= z * 255 / (2 ^ bits - 1) <= 255.
Proof.
  intros Hb Hz. pose proof (pow2_bounds bits ltac:(lia)).
  pose proof (exact_quotient_range z (2 ^ bits - 1) ltac:(lia) Hz) as Hq.
  split; [|done]. rewrite bucketIndex_exact by done.
  unfold V2Sync.clampIndex, Math_max, Math_min. change (256 - 1) with 255. simpl.
  destruct (Z.leb_spec 255 (z * 255 / (2 ^ bits - 1))); simpl.
  - f_equal. lia.
  - destruct (Z.leb_spec 0 (z * 255 / (2 ^ bits - 1))); [done|lia].
Qed.

Lemma replicate_lookup_0 (len j : nat) :
  (j < len)%nat -> replicate len 0%nat !! j = Some 0%nat.
Proof. intros. by apply lookup_replicate_2. Qed.

End HistogramAssets.

Section HistogramTheorems.
Import Js Histo.

(** C8.  For a bit width in 1..16 the histogram builder
    [renderDistributionGraph], in part_001 and in src/frontend/assets/app.js,
    takes its branch by the value range.  When [2^bits - 1 <= 4096] it
    draws [2^bits] buckets labelled by the decimal strings of 0, 1, ... and
    bucket [i] holds the number of input values equal to [i].  Otherwise it
    draws exactly 256 buckets, a value being counted in the bucket
    [max(0, min(255, floor(value / maxValue * 255)))] (part_001 counts the
    values in range, assets/app.js every finite value), and for a value in
    range that bucket is [floor(value * 255 / maxValue)], inside 0..255. *)
Theorem histogram_branches (bits : Z) (l : list Val) :
  1 <= bits <= 16 ->
  let nums := map toNumber l in
  let maxValue := 2 ^ bits - 1 in
  exists labels cs labels' cs',
    V2Sync.renderDistributionGraph true (VArr l) (NInt bits)
      = Normal (Some (mkChart labels (Count <$> cs)))
    /\ AssetsApp.renderDistributionGraph true (VArr l) (NInt bits)
      = Normal (Some (mkChart labels' (Count <$> cs')))
    /\ (maxValue <= 4096 ->
        length cs = Z.to_nat (2 ^ bits) /\ cs' = cs /\ labels' = labels
        /\ labels = (fun i : nat => String_of (NInt (Z.of_nat i))) <$> seq 0 (Z.to_nat (2 ^ bits))
        /\ forall i, 0 <= i <= maxValue ->
             cs !! Z.to_nat i = Some (length (filter (fun n => n = NInt i) nums)))
    /\ (4096 < maxValue ->
        length cs = 256%nat /\ length cs' = 256%nat
        /\ length labels = 256%nat /\ length labels' = 256%nat
        /\ (forall j : nat, (j < 256)%nat ->
              cs !! j = Some (length (filter
                  (fun n => V2Sync.inRange maxValue n = true
                            /\ V2Sync.clampIndex (V2Sync.bucketIndex maxValue n)
                               = NInt (Z.of_nat j)) nums)))
        /\ (forall j : nat, (j < 256)%nat ->
              cs' !! j = Some (length (filter
                  (fun n => isFinite n = true
                            /\ AssetsApp.clampIndex (AssetsApp.bucketIndex maxValue n)
                               = NInt (Z.of_nat j)) nums)))
        /\ (forall z, 0 <= z <= maxValue ->
              V2Sync.clampIndex (V2Sync.bucketIndex maxValue (NInt z))
                = NInt (z * 255 / maxValue)
              /\ AssetsApp.clampIndex (AssetsApp.bucketIndex maxValue (NInt z))
                = NInt (z * 255 / maxValue)
              /\ 0 <= z * 255 / maxValue <= 255)).
Proof.
  intros Hb nums maxValue. pose proof (pow2_bounds bits Hb) as Hp.
  destruct (Z.le_gt_cases bits 12) as [Hsmall|Hbig].
  - pose proof (proj1 (pow2_small bits ltac:(lia)) Hsmall).
    eexists _, _, _, _. split; [apply V2Sync_render_exact; lia|].
    split; [rewrite AssetsApp_render_exact by lia; apply V2Sync_render_exact; lia|].
    split; [|subst maxValue; lia]. intros _.
    split; [by rewrite foldl_count_length, length_replicate|].
    do 3 (split; [done|]). intros i Hi.
    rewrite foldl_count_lookup, replicate_lookup_0 by lia. simpl. f_equal.
    unfold occurrences. f_equal. apply list_filter_iff. intros n.
    rewrite exact_key_Some. split.
    + intros (z & -> & Hz & Hj). f_equal. lia.
    + intros ->. exists i. split; [done|]. fold maxValue. lia.
  - pose proof (pow2_small bits ltac:(lia)) as Hiff.
    eexists _, _, _, _. split; [apply V2Sync_render_bucketed; lia|].
    split; [apply AssetsApp_render_bucketed; lia|].
    split; [subst maxValue; lia|]. intros _.
    split; [by rewrite foldl_count_length, length_replicate|].
    split; [by rewrite foldl_count_length, length_replicate|].
    split; [by rewrite length_fmap, length_seq|].
    split; [by rewrite length_fmap, length_seq|].
    split; [|split].
    + intros j Hj. rewrite foldl_count_lookup, replicate_lookup_0 by lia. simpl. f_equal.
      unfold occurrences. f_equal. apply list_filter_iff. intros n.
      apply V2Sync_bucket_key_Some.
    + intros j Hj. rewrite foldl_count_lookup, replicate_lookup_0 by lia. simpl. f_equal.
      unfold occurrences. f_equal. apply list_filter_iff. intros n.
      apply AssetsApp_bucket_key_Some.
    + intros z Hz. pose proof (bucket_of_value bits z ltac:(lia) Hz) as [H1 H2].
      split; [exact H1|]. split; [exact H1|exact H2].
Qed.

End HistogramTheorems.

Section HistogramTotals.
Import Js Histo.

(** The theorem at two bits and the values 1, 3, 1. *)
Lemma histogram_branches_witness :
  1 <= 2 <= 16
  /\ exists chart,
       V2Sync.renderDistributionGraph true
         (VArr [VNum (NInt 1); VNum (NInt 3); VNum (NInt 1)]) (NInt 2) = Normal (Some chart)
       /\ data chart !! 1%nat = Some (Count 2).
Proof.
  assert (H : 1 <= 2 <= 16) by lia.
  split; [exact H|].
  destruct (histogram_branches 2 [VNum (NInt 1); VNum (NInt 3); VNum (NInt 1)] H)
    as (labels & cs & labels' & cs' & Hv & _ & Hexact & _).
  exists (mkChart labels (Count <$> cs)). split; [exact Hv|].
  destruct (Hexact ltac:(simpl; lia)) as (_ & _ & _ & _ & Hcs).
  simpl. rewrite list_lookup_fmap.
  specialize (Hcs 1 ltac:(simpl; lia)). simpl in Hcs.
  change (Z.to_nat 1) with 1%nat in Hcs. rewrite Hcs. reflexivity.
Defined.





(** C4, at the input that breaks it.  With 16 bits the histogram of
    src/frontend/assets/app.js takes the bucketed branch, whose only test
    is [Number.isFinite]: the value 70000, above [2^16 - 1], and the value
    -5 are clamped into the last and the first bucket and counted.  The
    counts add up to 2 while no input value is in range.  part_001 counts
    neither.  The [renderHistogram] of src/frontend/script.js has no test
    at all: 300 with [maxValue = 255] extends the array with holes and a
    [NaN]. *)
Theorem histogram_counts_out_of_range :
  let numbers := [VNum (NInt 70000); VNum (NInt (-5))] in
  (exists chart,
      AssetsApp.renderDistributionGraph true (VArr numbers) (NInt 16) = Normal (Some chart)
      /\ length (data chart) = 256%nat
      /\ data chart !! 255%nat = Some (Count 1)
      /\ data chart !! 0%nat = Some (Count 1)
      /\ total (data chart) = 2%nat)
  /\ length (filter (fun n => V2Sync.inRange (2 ^ 16 - 1) n = true) (map toNumber numbers))
     = 0%nat
  /\ (exists chart,
      V2Sync.renderDistributionGraph true (VArr numbers) (NInt 16) = Normal (Some chart)
      /\ total (data chart) = 0%nat)
  /\ (exists chart,
      Script.histogram [VNum (NInt 300)] (VNum (NInt 255)) = Normal chart
      /\ length (data chart) = 301%nat
      /\ data chart !! 300%nat = Some CellNaN
      /\ data chart !! 256%nat = Some Hole).
Proof.
  intros numbers. split; [|split; [|split]].
  - eexists. split; [vm_compute; reflexivity|]. vm_compute. repeat split.
  - vm_compute. reflexivity.
  - eexists. split; [vm_compute; reflexivity|]. vm_compute. reflexivity.
  - eexists. split; [vm_compute; reflexivity|]. vm_compute. repeat split.
Qed.

End HistogramTotals.

(* ===================================================================== *)
(** ** The simulated circuit (claim C9) *)
(* ===================================================================== *)

Section Circuit.
Import Js.

Lemma toInt32_small z : - 2 ^ 31 <= z < 2 ^ 31 -> toInt32 z = z.
Proof. intros Hz. unfold toInt32. rewrite Z.mod_small; lia. Qed.

Lemma lor_below (a b k : Z) :
  0 <= k -> 0 <= a < 2 ^ k -> 0 <= b < 2 ^ k -> 0 <= Z.lor a b < 2 ^ k.
Proof.
  intros Hk Ha Hb. split; [apply Z.lor_nonneg; lia|].
  destruct (Z.eq_dec a 0) as [->|Hna]; [rewrite Z.lor_0_l; lia|].
  destruct (Z.eq_dec b 0) as [->|Hnb]; [rewrite Z.lor_0_r; lia|].
  assert (0 <= Z.lor a b) by (apply Z.lor_nonneg; lia).
  destruct (Z.eq_dec (Z.lor a b) 0) as [->|Hnz]; [lia|].
  apply Z.log2_lt_pow2; [lia|].
  rewrite Z.log2_lor by lia.
  apply Z.max_lub_lt; apply Z.log2_lt_pow2; lia.
Qed.

(** Setting bit [bit] of a number below [2^bit], for a bit position that a
    32-bit shift can reach without touching the sign. *)
Lemma bor_bit (q bit : Z) :
  0 <= bit <= 30 -> 0 <= q < 2 ^ bit -> 0 <= bor q (shl 1 bit) < 2 ^ (bit + 1).
Proof.
  intros Hb Hq. rewrite shl_one by lia.
  assert (2 ^ bit <= 2 ^ 30) by (apply Z.pow_le_mono_r; lia).
  assert (2 ^ (bit + 1) <= 2 ^ 31) by (apply Z.pow_le_mono_r; lia).
  assert (2 ^ (bit + 1) = 2 * 2 ^ bit) by (rewrite Z.pow_add_r; lia).
  unfold bor. rewrite (toInt32_small q), (toInt32_small (2 ^ bit)) by lia.
  pose proof (lor_below q (2 ^ bit) (bit + 1) ltac:(lia) ltac:(lia) ltac:(lia)).
  rewrite toInt32_small; lia.
Qed.

Lemma measure_bits_range coin (todo : nat) (bit q : Z) (k : nat) :
  0 <= bit -> bit + Z.of_nat todo <= 31 -> 0 <= q < 2 ^ bit ->
  0 <= fst (QuantumRNG.measure_bits coin todo bit q k) < 2 ^ (bit + Z.of_nat todo).
Proof.
  revert bit q k. induction todo as [|todo IH]; intros bit q k Hb Ht Hq.
  - simpl. by rewrite Z.add_0_r.
  - cbn [QuantumRNG.measure_bits].
    replace (bit + Z.of_nat (S todo)) with ((bit + 1) + Z.of_nat todo) by lia.
    apply IH; [lia|lia|].
    destruct (coin k).
    + apply bor_bit; lia.
    + rewrite Z.pow_add_r by lia. lia.
Qed.

Lemma sample_loop_length coin numBits todo k :
  length (QuantumRNG.sample_loop coin numBits todo k) = todo.
Proof.
  revert k. induction todo as [|todo IH]; intros k; [done|].
  cbn [QuantumRNG.sample_loop]. destruct (QuantumRNG.measure_bits _ _ _ _ _) as [q k'].
  simpl. by rewrite IH.
Qed.

Lemma sample_loop_range coin (numBits : nat) todo k :
  Z.of_nat numBits <= 31 ->
  Forall (fun n => 0 <= n <= 2 ^ Z.of_nat numBits - 1)
         (QuantumRNG.sample_loop coin numBits todo k).
Proof.
  intros Hb. revert k. induction todo as [|todo IH]; intros k; [constructor|].
  cbn [QuantumRNG.sample_loop].
  pose proof (measure_bits_range coin numBits 0 0 k ltac:(lia) ltac:(lia) ltac:(simpl; lia)) as H.
  destruct (QuantumRNG.measure_bits coin numBits 0 0 k) as [q k'].
  cbn [fst] in H. rewrite Z.add_0_l in H. constructor; [lia|apply IH].
Qed.

(** Up to 31 bits the simulation keeps the invariant of claim C9: it
    returns exactly [numSamples] integers, each in [0, 2^numBits - 1],
    whatever the coin flips. *)
Lemma simulateQuantumCircuit_in_range coin (numBits numSamples : Z) :
  1 <= numBits <= 31 -> 0 <= numSamples ->
  let results := QuantumRNG.simulateQuantumCircuit coin (NInt numBits) (NInt numSamples) in
  length results = Z.to_nat numSamples
  /\ Forall (fun n => 0 <= n <= 2 ^ numBits - 1) results.
Proof.
  intros Hb Hs results. subst results. unfold QuantumRNG.simulateQuantumCircuit.
  cbn [QuantumRNG.iterations]. split; [apply sample_loop_length|].
  pose proof (sample_loop_range coin (Z.to_nat numBits) (Z.to_nat numSamples) 0) as H.
  rewrite Z2Nat.id in H by lia. apply H. lia.
Qed.

(** That invariant at eight bits and three samples, every coin flip
    setting its bit. *)
Lemma simulateQuantumCircuit_in_range_witness :
  1 <= 8 <= 31 /\ 0 <= 3
  /\ length (QuantumRNG.simulateQuantumCircuit (fun _ => true) (NInt 8) (NInt 3)) = Z.to_nat 3
  /\ Forall (fun n => 0 <= n <= 2 ^ 8 - 1)
            (QuantumRNG.simulateQuantumCircuit (fun _ => true) (NInt 8) (NInt 3)).
Proof.
  assert (H1 : 1 <= 8 <= 31) by lia.
  assert (H2 : 0 <= 3) by lia.
  split; [exact H1|]. split; [exact H2|].
  exact (simulateQuantumCircuit_in_range (fun _ => true) 8 3 H1 H2).
Defined.

(** C9, at the input that breaks it.  With [numBits = 32] the inner loop
    reaches [1 << 31], which is [-2147483648] in 32-bit arithmetic: when
    every coin flip sets its bit the number returned is [-1], below 0.  With
    33 bits and more the shift count wraps around ([1 << 32] is 1) and the
    numbers stay 32-bit integers, negative as soon as bit 31 is set. *)
Theorem simulateQuantumCircuit_32_bits_negative :
  QuantumRNG.simulateQuantumCircuit (fun _ => true) (NInt 32) (NInt 1) = [-1]
  /\ ~ (0 <= -1 <= 2 ^ 32 - 1)
  /\ shl 1 31 = - 2 ^ 31
  /\ shl 1 32 = 1
  /\ QuantumRNG.simulateQuantumCircuit (fun k => Nat.eqb k 31) (NInt 40) (NInt 1)
     = [- 2 ^ 31].
Proof. vm_compute. repeat split; try congruence. intros [H _]. by apply H. Qed.

End Circuit.

(* ===================================================================== *)
(** ** Facts about handler bodies *)
(* ===================================================================== *)

Section EffFacts.
Import Js.
Context {S X : Type}.
Variable f : S -> X.

Lemma preserves_ret {A} (a : A) : preserves f (mret a : Eff S A).
Proof. by intros s. Qed.

Lemma preserves_lift {A} (c : Completion A) : preserves f (lift c : Eff S A).
Proof. by intros s. Qed.

Lemma preserves_throw {A} msg : preserves f (throw msg : Eff S A).
Proof. by intros s. Qed.

Lemma preserves_modify (g : S -> S) : (forall s, f (g s) = f s) -> preserves f (modify g).
Proof. intros H s. apply H. Qed.

Lemma preserves_bind {A B} (c : Eff S A) (k : A -> Eff S B) :
  preserves f c -> (forall a, preserves f (k a)) -> preserves f (c ≫= k).
Proof.
  intros Hc Hk s. unfold mbind, Eff_bind. specialize (Hc s).
  destruct (c s) as [[a|msg] s']; simpl in *; [|done].
  by rewrite Hk.
Qed.

(** A [try]/[catch] whose body and handler both leave [f] alone. *)
Lemma preserves_try_catch (body : Eff S unit) (handler : string -> S -> S) s :
  preserves f body -> (forall msg s', f (handler msg s') = f s') ->
  f (try_catch body handler s) = f s.
Proof.
  intros Hb Hh. unfold try_catch. specialize (Hb s).
  destruct (body s) as [[a|msg] s']; simpl in *; [done|]. by rewrite Hh.
Qed.

(** Running [c] and then [k]. *)
Lemma run_bind {A B} (c : Eff S A) (k : A -> Eff S B) s :
  (c ≫= k) s = match c s with
               | (Normal a, s') => k a s'
               | (Throw msg, s') => (Throw msg, s')
               end.
Proof. reflexivity. Qed.

End EffFacts.

Ltac preserves_step :=
  first
    [ apply preserves_ret
    | apply preserves_lift
    | apply preserves_throw
    | apply preserves_modify; intros []; reflexivity
    | apply preserves_bind; [|intros ?] ].

(* ===================================================================== *)
(** ** The last response (claim C1) *)
(* ===================================================================== *)

Section LastResponse.
Import Js.

Ltac preserves_auto unfolder :=
  repeat first
    [ preserves_step
    | progress unfolder
    | match goal with
      | |- preserves _ (match ?x with _ => _ end) => destruct x
      | |- preserves _ (V2Sync.on_dom _) =>
          let s := fresh in intros s; unfold V2Sync.on_dom;
          match goal with |- context [match ?c with _ => _ end] => destruct c end; reflexivity
      | |- preserves _ (V2Sync.draw_chart _ _) =>
          let s := fresh in intros s; unfold V2Sync.draw_chart;
          match goal with |- context [match ?c with _ => _ end] => destruct c as [[?|]|] end;
          reflexivity
      | |- preserves _ (AssetsApp.on_dom _) =>
          let s := fresh in intros s; unfold AssetsApp.on_dom;
          match goal with |- context [match ?c with _ => _ end] => destruct c end; reflexivity
      | |- preserves _ (AssetsApp.draw_chart _ _) =>
          let s := fresh in intros s; unfold AssetsApp.draw_chart;
          match goal with |- context [match ?c with _ => _ end] => destruct c as [[?|]|] end;
          reflexivity
      end ].

Lemma Script_render_lastResponse data :
  preserves Script.lastResponse (Script.render_response data).
Proof.
  preserves_auto ltac:(unfold Script.render_response, Script.renderStats,
                       Script.renderTable, Script.renderHistogram).
Qed.


Lemma FrontendApp_render_lastResponse render res format bits :
  preserves FrontendApp.lastResponse (FrontendApp.render_response render res format bits).
Proof. preserves_auto ltac:(unfold FrontendApp.render_response). Qed.

Lemma FrontendApp_render_requests render res format bits :
  preserves FrontendApp.requests (FrontendApp.render_response render res format bits).
Proof. preserves_auto ltac:(unfold FrontendApp.render_response). Qed.

Lemma V2Sync_render_lastResponse data bits :
  preserves V2Sync.lastResponse (V2Sync.render_response data bits).
Proof. preserves_auto ltac:(unfold V2Sync.render_response). Qed.

Lemma V2Sync_render_requests data bits :
  preserves V2Sync.requests (V2Sync.render_response data bits).
Proof. preserves_auto ltac:(unfold V2Sync.render_response). Qed.

Lemma AssetsApp_render_lastResponse data bits :
  preserves AssetsApp.lastResponse (AssetsApp.render_response data bits).
Proof. preserves_auto ltac:(unfold AssetsApp.render_response). Qed.

Lemma AssetsApp_render_requests data bits :
  preserves AssetsApp.requests (AssetsApp.render_response data bits).
Proof. preserves_auto ltac:(unfold AssetsApp.render_response). Qed.

End LastResponse.

Section TryBody.
Import Js.
Context {S : Type}.
Variables (log : S -> S) (api : Completion Val) (set : Val -> S -> S)
          (rest : Val -> Eff S unit) (handler : string -> S -> S).

Local Abbreviation body := (modify log;; data ← lift api; modify (set data);; rest data).

(** The slot [f] after a [try] block that logs the request, awaits the
    call, stores its result in the slot and then renders it. *)
Lemma try_body_slot (f : S -> Val) p :
  (forall s, f (log s) = f s) -> (forall v s, f (set v s) = v) ->
  (forall v, preserves f (rest v)) -> (forall msg s, f (handler msg s) = f s) ->
  f (try_catch body handler p)
  = match api with Normal data => data | Throw _ => f p end.
Proof.
  intros Hlog Hset Hrest Hh. unfold try_catch.
  rewrite run_bind. cbn [modify]. rewrite run_bind. unfold lift at 1.
  destruct api as [data|msg]; [|by rewrite Hh, Hlog].
  rewrite run_bind. cbn [modify]. specialize (Hrest data (set data (log p))).
  destruct (rest data (set data (log p))) as [[a|msg] s']; cbn [snd] in Hrest.
  - by rewrite Hrest, Hset.
  - by rewrite Hh, Hrest, Hset.
Qed.

(** A trace [f] that only the logging step extends. *)
Lemma try_body_trace {X} (f : S -> list X) (x : X) p :
  (forall s, f (log s) = f s ++ [x]) -> (forall v s, f (set v s) = f s) ->
  (forall v, preserves f (rest v)) -> (forall msg s, f (handler msg s) = f s) ->
  f (try_catch body handler p) = f p ++ [x].
Proof.
  intros Hlog Hset Hrest Hh. unfold try_catch.
  rewrite run_bind. cbn [modify]. rewrite run_bind. unfold lift at 1.
  destruct api as [data|msg]; [|by rewrite Hh, Hlog].
  rewrite run_bind. cbn [modify]. specialize (Hrest data (set data (log p))).
  destruct (rest data (set data (log p))) as [[a|msg] s']; cbn [snd] in Hrest.
  - by rewrite Hrest, Hset, Hlog.
  - by rewrite Hh, Hrest, Hset, Hlog.
Qed.

End TryBody.

Section HandlerSlots.
Import Js.

Lemma Script_onGenerate_lastResponse backend p :
  Script.lastResponse (Script.onGenerate backend p)
  = match Script.validate (Script.hideError p) with
    | inl _ => Script.lastResponse p
    | inr (num_bits, num_samples) =>
        match Script.api (backend (Script.request_body num_bits num_samples)) with
        | Normal data => data
        | Throw _ => Script.lastResponse p
        end
    end.
Proof.
  unfold Script.onGenerate. destruct (Script.validate _) as [msg|[b s]]; [done|].
  unfold Script.generate_body. rewrite try_body_slot; try done.
  apply Script_render_lastResponse.
Qed.


Lemma FrontendApp_onGenerate_lastResponse render backend p :
  FrontendApp.lastResponse (FrontendApp.onGenerate render backend p)
  = match FrontendApp.validate p with
    | inl _ => FrontendApp.lastResponse p
    | inr (num_bits, num_samples) =>
        match FrontendApp.apiPost
                (backend (FrontendApp.request_body num_bits num_samples
                            (FrontendApp.read_format p))) with
        | Normal res => res
        | Throw _ => FrontendApp.lastResponse p
        end
    end.
Proof.
  unfold FrontendApp.onGenerate. destruct (FrontendApp.validate _) as [msg|[b s]]; [done|].
  unfold FrontendApp.generate_body. rewrite try_body_slot; try done.
  intros v. apply FrontendApp_render_lastResponse.
Qed.

Lemma FrontendApp_onGenerate_requests render backend p :
  FrontendApp.requests (FrontendApp.onGenerate render backend p)
  = match FrontendApp.validate p with
    | inl _ => FrontendApp.requests p
    | inr (num_bits, num_samples) =>
        FrontendApp.requests p
        ++ [FrontendApp.request_body num_bits num_samples (FrontendApp.read_format p)]
    end.
Proof.
  unfold FrontendApp.onGenerate. destruct (FrontendApp.validate _) as [msg|[b s]]; [done|].
  unfold FrontendApp.generate_body.
  rewrite (try_body_trace _ _ _ _ _ FrontendApp.requests
             (FrontendApp.request_body b s (FrontendApp.read_format p))); try done.
  intros v. apply FrontendApp_render_requests.
Qed.

Lemma AssetsApp_onGenerate_lastResponse backend p :
  AssetsApp.lastResponse (AssetsApp.onGenerate backend p)
  = match AssetsApp.validate p with
    | inl _ => AssetsApp.lastResponse p
    | inr (numBits, numSamples) =>
        match AssetsApp.generateRandomNumbers
                (backend (AssetsApp.request_body numBits numSamples)) with
        | Normal result => result
        | Throw _ => AssetsApp.lastResponse p
        end
    end.
Proof.
  unfold AssetsApp.onGenerate. destruct (AssetsApp.validate _) as [msg|[b s]]; [done|].
  unfold AssetsApp.generate_body. rewrite try_body_slot; try done.
  intros v. apply AssetsApp_render_lastResponse.
Qed.

Lemma AssetsApp_onGenerate_requests backend p :
  AssetsApp.requests (AssetsApp.onGenerate backend p)
  = match AssetsApp.validate p with
    | inl _ => AssetsApp.requests p
    | inr (numBits, numSamples) =>
        AssetsApp.requests p ++ [AssetsApp.request_body numBits numSamples]
    end.
Proof.
  unfold AssetsApp.onGenerate. destruct (AssetsApp.validate _) as [msg|[b s]]; [done|].
  unfold AssetsApp.generate_body.
  rewrite (try_body_trace _ _ _ _ _ AssetsApp.requests (AssetsApp.request_body b s)); try done.
  intros v. apply AssetsApp_render_requests.
Qed.

(** part_001 checks the status between the call and the assignment. *)
Lemma V2Sync_onGenerate_lastResponse backend p :
  V2Sync.lastResponse (V2Sync.onGenerate backend p)
  = match V2Sync.validate p with
    | inl _ => V2Sync.lastResponse p
    | inr (bits, samples) =>
        match V2Sync.generateRandomNumbers (backend (V2Sync.request_body bits samples)) with
        | Normal data =>
            match V2Sync.check_status data with
            | Normal _ => data
            | Throw _ => V2Sync.lastResponse p
            end
        | Throw _ => V2Sync.lastResponse p
        end
    end.
Proof.
  unfold V2Sync.onGenerate. destruct (V2Sync.validate _) as [msg|[b s]]; [done|].
  unfold V2Sync.generate_body, try_catch.
  rewrite run_bind. cbn [modify]. rewrite run_bind. cbn [modify]. rewrite run_bind.
  unfold lift at 1. destruct (V2Sync.generateRandomNumbers _) as [data|msg]; [|done].
  rewrite run_bind. unfold lift at 1. destruct (V2Sync.check_status data) as [[]|msg]; [|done].
  rewrite run_bind. cbn [modify].
  match goal with |- context [V2Sync.render_response data b ?s] =>
    pose proof (V2Sync_render_lastResponse data b s) as H;
    destruct (V2Sync.render_response data b s) as [[a|msg] s']
  end; cbn [snd] in H |- *; [exact H|].
  unfold V2Sync.generate_failed. cbn. exact H.
Qed.

Lemma V2Sync_onGenerate_requests backend p :
  V2Sync.requests (V2Sync.onGenerate backend p)
  = match V2Sync.validate p with
    | inl _ => V2Sync.requests p
    | inr (bits, samples) => V2Sync.requests p ++ [V2Sync.request_body bits samples]
    end.
Proof.
  unfold V2Sync.onGenerate. destruct (V2Sync.validate _) as [msg|[b s]]; [done|].
  unfold V2Sync.generate_body, try_catch.
  rewrite run_bind. cbn [modify]. rewrite run_bind. cbn [modify]. rewrite run_bind.
  unfold lift at 1. destruct (V2Sync.generateRandomNumbers _) as [data|msg]; [|done].
  rewrite run_bind. unfold lift at 1. destruct (V2Sync.check_status data) as [[]|msg]; [|done].
  rewrite run_bind. cbn [modify].
  match goal with |- context [V2Sync.render_response data b ?s] =>
    pose proof (V2Sync_render_requests data b s) as H;
    destruct (V2Sync.render_response data b s) as [[a|msg] s']
  end; cbn [snd] in H |- *; [exact H|].
  unfold V2Sync.generate_failed. cbn. exact H.
Qed.

End HandlerSlots.

Section LastResponseTheorems.
Import Js.

(** C1 (amended).  The last-response slot is overwritten exactly when the
    backend call returns a payload (and, in part_001, the payload passes
    the status check).  When validation, the call or the status check
    fails, the slot keeps the value it had.  Once the payload has been
    stored, a failure while rendering it does not restore the old value:
    the slot holds the new payload.  Stated for script.js, for
    src/frontend/app.js (whatever [renderGenerationResult] does) and for
    part_001. *)
Theorem lastResponse_set_when_call_returns :
  (forall backend p,
      Script.lastResponse (Script.onGenerate backend p)
      = match Script.validate (Script.hideError p) with
        | inl _ => Script.lastResponse p
        | inr (num_bits, num_samples) =>
            match Script.api (backend (Script.request_body num_bits num_samples)) with
            | Normal data => data
            | Throw _ => Script.lastResponse p
            end
        end)
  /\ (forall render backend p,
      FrontendApp.lastResponse (FrontendApp.onGenerate render backend p)
      = match FrontendApp.validate p with
        | inl _ => FrontendApp.lastResponse p
        | inr (num_bits, num_samples) =>
            match FrontendApp.apiPost
                    (backend (FrontendApp.request_body num_bits num_samples
                                (FrontendApp.read_format p))) with
            | Normal res => res
            | Throw _ => FrontendApp.lastResponse p
            end
        end)
  /\ (forall backend p,
      V2Sync.lastResponse (V2Sync.onGenerate backend p)
      = match V2Sync.validate p with
        | inl _ => V2Sync.lastResponse p
        | inr (bits, samples) =>
            match V2Sync.generateRandomNumbers
                    (backend (V2Sync.request_body bits samples)) with
            | Normal data =>
                match V2Sync.check_status data with
                | Normal _ => data
                | Throw _ => V2Sync.lastResponse p
                end
            | Throw _ => V2Sync.lastResponse p
            end
        end).
Proof.
  split; [|split].
  - apply Script_onGenerate_lastResponse.
  - apply FrontendApp_onGenerate_lastResponse.
  - apply V2Sync_onGenerate_lastResponse.
Qed.

(** A generation attempt that fails after the call.  In script.js the
    backend answers with numbers but no [statistics]: [renderStats] throws
    on [stats.mean], the error box shows the failure, and the slot no
    longer holds the previous response.  In src/frontend/app.js the backend
    answers with the JSON value [null]: [res.numbers] throws, a failure
    toast is shown, and the previous response is gone. *)
Lemma lastResponse_lost_on_render_failure :
  let old := VObj {[ "numbers" := VArr [VNum (NInt 9)] ]} in
  let new := VObj {[ "numbers" := VArr [VNum (NInt 1); VNum (NInt 2); VNum (NInt 3)] ]} in
  let p := Script.mkPage "8" "3" None false None false [] false None false old [] in
  let after := Script.onGenerate (fun _ => Reply true (Some new) "") p in
  let p' := FrontendApp.mkPage None true (Some "8") (Some "3") None old [] [] in
  let after' := FrontendApp.onGenerate (fun _ _ _ => Normal tt)
                  (fun _ => Reply true (Some VNull) "null") p' in
  (Script.errorBox after = Some "TypeError: Cannot read properties of undefined or null"
   /\ Script.lastResponse after = new /\ Script.lastResponse after <> Script.lastResponse p)
  /\ (FrontendApp.toasts after'
      = [("Generation failed: TypeError: Cannot read properties of undefined or null", "error")]
      /\ FrontendApp.lastResponse after' = VNull
      /\ FrontendApp.lastResponse after' <> FrontendApp.lastResponse p').
Proof.
  vm_compute. repeat split; congruence.
Qed.

End LastResponseTheorems.

(* ===================================================================== *)
(** ** Validation before the request (claim C3) *)
(* ===================================================================== *)

Section Validation.
Import Js.

Lemma FrontendApp_validate_rejects p :
  let num_bits := FrontendApp.read_num_bits p in
  let num_samples := FrontendApp.read_num_samples p in
  (isNaN num_bits || ltb num_bits (NInt 1) || gtb num_bits (NInt 16))
  || (isNaN num_samples || ltb num_samples (NInt 1) || gtb num_samples (NInt 5000)) = true ->
  exists msg, FrontendApp.validate p = inl msg
    /\ (FrontendApp.no_token p && negb (FrontendApp.isGuestMode p) = false ->
        msg = "Number of bits must be between 1 and 16"
        \/ msg = "Number of samples must be between 1 and 5000").
Proof.
  intros b s H. unfold FrontendApp.validate. fold b s.
  destruct (FrontendApp.no_token p && negb (FrontendApp.isGuestMode p)).
  - eexists. split; [done|]. done.
  - destruct (isNaN b || ltb b (NInt 1) || gtb b (NInt 16)).
    + eexists. split; [done|]. by left.
    + cbn [orb] in H. rewrite H. eexists. split; [done|]. by right.
Qed.

Lemma below_not_above b : ltb b (NInt 1) = true -> gtb b (NInt 16) = false.
Proof.
  destruct b as [z| |[|]]; try done. unfold gtb, ltb.
  destruct (Z.ltb_spec z 1), (Z.ltb_spec 16 z); try done; lia.
Qed.

Lemma below_not_NaN b : ltb b (NInt 1) = true -> isNaN b = false.
Proof. by destruct b as [z| |[|]]. Qed.

(** After [if (numBits < 1) numBits = 1] the upper test only rejects what
    was above 16 to begin with. *)
Lemma clamped_above b :
  gtb (if ltb b (NInt 1) then NInt 1 else b) (NInt 16)
  = negb (ltb b (NInt 1)) && gtb b (NInt 16).
Proof. by destruct (ltb b (NInt 1)). Qed.

Lemma AssetsApp_validate_cases p vb vs :
  AssetsApp.dom p !! "numBits" = Some vb -> AssetsApp.dom p !! "numSamples" = Some vs ->
  let bits := parseInt vb (Some 10) in
  let samples := parseInt vs (Some 10) in
  ((isNaN bits || gtb bits (NInt 16))
   || (isNaN samples || ltb samples (NInt 1) || gtb samples (NInt 5000)) = true ->
   exists msg, AssetsApp.validate p = inl msg)
  /\ (ltb bits (NInt 1) = true ->
      isNaN samples || ltb samples (NInt 1) || gtb samples (NInt 5000) = false ->
      AssetsApp.validate p = inr (NInt 1, samples)).
Proof.
  intros Hb Hs b s. unfold AssetsApp.validate. rewrite Hb, Hs. fold b s.
  unfold AssetsApp.MAX_BITS, AssetsApp.MAX_SAMPLES. rewrite clamped_above.
  pose proof (below_not_above b) as Hx. pose proof (below_not_NaN b) as Hy.
  destruct (isNaN b), (ltb b (NInt 1)), (gtb b (NInt 16)), (isNaN s),
    (ltb s (NInt 1)), (gtb s (NInt 5000)); cbn [orb andb negb];
    (split; [intros H; try discriminate H; try (by eexists);
             try (specialize (Hx eq_refl); discriminate Hx)
            |intros H1 H2; try discriminate H1; try discriminate H2;
             try (specialize (Hy eq_refl); discriminate Hy); try reflexivity]).
Qed.

Lemma V2Sync_validate_cases p vb vs :
  V2Sync.dom p !! "numBits" = Some vb -> V2Sync.dom p !! "numSamples" = Some vs ->
  let bits := parseInt vb (Some 10) in
  let samples := parseInt vs (Some 10) in
  ((isNaN bits || gtb bits (NInt 16))
   || (isNaN samples || ltb samples (NInt 1) || gtb samples (NInt 5000)) = true ->
   exists msg, V2Sync.validate p = inl msg)
  /\ (ltb bits (NInt 1) = true ->
      isNaN samples || ltb samples (NInt 1) || gtb samples (NInt 5000) = false ->
      V2Sync.validate p = inr (NInt 1, samples)).
Proof.
  intros Hb Hs b s. unfold V2Sync.validate. rewrite Hb, Hs. fold b s.
  unfold V2Sync.MAX_BITS, V2Sync.MAX_SAMPLES. rewrite clamped_above.
  pose proof (below_not_above b) as Hx. pose proof (below_not_NaN b) as Hy.
  destruct (isNaN b), (ltb b (NInt 1)), (gtb b (NInt 16)), (isNaN s),
    (ltb s (NInt 1)), (gtb s (NInt 5000)); cbn [orb andb negb];
    (split; [intros H; try discriminate H; try (by eexists);
             try (specialize (Hx eq_refl); discriminate Hx)
            |intros H1 H2; try discriminate H1; try discriminate H2;
             try (specialize (Hy eq_refl); discriminate Hy); try reflexivity]).
Qed.

End Validation.

Section ValidationTheorems.
Import Js.

(** C3 (amended).  src/frontend/app.js rejects before any network call:
    when the parsed number of bits is [NaN] or outside 1..16, or the parsed
    number of samples is [NaN] or outside 1..5000, its handler shows an
    error toast (one of the two range messages when the user is signed in
    or a guest) and posts nothing.  src/frontend/assets/app.js and part_001
    do the same for a number of bits that is [NaN] or above 16 and for a
    number of samples out of range; a number of bits below 1 they do not
    reject: they raise it to 1 and post the request with [num_bits = 1]. *)
Theorem validation_gate :
  (forall render backend p,
      let num_bits := FrontendApp.read_num_bits p in
      let num_samples := FrontendApp.read_num_samples p in
      (isNaN num_bits || ltb num_bits (NInt 1) || gtb num_bits (NInt 16))
      || (isNaN num_samples || ltb num_samples (NInt 1) || gtb num_samples (NInt 5000))
         = true ->
      FrontendApp.requests (FrontendApp.onGenerate render backend p) = FrontendApp.requests p
      /\ exists msg,
           FrontendApp.toasts (FrontendApp.onGenerate render backend p)
             = FrontendApp.toasts p ++ [(msg, "error")]
           /\ (FrontendApp.no_token p && negb (FrontendApp.isGuestMode p) = false ->
               msg = "Number of bits must be between 1 and 16"
               \/ msg = "Number of samples must be between 1 and 5000"))
  /\ (forall backend p vb vs,
      AssetsApp.dom p !! "numBits" = Some vb -> AssetsApp.dom p !! "numSamples" = Some vs ->
      let numBits := parseInt vb (Some 10) in
      let numSamples := parseInt vs (Some 10) in
      ((isNaN numBits || gtb numBits (NInt 16))
       || (isNaN numSamples || ltb numSamples (NInt 1) || gtb numSamples (NInt 5000)) = true ->
       AssetsApp.requests (AssetsApp.onGenerate backend p) = AssetsApp.requests p
       /\ exists msg, AssetsApp.errors (AssetsApp.onGenerate backend p)
                      = AssetsApp.errors p ++ [msg])
      /\ (ltb numBits (NInt 1) = true ->
          isNaN numSamples || ltb numSamples (NInt 1) || gtb numSamples (NInt 5000) = false ->
          AssetsApp.requests (AssetsApp.onGenerate backend p)
          = AssetsApp.requests p ++ [AssetsApp.request_body (NInt 1) numSamples]))
  /\ (forall backend p vb vs,
      V2Sync.dom p !! "numBits" = Some vb -> V2Sync.dom p !! "numSamples" = Some vs ->
      let bits := parseInt vb (Some 10) in
      let samples := parseInt vs (Some 10) in
      ((isNaN bits || gtb bits (NInt 16))
       || (isNaN samples || ltb samples (NInt 1) || gtb samples (NInt 5000)) = true ->
       V2Sync.requests (V2Sync.onGenerate backend p) = V2Sync.requests p
       /\ exists msg, V2Sync.toasts (V2Sync.onGenerate backend p)
                      = V2Sync.toasts p ++ [(msg, "error")])
      /\ (ltb bits (NInt 1) = true ->
          isNaN samples || ltb samples (NInt 1) || gtb samples (NInt 5000) = false ->
          V2Sync.requests (V2Sync.onGenerate backend p)
          = V2Sync.requests p ++ [V2Sync.request_body (NInt 1) samples])).
Proof.
  split; [|split].
  - intros render backend p b s H.
    destruct (FrontendApp_validate_rejects p H) as (msg & Hv & Hmsg).
    rewrite FrontendApp_onGenerate_requests. unfold FrontendApp.onGenerate. rewrite Hv.
    split; [done|]. exists msg. split; [done|exact Hmsg].
  - intros backend p vb vs Hb Hs b s.
    destruct (AssetsApp_validate_cases p vb vs Hb Hs) as [Hrej Hclamp]. split.
    + intros H. destruct (Hrej H) as [msg Hv].
      rewrite AssetsApp_onGenerate_requests. unfold AssetsApp.onGenerate. rewrite Hv.
      split; [done|]. by exists msg.
    + intros H1 H2. rewrite AssetsApp_onGenerate_requests. by rewrite (Hclamp H1 H2).
  - intros backend p vb vs Hb Hs b s.
    destruct (V2Sync_validate_cases p vb vs Hb Hs) as [Hrej Hclamp]. split.
    + intros H. destruct (Hrej H) as [msg Hv].
      rewrite V2Sync_onGenerate_requests. unfold V2Sync.onGenerate. rewrite Hv.
      split; [done|]. by exists msg.
    + intros H1 H2. rewrite V2Sync_onGenerate_requests. by rewrite (Hclamp H1 H2).
Qed.

(** The theorem at 20 bits on src/frontend/app.js: nothing is posted. *)
Lemma validation_gate_witness :
  let p := FrontendApp.mkPage None true (Some "20") (Some "10") None VNull [] [] in
  let num_bits := FrontendApp.read_num_bits p in
  let num_samples := FrontendApp.read_num_samples p in
  ((isNaN num_bits || ltb num_bits (NInt 1) || gtb num_bits (NInt 16))
   || (isNaN num_samples || ltb num_samples (NInt 1) || gtb num_samples (NInt 5000)) = true)
  /\ FrontendApp.requests
       (FrontendApp.onGenerate (fun _ _ _ => Normal tt) (fun _ => NetworkError) p)
     = FrontendApp.requests p.
Proof.
  intros p num_bits num_samples.
  assert (H : (isNaN num_bits || ltb num_bits (NInt 1) || gtb num_bits (NInt 16))
              || (isNaN num_samples || ltb num_samples (NInt 1)
                  || gtb num_samples (NInt 5000)) = true) by reflexivity.
  split; [exact H|].
  exact (proj1 (proj1 validation_gate (fun _ _ _ => Normal tt) (fun _ => NetworkError) p H)).
Defined.

(** With [numBits = 0] the handlers of src/frontend/assets/app.js and of
    part_001 report no error and call the backend, asking for one bit. *)
Lemma zero_bits_not_rejected :
  let backend := fun _ : Val => NetworkError in
  let p := AssetsApp.mkPage {[ "numBits" := "0"; "numSamples" := "10" ]} VNull None [] [] in
  let q := V2Sync.mkPage {[ "numBits" := "0"; "numSamples" := "10" ]} VNull None [] [] in
  parseInt "0" (Some 10) = NInt 0
  /\ AssetsApp.validate p = inr (NInt 1, NInt 10)
  /\ AssetsApp.requests (AssetsApp.onGenerate backend p)
     = [VObj {[ "num_bits" := VNum (NInt 1); "num_samples" := VNum (NInt 10) ]}]
  /\ V2Sync.validate q = inr (NInt 1, NInt 10)
  /\ V2Sync.requests (V2Sync.onGenerate backend q)
     = [VObj {[ "num_bits" := VNum (NInt 1); "num_samples" := VNum (NInt 10) ]}].
Proof. vm_compute. repeat split. Qed.

End ValidationTheorems.

(* ===================================================================== *)
(** ** The status check and the statistics of part_001 (claims C6, C5) *)
(* ===================================================================== *)

Section StatusAndStats.
Import Js.

Lemma check_status_success data :
  V2Sync.check_status data = Normal tt <-> getProp data "status" = Normal (VStr "success").
Proof.
  unfold V2Sync.check_status. destruct (getProp data "status") as [status|msg]; simpl.
  - destruct status as [| | | |s| |]; simpl;
      try (split; [destruct (getProp data "message"); discriminate|discriminate]).
    destruct (String.eqb_spec s "success") as [->|Hne]; simpl.
    + done.
    + split; [destruct (getProp data "message"); discriminate|]. intros [= ->]. done.
  - split; discriminate.
Qed.

Lemma check_status_block_success stringify data :
  V2Sync.check_status_block stringify data = Normal tt
  <-> getProp data "status" = Normal (VStr "success").
Proof.
  unfold V2Sync.check_status_block. destruct (getProp data "status") as [status|msg]; simpl.
  - destruct status as [| | | |s| |]; simpl;
      try (split; [destruct (getProp data "message"); discriminate|discriminate]).
    destruct (String.eqb_spec s "success") as [->|Hne]; simpl.
    + done.
    + split; [destruct (getProp data "message"); discriminate|]. intros [= ->]. done.
  - split; discriminate.
Qed.

(** What the handler of part_001 leaves behind when the status check
    throws: the old response, the old chart and one more error toast. *)
Lemma V2Sync_status_failure backend p bits samples data msg :
  V2Sync.validate p = inr (bits, samples) ->
  V2Sync.generateRandomNumbers (backend (V2Sync.request_body bits samples)) = Normal data ->
  V2Sync.check_status data = Throw msg ->
  let after := V2Sync.onGenerate backend p in
  V2Sync.lastResponse after = V2Sync.lastResponse p
  /\ V2Sync.distributionChart after = V2Sync.distributionChart p
  /\ V2Sync.toasts after
     = V2Sync.toasts p ++ [(if String.eqb msg "" then "Generation failed" else msg, "error")].
Proof.
  intros Hv Hg Hc after.
  assert (E : after = V2Sync.generate_failed msg
                        (V2Sync.log_request (V2Sync.request_body bits samples)
                           (V2Sync.set_dom (V2Sync.showSkeletons (V2Sync.dom p)) p))).
  { subst after. unfold V2Sync.onGenerate. rewrite Hv.
    unfold V2Sync.generate_body, try_catch.
    rewrite run_bind. cbn [modify]. rewrite run_bind. cbn [modify]. rewrite run_bind.
    unfold lift at 1. rewrite Hg. rewrite run_bind. unfold lift at 1. by rewrite Hc. }
  rewrite E. done.
Qed.

(** C6 (amended).  The handler of part_001 accepts a payload only when its
    [status] is the string ["success"]: the check passes exactly then, in
    the handler and in the success-handling block of lines 109-150 alike.
    A payload without a [status] field is refused like one with any other
    status: the handler throws [data.message || 'Generation error'], shows
    it as an error toast, and leaves the last response and the chart as
    they were. *)
Theorem status_must_be_success :
  (forall data,
      V2Sync.check_status data = Normal tt <-> getProp data "status" = Normal (VStr "success"))
  /\ (forall stringify data,
      V2Sync.check_status_block stringify data = Normal tt
      <-> getProp data "status" = Normal (VStr "success"))
  /\ (forall (m : gmap string Val),
      m !! "status" = None ->
      V2Sync.check_status (VObj m)
      = Throw (String_val (or_else (default VUndefined (m !! "message"))
                                   (VStr "Generation error"))))
  /\ (forall backend p bits samples data,
      V2Sync.validate p = inr (bits, samples) ->
      V2Sync.generateRandomNumbers (backend (V2Sync.request_body bits samples)) = Normal data ->
      getProp data "status" <> Normal (VStr "success") ->
      let after := V2Sync.onGenerate backend p in
      V2Sync.lastResponse after = V2Sync.lastResponse p
      /\ V2Sync.distributionChart after = V2Sync.distributionChart p
      /\ exists msg, V2Sync.toasts after = V2Sync.toasts p ++ [(msg, "error")]).
Proof.
  split; [|split; [|split]].
  - apply check_status_success.
  - apply check_status_block_success.
  - intros m Hm. unfold V2Sync.check_status. cbn [getProp mbind Completion_bind].
    rewrite Hm. reflexivity.
  - intros backend p bits samples data Hv Hg Hs after.
    destruct (V2Sync.check_status data) as [[]|msg] eqn:Hc.
    + by apply check_status_success in Hc.
    + destruct (V2Sync_status_failure backend p bits samples data msg Hv Hg Hc)
        as (H1 & H2 & H3).
      split; [exact H1|]. split; [exact H2|]. eexists. exact H3.
Qed.

(** The theorem at a payload that has numbers and no status. *)
Lemma status_must_be_success_witness :
  let m : gmap string Val := {[ "numbers" := VArr [VNum (NInt 1)] ]} in
  m !! "status" = None
  /\ V2Sync.check_status (VObj m) = Throw "Generation error".
Proof.
  intros m. assert (H : m !! "status" = None) by reflexivity.
  split; [exact H|]. exact (proj1 (proj2 (proj2 status_must_be_success)) m H).
Defined.

(** A payload with valid numbers and no [status] field: the handler of
    part_001 throws "Generation error", stores nothing and draws nothing;
    the block of lines 109-150 throws the serialised payload (here a
    serialiser that prints this payload). *)
Lemma missing_status_is_refused :
  let data := VObj {[ "numbers" := VArr [VNum (NInt 1); VNum (NInt 2); VNum (NInt 3)] ]} in
  let p := V2Sync.mkPage {[ "numBits" := "8"; "numSamples" := "3";
                            "distributionChart" := ""; "resultDisplay" := "" ]}
                         VNull None [] [] in
  let after := V2Sync.onGenerate (fun _ => Reply true (Some data) "") p in
  V2Sync.check_status data = Throw "Generation error"
  /\ V2Sync.check_status_block (fun _ => "{numbers:[1,2,3]}") data
     = Throw "{numbers:[1,2,3]}"
  /\ V2Sync.toasts after = [("Generation error", "error")]
  /\ V2Sync.lastResponse after = VNull
  /\ V2Sync.distributionChart after = None.
Proof. vm_compute. repeat split. Qed.

End StatusAndStats.

Section StatsOrder.
Import Js.

Lemma updateStatistics_returns candidate d :
  exists d', V2Sync.updateStatistics candidate d = Normal d'.
Proof.
  unfold V2Sync.updateStatistics, V2Sync.statsObj_of, V2Sync.field_or_0.
  set (s := or_else (default_param candidate (VObj ∅)) (VObj ∅)).
  assert (Hs : nullish s = false).
  { subst s. unfold or_else. destruct (truthy _) eqn:E; [|done].
    by destruct (default_param candidate (VObj ∅)) as [| | | | | |]. }
  assert (Hget : forall v k, nullish v = false -> exists x, getProp v k = Normal x).
  { intros v k Hv. destruct v; try done; simpl; eauto. }
  destruct (Hget s "statistics" Hs) as [a ->]. destruct (Hget s "stats" Hs) as [b ->].
  cbn [mbind Completion_bind mret Completion_ret].
  set (statsObj := coalesce (coalesce a b) s).
  assert (Ho : nullish statsObj = false).
  { subst statsObj. unfold coalesce. destruct (nullish a) eqn:Ea; [|by rewrite Ea].
    destruct (nullish b) eqn:Eb; [by rewrite Hs|by rewrite Eb]. }
  destruct (Hget statsObj "mean" Ho) as [x1 ->]. destruct (Hget statsObj "std" Ho) as [x2 ->].
  destruct (Hget statsObj "min" Ho) as [x3 ->]. destruct (Hget statsObj "max" Ho) as [x4 ->].
  cbn. eauto.
Qed.




End StatsOrder.

(* ===================================================================== *)
(** ** Clear and export in part_002 (claim C10) *)
(* ===================================================================== *)

Section ClearExport.
Import Js.
Variable JSON_stringify : Val -> string.


End ClearExport.


(* ===================================================================== *)
(** ** The simulated circuit, bit by bit *)
(* ===================================================================== *)

Section CircuitBits.
Import Js.

(** [quantumNumber |= (1 << bit)] sets bit [bit] and no other, for a number
    below [2^bit] and a position a 32-bit shift reaches. *)
Lemma bor_testbit (q bit j : Z) :
  0 <= bit <= 30 -> 0 <= q < 2 ^ bit -> 0 <= j ->
  Z.testbit (bor q (shl 1 bit)) j = Z.testbit q j || (j =? bit).
Proof.
  intros Hb Hq Hj. rewrite shl_one by lia.
  assert (2 ^ bit <= 2 ^ 30) by (apply Z.pow_le_mono_r; lia).
  assert (2 ^ (bit + 1) <= 2 ^ 31) by (apply Z.pow_le_mono_r; lia).
  assert (2 ^ (bit + 1) = 2 * 2 ^ bit) by (rewrite Z.pow_add_r; lia).
  unfold bor. rewrite (toInt32_small q), (toInt32_small (2 ^ bit)) by lia.
  pose proof (lor_below q (2 ^ bit) (bit + 1) ltac:(lia) ltac:(lia) ltac:(lia)).
  rewrite toInt32_small by lia.
  rewrite Z.lor_spec, Z.pow2_bits_eqb by lia.
  by rewrite (Z.eqb_sym bit j).
Qed.

Lemma testbit_above (q bit j : Z) :
  0 <= q < 2 ^ bit -> 0 <= bit <= j -> Z.testbit q j = false.
Proof.
  intros Hq Hj. destruct (Z.eq_dec q 0) as [->|Hq0]; [apply Z.testbit_0_l|].
  apply Z.bits_above_log2; [lia|].
  apply Z.log2_lt_pow2; [lia|].
  assert (2 ^ bit <= 2 ^ j) by (apply Z.pow_le_mono_r; lia). lia.
Qed.

(** What the inner loop leaves: the bits below [bit] as they were, the bits
    from [bit] on as the coin flips say, and as many flips consumed as bits
    measured. *)
Lemma measure_bits_spec coin (todo : nat) (bit q : Z) (k : nat) :
  0 <= bit -> bit + Z.of_nat todo <= 31 -> 0 <= q < 2 ^ bit ->
  snd (QuantumRNG.measure_bits coin todo bit q k) = (k + todo)%nat
  /\ forall j, 0 <= j ->
       Z.testbit (fst (QuantumRNG.measure_bits coin todo bit q k)) j
       = if j <? bit then Z.testbit q j
         else if j <? bit + Z.of_nat todo then coin (k + Z.to_nat (j - bit))%nat
         else false.
Proof.
  revert bit q k. induction todo as [|todo IH]; intros bit q k Hb Ht Hq.
  - cbn [QuantumRNG.measure_bits fst snd]. split; [lia|]. intros j Hj.
    rewrite Z.add_0_r. destruct (Z.ltb_spec j bit); [done|].
    apply (testbit_above q bit); lia.
  - cbn [QuantumRNG.measure_bits].
    set (q1 := if coin k then bor q (shl 1 bit) else q).
    assert (Hq1 : 0 <= q1 < 2 ^ (bit + 1)).
    { subst q1. destruct (coin k); [apply bor_bit; lia|].
      rewrite Z.pow_add_r by lia. lia. }
    destruct (IH (bit + 1) q1 (S k) ltac:(lia) ltac:(lia) Hq1) as [Hk Hbits].
    split; [rewrite Hk; lia|]. intros j Hj. rewrite Hbits by done.
    replace (bit + 1 + Z.of_nat todo) with (bit + Z.of_nat (S todo)) by lia.
    destruct (Z.ltb_spec j (bit + 1)), (Z.ltb_spec j bit); try lia.
    + subst q1. destruct (coin k).
      * rewrite bor_testbit by lia. destruct (Z.eqb_spec j bit); [lia|]. by rewrite orb_false_r.
      * done.
    + assert (j = bit) as -> by lia.
      destruct (Z.ltb_spec bit (bit + Z.of_nat (S todo))); [|lia].
      rewrite Z.sub_diag, Nat.add_0_r. subst q1. destruct (coin k) eqn:Ec.
      * rewrite bor_testbit, Z.eqb_refl by lia. by rewrite orb_true_r.
      * apply (testbit_above q bit); lia.
    + destruct (Z.ltb_spec j (bit + Z.of_nat (S todo))); [|done].
      f_equal. lia.
Qed.

Lemma sample_loop_lookup coin (numBits todo k i : nat) :
  (i < todo)%nat -> Z.of_nat numBits <= 31 ->
  QuantumRNG.sample_loop coin numBits todo k !! i
  = Some (fst (QuantumRNG.measure_bits coin numBits 0 0 (k + i * numBits))).
Proof.
  revert k i. induction todo as [|todo IH]; intros k i Hi Hb; [lia|].
  cbn [QuantumRNG.sample_loop].
  pose proof (measure_bits_spec coin numBits 0 0 k ltac:(lia) ltac:(lia) ltac:(simpl; lia))
    as [Hk _].
  destruct (QuantumRNG.measure_bits coin numBits 0 0 k) as [q k'] eqn:E.
  cbn [snd] in Hk. subst k'. destruct i as [|i].
  - simpl. by rewrite Nat.add_0_r, E.
  - cbn [lookup list_lookup]. rewrite IH by lia. do 3 f_equal. lia.
Qed.

(** Up to 31 bits, bit [b] of the [i]-th number returned is the outcome of
    draw number [i * numBits + b], and no bit from [numBits] on is set: the
    numbers are the coin flips, read [numBits] at a time, least significant
    bit first. *)
Lemma simulateQuantumCircuit_bits coin (numBits numSamples : Z) (i : nat) :
  1 <= numBits <= 31 -> (i < Z.to_nat numSamples)%nat ->
  exists n,
    QuantumRNG.simulateQuantumCircuit coin (NInt numBits) (NInt numSamples) !! i = Some n
    /\ forall b, 0 <= b ->
         Z.testbit n b
         = if b <? numBits then coin (i * Z.to_nat numBits + Z.to_nat b)%nat else false.
Proof.
  intros Hb Hi. unfold QuantumRNG.simulateQuantumCircuit. cbn [QuantumRNG.iterations].
  rewrite sample_loop_lookup by lia. eexists. split; [done|]. intros b Hb0.
  pose proof (measure_bits_spec coin (Z.to_nat numBits) 0 0 (0 + i * Z.to_nat numBits)
                ltac:(lia) ltac:(lia) ltac:(simpl; lia)) as [_ H].
  rewrite H by done. rewrite Z2Nat.id by lia.
  destruct (Z.ltb_spec b 0); [lia|]. rewrite Z.add_0_l, Z.sub_0_r.
  destruct (Z.ltb_spec b numBits); [|done]. f_equal.
Qed.

(** That fact at four bits, the second of three numbers, with every third
    draw setting its bit. *)
Lemma simulateQuantumCircuit_bits_witness :
  let coin := fun k : nat => Nat.eqb (k mod 3) 0 in
  1 <= 4 <= 31 /\ (1 < Z.to_nat 3)%nat
  /\ exists n,
       QuantumRNG.simulateQuantumCircuit coin (NInt 4) (NInt 3) !! 1%nat = Some n
       /\ forall b, 0 <= b ->
            Z.testbit n b
            = if b <? 4 then coin (1 * Z.to_nat 4 + Z.to_nat b)%nat else false.
Proof.
  intros coin.
  assert (H1 : 1 <= 4 <= 31) by lia.
  assert (H2 : (1 < Z.to_nat 3)%nat) by (simpl; lia).
  split; [exact H1|]. split; [exact H2|].
  exact (simulateQuantumCircuit_bits coin 4 3 1 H1 H2).
Defined.

End CircuitBits.

(* ===================================================================== *)
(** ** What the click handlers post *)
(* ===================================================================== *)

Section PostedRequests.
Import Js.

Lemma in_range_int (lo hi : Z) (n : Num) :
  isNaN n || ltb n (NInt lo) || gtb n (NInt hi) = false ->
  exists z, n = NInt z /\ lo <= z <= hi.
Proof.
  destruct n as [z| |[|]]; try done. unfold gtb, ltb. cbn [isNaN orb]. intros H.
  exists z. split; [done|].
  destruct (Z.ltb_spec z lo), (Z.ltb_spec hi z); try done; lia.
Qed.

Lemma clamped_bits_int (b : Num) :
  isNaN b = false ->
  gtb (if ltb b (NInt 1) then NInt 1 else b) (NInt 16) = false ->
  exists z, (if ltb b (NInt 1) then NInt 1 else b) = NInt z /\ 1 <= z <= 16.
Proof.
  intros Hn Hg. destruct (ltb b (NInt 1)) eqn:Hl.
  - exists 1. split; [done|lia].
  - apply (in_range_int 1 16). by rewrite Hn, Hl, Hg.
Qed.

Lemma FrontendApp_validate_inr p b s :
  FrontendApp.validate p = inr (b, s) ->
  exists zb zs, b = NInt zb /\ s = NInt zs /\ 1 <= zb <= 16 /\ 1 <= zs <= 5000.
Proof.
  unfold FrontendApp.validate.
  destruct (FrontendApp.no_token p && negb (FrontendApp.isGuestMode p)); [done|].
  destruct (isNaN (FrontendApp.read_num_bits p) || _ || _) eqn:Hb; [done|].
  destruct (isNaN (FrontendApp.read_num_samples p) || _ || _) eqn:Hs; [done|].
  intros [= <- <-].
  destruct (in_range_int _ _ _ Hb) as (zb & -> & ?).
  destruct (in_range_int _ _ _ Hs) as (zs & -> & ?). eauto 10.
Qed.

Lemma AssetsApp_validate_inr p b s :
  AssetsApp.validate p = inr (b, s) ->
  exists zb zs, b = NInt zb /\ s = NInt zs /\ 1 <= zb <= 16 /\ 1 <= zs <= 5000.
Proof.
  unfold AssetsApp.validate, AssetsApp.MAX_BITS, AssetsApp.MAX_SAMPLES.
  destruct (AssetsApp.dom p !! "numBits") as [vb|]; [|done].
  destruct (AssetsApp.dom p !! "numSamples") as [vs|]; [|done].
  destruct (isNaN (parseInt vb _)) eqn:Hnb; [done|].
  destruct (isNaN (parseInt vs _)) eqn:Hns; [done|]. cbn [orb].
  destruct (gtb _ (NInt 16)) eqn:Hg; [done|].
  destruct (ltb (parseInt vs _) _ || _) eqn:Hs; [done|].
  intros [= <- <-].
  destruct (clamped_bits_int _ Hnb Hg) as (zb & -> & ?).
  destruct (in_range_int 1 5000 (parseInt vs (Some 10))) as (zs & -> & ?);
    [by rewrite Hns|]. eauto 10.
Qed.

Lemma V2Sync_validate_inr p b s :
  V2Sync.validate p = inr (b, s) ->
  exists zb zs, b = NInt zb /\ s = NInt zs /\ 1 <= zb <= 16 /\ 1 <= zs <= 5000.
Proof.
  unfold V2Sync.validate, V2Sync.MAX_BITS, V2Sync.MAX_SAMPLES.
  destruct (V2Sync.dom p !! "numBits") as [vb|]; [|done].
  destruct (V2Sync.dom p !! "numSamples") as [vs|]; [|done].
  destruct (isNaN (parseInt vb _)) eqn:Hnb; [done|].
  destruct (isNaN (parseInt vs _)) eqn:Hns; [done|]. cbn [orb].
  destruct (gtb _ (NInt 16)) eqn:Hg; [done|].
  destruct (ltb (parseInt vs _) _ || _) eqn:Hs; [done|].
  intros [= <- <-].
  destruct (clamped_bits_int _ Hnb Hg) as (zb & -> & ?).
  destruct (in_range_int 1 5000 (parseInt vs (Some 10))) as (zs & -> & ?);
    [by rewrite Hns|]. eauto 10.
Qed.

(** One click on Generate posts at most one request, and a request that is
    posted asks for 1 to 16 bits and 1 to 5000 samples, both integers:
    whatever the input fields hold and whatever the backend answers.  In
    src/frontend/app.js the request also carries the format chosen (decimal
    when none is). *)
Lemma posted_request_in_range :
  (forall render backend p,
      let after := FrontendApp.onGenerate render backend p in
      FrontendApp.requests after = FrontendApp.requests p
      \/ exists b s, 1 <= b <= 16 /\ 1 <= s <= 5000
           /\ FrontendApp.requests after
              = FrontendApp.requests p
                ++ [VObj {[ "num_bits" := VNum (NInt b); "num_samples" := VNum (NInt s);
                            "format" := VStr (FrontendApp.read_format p) ]}])
  /\ (forall backend p,
      let after := AssetsApp.onGenerate backend p in
      AssetsApp.requests after = AssetsApp.requests p
      \/ exists b s, 1 <= b <= 16 /\ 1 <= s <= 5000
           /\ AssetsApp.requests after
              = AssetsApp.requests p
                ++ [VObj {[ "num_bits" := VNum (NInt b); "num_samples" := VNum (NInt s) ]}])
  /\ (forall backend p,
      let after := V2Sync.onGenerate backend p in
      V2Sync.requests after = V2Sync.requests p
      \/ exists b s, 1 <= b <= 16 /\ 1 <= s <= 5000
           /\ V2Sync.requests after
              = V2Sync.requests p
                ++ [VObj {[ "num_bits" := VNum (NInt b); "num_samples" := VNum (NInt s) ]}]).
Proof.
  split; [|split].
  - intros render backend p after. subst after. rewrite FrontendApp_onGenerate_requests.
    destruct (FrontendApp.validate p) as [msg|[b s]] eqn:E; [by left|right].
    destruct (FrontendApp_validate_inr p b s E) as (zb & zs & -> & -> & ? & ?).
    exists zb, zs. done.
  - intros backend p after. subst after. rewrite AssetsApp_onGenerate_requests.
    destruct (AssetsApp.validate p) as [msg|[b s]] eqn:E; [by left|right].
    destruct (AssetsApp_validate_inr p b s E) as (zb & zs & -> & -> & ? & ?).
    exists zb, zs. unfold AssetsApp.request_body. by rewrite !parse_bits.
  - intros backend p after. subst after. rewrite V2Sync_onGenerate_requests.
    destruct (V2Sync.validate p) as [msg|[b s]] eqn:E; [by left|right].
    destruct (V2Sync_validate_inr p b s E) as (zb & zs & -> & -> & ? & ?).
    exists zb, zs. unfold V2Sync.request_body. by rewrite !parse_bits.
Qed.

End PostedRequests.

(* ===================================================================== *)
(** ** Decimal numbers of one width *)
(* ===================================================================== *)

Section FixedWidth.
Import Js.

Lemma digits_length_mono radix n m :
  2 <= radix -> 0 <= n <= m ->
  (length (digits radix n) <= length (digits radix m))%nat.
Proof.
  intros Hr Hn.
  pose proof (digits_value radix m Hr ltac:(lia)) as Hv.
  pose proof (value_lsb_bound radix (rev (digits radix m)) ltac:(lia)) as Hb.
  rewrite <- value_msb_rev, rev_involutive, Hv, length_rev in Hb.
  specialize (Hb ltac:(apply Forall_rev, digits_range; lia)).
  pose proof (digits_nonempty radix m) as Hne.
  assert (1 <= length (digits radix m))%nat
    by (destruct (digits radix m); [done|simpl; lia]).
  apply (digits_length radix n (length (digits radix m))); [lia|lia|lia].
Qed.

Lemma String_of_nonneg_length n :
  0 <= n -> String.length (String_of (NInt n)) = length (digits 10 n).
Proof.
  intros Hn. unfold String_of. rewrite Number_toString_nonneg by done.
  rewrite length_string_of_list_ascii. unfold digit_string. by rewrite length_map.
Qed.

Lemma formatNumber_padded n bits :
  0 <= n ->
  V2Sync.formatNumber (NInt n) bits
  = padStart (string_of_list_ascii (map (fun c => c) (digit_string 10 n)))
             (Z.of_nat (String.length (String_of (NInt (2 ^ bits - 1))))) "0".
Proof.
  intros Hn. unfold V2Sync.formatNumber. cbv zeta. unfold String_of at 1.
  by rewrite Number_toString_nonneg, map_id_digit_string.
Qed.

(** [formatNumber(number, numBits)] of part_001 and of
    src/frontend/assets/app.js, for a width of 0 to 53 bits and the
    integers a double holds exactly: every value from 0 to [2^numBits - 1]
    comes out exactly as wide as the largest one and reads back in base 10;
    a larger value comes out as its plain decimal string, at least as wide
    as the others. *)
Lemma formatNumber_fixed_width (bits n : Z) :
  0 <= bits <= 53 -> 0 <= n < 2 ^ 53 ->
  let width := String.length (String_of (NInt (2 ^ bits - 1))) in
  AssetsApp.formatNumber (NInt n) bits = V2Sync.formatNumber (NInt n) bits
  /\ (n <= 2 ^ bits - 1 ->
      String.length (V2Sync.formatNumber (NInt n) bits) = width
      /\ parseInt (V2Sync.formatNumber (NInt n) bits) (Some 10) = NInt n)
  /\ (2 ^ bits - 1 < n ->
      V2Sync.formatNumber (NInt n) bits = String_of (NInt n)
      /\ (width <= String.length (String_of (NInt n)))%nat).
Proof.
  intros Hb [Hn _] width.
  assert (Hmax : 0 <= 2 ^ bits - 1) by (pose proof (Z.pow_pos_nonneg 2 bits); lia).
  assert (Hw : width = length (digits 10 (2 ^ bits - 1)))
    by (subst width; by apply String_of_nonneg_length).
  split; [done|]. split.
  - intros Hle. rewrite formatNumber_padded by done. fold width. split.
    + rewrite padded_digits_length, Nat2Z.id, Hw.
      pose proof (digits_length_mono 10 n (2 ^ bits - 1) ltac:(lia) ltac:(lia)). lia.
    + apply padded_digits_parse; [lia| |lia].
      intros d Hd. apply plain_digit_char; lia.
  - intros Hgt.
    pose proof (digits_length_mono 10 (2 ^ bits - 1) n ltac:(lia) ltac:(lia)) as Hm.
    split.
    + rewrite formatNumber_padded by done. fold width.
      rewrite padStart_chars, map_id_digit_string.
      unfold digit_string at 1. rewrite length_map.
      replace (Z.to_nat (Z.of_nat width - Z.of_nat (length (digits 10 n)))) with 0%nat by lia.
      cbn [replicate app]. unfold String_of. by rewrite Number_toString_nonneg.
    + rewrite String_of_nonneg_length by done. lia.
Qed.

(** That fact at 16 bits, where the width is 5, and the value 42. *)
Lemma formatNumber_fixed_width_witness :
  0 <= 16 <= 53 /\ 0 <= 42 < 2 ^ 53 /\ 42 <= 2 ^ 16 - 1
  /\ String.length (V2Sync.formatNumber (NInt 42) 16)
     = String.length (String_of (NInt (2 ^ 16 - 1)))
  /\ V2Sync.formatNumber (NInt 42) 16 = "00042".
Proof.
  assert (H1 : 0 <= 16 <= 53) by lia.
  assert (H2 : 0 <= 42 < 2 ^ 53) by (simpl; lia).
  assert (H3 : 42 <= 2 ^ 16 - 1) by (simpl; lia).
  split; [exact H1|]. split; [exact H2|]. split; [exact H3|]. split.
  - exact (proj1 (proj1 (proj2 (formatNumber_fixed_width 16 42 H1 H2)) H3)).
  - reflexivity.
Defined.

End FixedWidth.

(* ===================================================================== *)
(** ** Which bar a value is drawn in *)
(* ===================================================================== *)

Section BucketOrder.
Import Js.

Lemma bits_cases (bits : Z) :
  13 <= bits <= 16 ->
  2 ^ bits - 1 = 8191 \/ 2 ^ bits - 1 = 16383 \/ 2 ^ bits - 1 = 32767 \/ 2 ^ bits - 1 = 65535.
Proof.
  intros H. assert (bits = 13 \/ bits = 14 \/ bits = 15 \/ bits = 16) as [->|[->|[->| ->]]]
    by lia; simpl; lia.
Qed.

Lemma AssetsApp_bucket_of_value (bits z : Z) :
  13 <= bits <= 16 -> 0 <= z <= 2 ^ bits - 1 ->
  AssetsApp.clampIndex (AssetsApp.bucketIndex (2 ^ bits - 1) (NInt z))
  = NInt (z * 255 / (2 ^ bits - 1)).
Proof. intros Hb Hz. exact (proj1 (bucket_of_value bits z Hb Hz)). Qed.

(** In the 256-bar branch of [renderDistributionGraph] (13 to 16 bits), for
    values in range: a larger value is never drawn in an earlier bar; the
    last bar, number 255, counts the maximum value and nothing else; and
    with 16 bits a value [z] is drawn in bar [z / 257].  The same in
    part_001 and in src/frontend/assets/app.js. *)
Lemma bucket_order (bits z z' : Z) :
  13 <= bits <= 16 -> 0 <= z <= z' -> z' <= 2 ^ bits - 1 ->
  let maxValue := 2 ^ bits - 1 in
  exists k k',
    V2Sync.clampIndex (V2Sync.bucketIndex maxValue (NInt z)) = NInt k
    /\ V2Sync.clampIndex (V2Sync.bucketIndex maxValue (NInt z')) = NInt k'
    /\ AssetsApp.clampIndex (AssetsApp.bucketIndex maxValue (NInt z)) = NInt k
    /\ AssetsApp.clampIndex (AssetsApp.bucketIndex maxValue (NInt z')) = NInt k'
    /\ 0 <= k <= k' /\ k' <= 255
    /\ (k = 255 <-> z = maxValue)
    /\ (bits = 16 -> k = z / 257).
Proof.
  intros Hb Hz Hz' maxValue. subst maxValue.
  pose proof (pow2_bounds bits ltac:(lia)) as Hp.
  exists (z * 255 / (2 ^ bits - 1)), (z' * 255 / (2 ^ bits - 1)).
  pose proof (bucket_of_value bits z Hb ltac:(lia)) as [E1 R1].
  pose proof (bucket_of_value bits z' Hb ltac:(lia)) as [E2 R2].
  split; [exact E1|]. split; [exact E2|].
  split; [by apply AssetsApp_bucket_of_value; lia|].
  split; [by apply AssetsApp_bucket_of_value; lia|].
  split; [split; [lia|apply Z.div_le_mono; lia]|]. split; [lia|]. split.
  - split.
    + intros Hk.
      destruct (Z.eq_dec z (2 ^ bits - 1)) as [|Hne]; [done|].
      assert (z * 255 / (2 ^ bits - 1) < 255); [|lia].
      apply Z.div_lt_upper_bound; lia.
    + intros ->. rewrite Z.mul_comm. apply Z.div_mul. lia.
  - intros ->. change (2 ^ 16 - 1) with (255 * 257).
    rewrite (Z.mul_comm z 255), Z.div_mul_cancel_l; lia.
Qed.

(** That fact at 13 bits and the values 8190 and 8191. *)
Lemma bucket_order_witness :
  13 <= 13 <= 16 /\ 0 <= 8190 <= 8191 /\ 8191 <= 2 ^ 13 - 1
  /\ exists k k',
       V2Sync.clampIndex (V2Sync.bucketIndex (2 ^ 13 - 1) (NInt 8190)) = NInt k
       /\ V2Sync.clampIndex (V2Sync.bucketIndex (2 ^ 13 - 1) (NInt 8191)) = NInt k'
       /\ AssetsApp.clampIndex (AssetsApp.bucketIndex (2 ^ 13 - 1) (NInt 8190)) = NInt k
       /\ AssetsApp.clampIndex (AssetsApp.bucketIndex (2 ^ 13 - 1) (NInt 8191)) = NInt k'
       /\ 0 <= k <= k' /\ k' <= 255
       /\ (k = 255 <-> 8190 = 2 ^ 13 - 1)
       /\ (13 = 16 -> k = 8190 / 257).
Proof.
  assert (H1 : 13 <= 13 <= 16) by lia.
  assert (H2 : 0 <= 8190 <= 8191) by lia.
  assert (H3 : 8191 <= 2 ^ 13 - 1) by (simpl; lia).
  split; [exact H1|]. split; [exact H2|]. split; [exact H3|].
  exact (bucket_order 13 8190 8191 H1 H2 H3).
Defined.

(** The bars of the 256-bar branch are labelled with the ranges
    [round(i / 256 * maxValue)]–[round((i + 1) / 256 * maxValue)], while a
    value is drawn in bar [floor(value / maxValue * 255)].  The two do not
    agree: every value above the end of the label of bar 254 and below the
    maximum is drawn in bar 254, outside the range its label names and
    inside the range that the label of bar 255 names. *)
Lemma bucket_label_mismatch (bits z : Z) :
  13 <= bits <= 16 ->
  let maxValue := 2 ^ bits - 1 in
  let upper254 := round_div (255 * maxValue) 256 in
  upper254 < z < maxValue ->
  V2Sync.range_label maxValue 254
    = String_of (NInt (round_div (254 * maxValue) 256)) +:+ "–" +:+ String_of (NInt upper254)
  /\ V2Sync.range_label maxValue 255
    = String_of (NInt upper254) +:+ "–" +:+ String_of (NInt maxValue)
  /\ AssetsApp.range_label maxValue 254 = V2Sync.range_label maxValue 254
  /\ V2Sync.clampIndex (V2Sync.bucketIndex maxValue (NInt z)) = NInt 254
  /\ AssetsApp.clampIndex (AssetsApp.bucketIndex maxValue (NInt z)) = NInt 254.
Proof.
  intros Hb maxValue upper254 Hz. subst upper254 maxValue.
  pose proof (pow2_bounds bits ltac:(lia)) as Hp.
  assert (Hu : 0 <= round_div (255 * (2 ^ bits - 1)) 256
               /\ 254 * (2 ^ bits - 1) <= 255 * (round_div (255 * (2 ^ bits - 1)) 256 + 1)
               /\ round_div (256 * (2 ^ bits - 1)) 256 = 2 ^ bits - 1).
  { destruct (bits_cases bits Hb) as [->|[->|[->| ->]]]; vm_compute; repeat split; congruence. }
  destruct Hu as (Hu0 & Hu1 & Hu2).
  assert (Hq : z * 255 / (2 ^ bits - 1) = 254).
  { symmetry. apply Z.div_unique with (r := z * 255 - 254 * (2 ^ bits - 1)); lia. }
  split; [reflexivity|]. split.
  - unfold V2Sync.range_label. cbv zeta.
    change (Z.of_nat 255 + 1) with 256. change (Z.of_nat 255) with 255. by rewrite Hu2.
  - split; [reflexivity|]. split.
    + rewrite (proj1 (bucket_of_value bits z Hb ltac:(lia))). by rewrite Hq.
    + rewrite AssetsApp_bucket_of_value by lia. by rewrite Hq.
Qed.

(** That fact at 16 bits and the value 65500: bar 254 is labelled
    65023–65279 and bar 255 is labelled 65279–65535. *)
Lemma bucket_label_mismatch_witness :
  13 <= 16 <= 16
  /\ round_div (255 * (2 ^ 16 - 1)) 256 < 65500 < 2 ^ 16 - 1
  /\ V2Sync.range_label (2 ^ 16 - 1) 254 = "65023–65279"
  /\ V2Sync.range_label (2 ^ 16 - 1) 255 = "65279–65535"
  /\ V2Sync.clampIndex (V2Sync.bucketIndex (2 ^ 16 - 1) (NInt 65500)) = NInt 254.
Proof.
  assert (H1 : 13 <= 16 <= 16) by lia.
  assert (H2 : round_div (255 * (2 ^ 16 - 1)) 256 < 65500 < 2 ^ 16 - 1)
    by (vm_compute; split; reflexivity).
  split; [exact H1|]. split; [exact H2|].
  destruct (bucket_label_mismatch 16 65500 H1 H2) as (E1 & E2 & _ & E4 & _).
  split; [|split]; [rewrite E1|rewrite E2|exact E4]; reflexivity.
Defined.

End BucketOrder.

(* ===================================================================== *)
(** ** The guarded histogram of part_002 *)
(* ===================================================================== *)

Section GuardedHistogram.
Import Js Histo.





End GuardedHistogram.

(* ===================================================================== *)
(** ** The samples field of src/frontend/assets/app.js *)
(* ===================================================================== *)

Section SamplesInput.
Import Js.

Lemma samples_after_input (v : string) :
  let value := parseInt v (Some 10) in
  let v1 := if isNaN value || ltb value (NInt 1) then String_of (NInt 1) else v in
  let v2 := if gtb value (NInt AssetsApp.MAX_SAMPLES)
            then String_of (NInt AssetsApp.MAX_SAMPLES) else v1 in
  (exists s, parseInt v2 (Some 10) = NInt s /\ 1 <= s <= 5000)
  /\ (v2 = v <-> exists s, value = NInt s /\ 1 <= s <= 5000).
Proof.
  intros value v1 v2. subst v1 v2. unfold AssetsApp.MAX_SAMPLES.
  destruct value as [z| |[|]] eqn:Ev; unfold gtb, ltb; cbn [isNaN orb].
  - destruct (Z.ltb_spec z 1), (Z.ltb_spec 5000 z); try lia.
    + split; [exists 1; split; [reflexivity|lia]|].
      split; [|intros (s & [= <-] & ?); lia].
      intros E. subst value. rewrite <- E in Ev. vm_compute in Ev. injection Ev as <-. lia.
    + split; [exists 5000; split; [reflexivity|lia]|].
      split; [|intros (s & [= <-] & ?); lia].
      intros E. subst value. rewrite <- E in Ev. vm_compute in Ev. injection Ev as <-. lia.
    + split; [exists z; split; [exact Ev|lia]|].
      split; [intros _; exists z; split; [done|lia]|done].
  - split; [exists 1; split; [reflexivity|lia]|].
    split; [|by intros (s & ? & _)].
    intros E. subst value. rewrite <- E in Ev. vm_compute in Ev. done.
  - split; [exists 1; split; [reflexivity|lia]|].
    split; [|by intros (s & ? & _)].
    intros E. subst value. rewrite <- E in Ev. vm_compute in Ev. done.
  - split; [exists 5000; split; [reflexivity|lia]|].
    split; [|by intros (s & ? & _)].
    intros E. subst value. rewrite <- E in Ev. vm_compute in Ev. done.
Qed.

(** The [input] handler of the samples field of src/frontend/assets/app.js
    leaves a field that [parseInt] reads as an integer from 1 to 5000,
    whatever was typed; it leaves the text alone exactly when the text
    already read so, and it touches nothing besides that field.  After it
    the click handler of Generate never answers with the message about the
    quantity. *)
Lemma samples_input_clamped (p : AssetsApp.Page) (v : string) :
  AssetsApp.dom p !! "numSamples" = Some v ->
  let q := AssetsApp.onSamplesInput p in
  (exists v' s,
      AssetsApp.dom q !! "numSamples" = Some v'
      /\ parseInt v' (Some 10) = NInt s /\ 1 <= s <= 5000
      /\ (v' = v <-> exists s0, parseInt v (Some 10) = NInt s0 /\ 1 <= s0 <= 5000))
  /\ (forall id, id <> "numSamples" -> AssetsApp.dom q !! id = AssetsApp.dom p !! id)
  /\ AssetsApp.lastResponse q = AssetsApp.lastResponse p
  /\ AssetsApp.distributionChart q = AssetsApp.distributionChart p
  /\ AssetsApp.errors q = AssetsApp.errors p
  /\ AssetsApp.requests q = AssetsApp.requests p
  /\ AssetsApp.validate q <> inl "Quantity must be between 1 and 5000".
Proof.
  intros Hv q. subst q. unfold AssetsApp.onSamplesInput. rewrite Hv.
  destruct (samples_after_input v) as [(s & Hs & Hr) Hsame].
  cbv zeta in Hs, Hsame. cbv zeta.
  set (v2 := if gtb _ _ then _ else _) in *.
  split; [|split; [|repeat split]].
  - exists v2, s. cbn [AssetsApp.dom AssetsApp.set_dom]. rewrite lookup_insert_eq. done.
  - intros id Hid. cbn [AssetsApp.dom AssetsApp.set_dom]. by rewrite lookup_insert_ne.
  - unfold AssetsApp.validate. cbn [AssetsApp.dom AssetsApp.set_dom].
    rewrite lookup_insert_eq, lookup_insert_ne by done.
    destruct (AssetsApp.dom p !! "numBits") as [vb|]; [|done].
    rewrite Hs. cbn [isNaN]. rewrite orb_false_r.
    destruct (isNaN (parseInt vb (Some 10))); [done|].
    destruct (gtb _ (NInt AssetsApp.MAX_BITS)); [done|].
    unfold AssetsApp.MAX_SAMPLES, gtb. cbn [ltb].
    destruct (Z.ltb_spec s 1), (Z.ltb_spec 5000 s); try lia. done.
Qed.

(** That fact for a field that holds [99999]: it is left holding [5000]. *)
Lemma samples_input_clamped_witness :
  let p := AssetsApp.mkPage {[ "numBits" := "8"; "numSamples" := "99999" ]} VNull None [] [] in
  AssetsApp.dom p !! "numSamples" = Some "99999"
  /\ AssetsApp.dom (AssetsApp.onSamplesInput p) !! "numSamples" = Some "5000"
  /\ AssetsApp.validate (AssetsApp.onSamplesInput p)
     <> inl "Quantity must be between 1 and 5000".
Proof.
  intros p. assert (H : AssetsApp.dom p !! "numSamples" = Some "99999") by reflexivity.
  split; [exact H|]. split; [reflexivity|].
  exact (proj2 (proj2 (proj2 (proj2 (proj2 (proj2 (samples_input_clamped p "99999" H))))))).
Defined.

End SamplesInput.

(* ===================================================================== *)
(** ** The errors of [apiGet] in src/frontend/app.js *)
(* ===================================================================== *)

Section ApiErrors.
Import Js.
Variable JSON_parse : string -> JsError + Val.

Local Abbreviation apiGet := (FrontendApp.apiGet JSON_parse).
Local Abbreviation parse_response := (FrontendApp.parse_response JSON_parse).

Lemma new_Error_kept msg :
  FrontendApp.connection_error (new_Error msg) = new_Error msg.
Proof. reflexivity. Qed.

Lemma parse_response_ok status txt :
  parse_response true status txt = JSON_parse txt.
Proof.
  unfold FrontendApp.parse_response. cbn [negb]. by destruct (JSON_parse txt).
Qed.

Lemma parse_response_not_ok status txt :
  exists msg, parse_response false status txt = inl (new_Error msg)
    /\ (txt <> "" -> msg = txt)
    /\ (forall e, txt = "" -> JSON_parse "" = inl e -> msg = err_message e).
Proof.
  unfold FrontendApp.parse_response. cbn [negb].
  destruct (String.eqb_spec txt "") as [->|Hne].
  - destruct (JSON_parse "") as [e|json] eqn:E.
    + eexists. split; [done|]. split; [done|]. by intros e' _ [= <-].
    + destruct (getProp json "message"), (getProp json "error");
        (eexists; split; [done|]; split; [done|]; by intros).
  - destruct (JSON_parse txt) as [e|json].
    + exists txt. done.
    + destruct (getProp json "message"), (getProp json "error"); by exists txt.
Qed.

(** [apiGet] returns a value exactly when the response is ok and its text
    parses as JSON, and the value is the parsed text.  A response that is
    not ok with a text that is not empty throws an [Error] whose message is
    that text as received, also when the text is JSON with a [message] or an
    [error] field.  A rejected [fetch] whose error is a [TypeError] that
    mentions [fetch] throws "Cannot connect to server. Is the backend
    running?"; an [Error] created by [new Error] is thrown on as it is. *)
Lemma apiGet_errors :
  (forall r v,
      apiGet r = inr v
      <-> exists status txt,
            r = FetchResponse true status (inr txt) /\ JSON_parse txt = inr v)
  /\ (forall status txt,
      txt <> "" ->
      apiGet (FetchResponse false status (inr txt))
      = inl (new_Error txt))
  /\ (forall status e,
      JSON_parse "" = inl e ->
      apiGet (FetchResponse false status (inr ""))
      = inl (new_Error (err_message e)))
  /\ (forall msg,
      includes msg "fetch" = true ->
      apiGet (FetchRejected (mkError "TypeError" msg))
      = inl (new_Error "Cannot connect to server. Is the backend running?"))
  /\ (forall name msg,
      name <> "TypeError" ->
      apiGet (FetchRejected (mkError name msg))
      = inl (mkError name msg)).
Proof.
  split; [|split; [|split; [|split]]].
  - intros r v. split.
    + destruct r as [e|ok status [e|txt]]; cbn [FrontendApp.apiGet]; try done.
      destruct ok.
      * rewrite parse_response_ok. destruct (JSON_parse txt) as [e|json] eqn:E; [done|].
        intros [= <-]. eauto.
      * destruct (parse_response_not_ok status txt) as (msg & -> & _). done.
    + intros (status & txt & -> & Hp). cbn [FrontendApp.apiGet].
      by rewrite parse_response_ok, Hp.
  - intros status txt Hne. cbn [FrontendApp.apiGet].
    destruct (parse_response_not_ok status txt) as (msg & -> & Hm & _).
    by rewrite new_Error_kept, (Hm Hne).
  - intros status e He. cbn [FrontendApp.apiGet].
    destruct (parse_response_not_ok status "") as (msg & -> & _ & Hm).
    by rewrite new_Error_kept, (Hm e eq_refl He).
  - intros msg Hi. cbn [FrontendApp.apiGet]. unfold FrontendApp.connection_error.
    cbn [err_name err_message]. by rewrite Hi.
  - intros name msg Hn. cbn [FrontendApp.apiGet]. unfold FrontendApp.connection_error.
    cbn [err_name]. by destruct (String.eqb_spec name "TypeError").
Qed.

End ApiErrors.

Section ApiErrorsWitness.
Import Js.

(** That fact for a parser that knows one text, a status of 500 and the
    text [oops]; and for the rejection "Failed to fetch". *)
Lemma apiGet_errors_witness :
  let JSON_parse := fun txt : string =>
    if String.eqb txt "[]" then inr (VArr [])
    else inl (mkError "SyntaxError" "Unexpected token") in
  "oops" <> ""
  /\ FrontendApp.apiGet JSON_parse (FetchResponse false 500 (inr "oops"))
     = inl (new_Error "oops")
  /\ includes "Failed to fetch" "fetch" = true
  /\ FrontendApp.apiGet JSON_parse
       (FetchRejected (mkError "TypeError" "Failed to fetch"))
     = inl (new_Error "Cannot connect to server. Is the backend running?").
Proof.
  intros JSON_parse.
  assert (H1 : "oops" <> "") by discriminate.
  assert (H2 : includes "Failed to fetch" "fetch" = true) by reflexivity.
  split; [exact H1|]. split.
  - exact (proj1 (proj2 (apiGet_errors JSON_parse)) 500 "oops" H1).
  - split; [exact H2|].
    exact (proj1 (proj2 (proj2 (proj2 (apiGet_errors JSON_parse)))) "Failed to fetch" H2).
Defined.

End ApiErrorsWitness.

(* ===================================================================== *)
(** ** The token and the page flow of src/frontend/app.js *)
(* ===================================================================== *)

Section AuthToken.
Import Js.

(** [setAuthToken] and [getAuthToken] on local storage.  A token that is
    truthy is stored as its string and read back; any other value removes
    the token.  No other key of the storage is touched.  After a string
    that is not empty has been set, [getAuthHeaders] gives the one header
    [Authorization: Bearer] and the token, and the page-load handler sends
    the browser nowhere, whatever the page and the rest of the storage. *)
Lemma auth_token_round_trip (st : FrontendApp.Storage) :
  (forall t, truthy t = true ->
      FrontendApp.getAuthToken (FrontendApp.setAuthToken t st) = Some (String_val t))
  /\ (forall t, truthy t = false ->
      FrontendApp.getAuthToken (FrontendApp.setAuthToken t st) = None
      /\ FrontendApp.getAuthHeaders (FrontendApp.setAuthToken t st) = ∅)
  /\ (forall t key, key <> FrontendApp.TOKEN_KEY ->
      FrontendApp.setAuthToken t st !! key = st !! key)
  /\ (forall tok pathname guest, tok <> "" ->
      FrontendApp.getAuthHeaders (FrontendApp.setAuthToken (VStr tok) st)
      = {[ "Authorization" := "Bearer " +:+ tok ]}
      /\ FrontendApp.onLoad pathname (FrontendApp.setAuthToken (VStr tok) st) guest
         = (None, if bool_decide (st !! "qrng_guest_mode" = Some "true")
                  then (if endsWith pathname "index.html" || endsWith pathname "/"
                        then true else guest)
                  else guest)).
Proof.
  split; [|split; [|split]].
  - intros t Ht. unfold FrontendApp.getAuthToken, FrontendApp.setAuthToken.
    rewrite Ht. apply lookup_insert_eq.
  - intros t Ht. unfold FrontendApp.getAuthHeaders, FrontendApp.getAuthToken,
      FrontendApp.setAuthToken.
    rewrite Ht. cbv iota. by rewrite lookup_delete_eq.
  - intros t key Hk. unfold FrontendApp.setAuthToken.
    destruct (truthy t); [by rewrite lookup_insert_ne|by rewrite lookup_delete_ne].
  - intros tok pathname guest Hne.
    assert (Ht : truthy (VStr tok) = true)
      by (cbn [truthy]; by destruct (String.eqb_spec tok "")).
    unfold FrontendApp.getAuthHeaders, FrontendApp.onLoad, FrontendApp.getAuthToken,
      FrontendApp.setAuthToken.
    rewrite Ht. cbv iota. rewrite lookup_insert_eq, lookup_insert_ne by done. cbn [String_val].
    destruct (String.eqb_spec tok "") as [|_]; [done|]. split; [done|].
    cbn [andb].
    destruct (endsWith pathname "index.html" || endsWith pathname "/");
      by destruct (bool_decide _).
Qed.

(** That fact for the token [abc] and an empty storage. *)
Lemma auth_token_round_trip_witness :
  truthy (VStr "abc") = true
  /\ FrontendApp.getAuthToken (FrontendApp.setAuthToken (VStr "abc") ∅) = Some "abc"
  /\ truthy VNull = false
  /\ FrontendApp.getAuthToken
       (FrontendApp.setAuthToken VNull (FrontendApp.setAuthToken (VStr "abc") ∅)) = None.
Proof.
  assert (H1 : truthy (VStr "abc") = true) by reflexivity.
  assert (H2 : truthy VNull = false) by reflexivity.
  split; [exact H1|]. split.
  - exact (proj1 (auth_token_round_trip ∅) (VStr "abc") H1).
  - split; [exact H2|].
    exact (proj1 (proj1 (proj2 (auth_token_round_trip
                                  (FrontendApp.setAuthToken (VStr "abc") ∅))) VNull H2)).
Defined.

(** The page-load handler sends the browser to [intro.html] exactly when
    the page is the index page, there is no token (or an empty one) and the
    guest flag of the storage is not the string [true].  When it sends the
    browser nowhere from the index page, the click handler of Generate, run
    with the token of that storage and the guest mode the handler left,
    does not answer with the request to log in. *)
Lemma page_flow (pathname : string) (st : FrontendApp.Storage) (p : FrontendApp.Page) :
  let index_page := endsWith pathname "index.html" || endsWith pathname "/" in
  let no_token := match FrontendApp.getAuthToken st with
                  | Some t => String.eqb t ""
                  | None => true
                  end in
  let guest := bool_decide (st !! "qrng_guest_mode" = Some "true") in
  (fst (FrontendApp.onLoad pathname st false) = Some "intro.html"
   <-> index_page && no_token && negb guest = true)
  /\ (fst (FrontendApp.onLoad pathname st false) = None
      \/ fst (FrontendApp.onLoad pathname st false) = Some "intro.html")
  /\ (index_page = true ->
      fst (FrontendApp.onLoad pathname st false) = None ->
      FrontendApp.token p = FrontendApp.getAuthToken st ->
      FrontendApp.isGuestMode p = snd (FrontendApp.onLoad pathname st false) ->
      FrontendApp.validate p <> inl "Please login or continue as guest to generate numbers").
Proof.
  intros index_page no_token guest. subst index_page no_token guest.
  unfold FrontendApp.onLoad.
  destruct (endsWith pathname "index.html" || endsWith pathname "/"); cbn [andb fst snd].
  - destruct (FrontendApp.getAuthToken st) as [t|] eqn:Et.
    + destruct (String.eqb t "") eqn:E, (bool_decide _) eqn:G; cbn [andb negb fst snd];
        (split; [split; [done|done]|]); (split; [auto|]);
        intros _ Hr Ht Hg; try discriminate Hr;
        unfold FrontendApp.validate, FrontendApp.no_token; rewrite Ht, Hg, ?E; cbn [andb negb];
        repeat match goal with |- context [if ?c then _ else _] => destruct c end; done.
    + destruct (bool_decide _) eqn:G; cbn [andb negb fst snd];
        (split; [split; [done|done]|]); (split; [auto|]);
        intros _ Hr Ht Hg; try discriminate Hr;
        unfold FrontendApp.validate, FrontendApp.no_token; rewrite Ht, Hg; cbn [andb negb];
        repeat match goal with |- context [if ?c then _ else _] => destruct c end; done.
  - split; [split; [done|done]|]. split; [auto|]. done.
Qed.

(** That fact for a guest on [/index.html]. *)
Lemma page_flow_witness :
  let st : FrontendApp.Storage := {[ "qrng_guest_mode" := "true" ]} in
  let p := FrontendApp.mkPage None true (Some "8") (Some "10") None VNull [] [] in
  endsWith "/index.html" "index.html" || endsWith "/index.html" "/" = true
  /\ fst (FrontendApp.onLoad "/index.html" st false) = None
  /\ FrontendApp.token p = FrontendApp.getAuthToken st
  /\ FrontendApp.isGuestMode p = snd (FrontendApp.onLoad "/index.html" st false)
  /\ FrontendApp.validate p <> inl "Please login or continue as guest to generate numbers".
Proof.
  intros st p.
  assert (H1 : endsWith "/index.html" "index.html" || endsWith "/index.html" "/" = true)
    by reflexivity.
  assert (H2 : fst (FrontendApp.onLoad "/index.html" st false) = None) by reflexivity.
  assert (H3 : FrontendApp.token p = FrontendApp.getAuthToken st) by reflexivity.
  assert (H4 : FrontendApp.isGuestMode p = snd (FrontendApp.onLoad "/index.html" st false))
    by reflexivity.
  split; [exact H1|]. split; [exact H2|]. split; [exact H3|]. split; [exact H4|].
  exact (proj2 (proj2 (page_flow "/index.html" st p)) H1 H2 H3 H4).
Defined.

End AuthToken.

(* ===================================================================== *)
(** ** Responses that stop a handler half way *)
(* ===================================================================== *)

Section PartialRender.
Import Js.

Ltac run_eff :=
  repeat (rewrite run_bind; cbn [lift modify throw getProp default from_option id]).




Lemma AssetsApp_updateStatistics_throws (m : gmap string Val) d old v :
  d !! "meanValue" = Some old ->
  m !! "mean" = Some v -> nullish v = false -> (forall n, v <> VNum n) ->
  AssetsApp.updateStatistics (VObj m) d = Throw "TypeError: toFixed is not a function".
Proof.
  intros Hd Hm Hn Hv. unfold AssetsApp.updateStatistics. cbn [default_param].
  rewrite Hd. cbn [getProp mbind Completion_bind]. rewrite Hm. cbn [default from_option id].
  unfold AssetsApp.toFixed2_or_0, coalesce. rewrite Hn.
  destruct v; try done. by destruct (Hv n).
Qed.

(** [updateStatistics] of src/frontend/assets/app.js calls [toFixed] on
    [stats.mean ?? 0]: when the page shows the mean and the mean sent is not
    a number (a string, say), it throws a [TypeError].  In the click handler
    this happens after the response has been stored and the table filled:
    the handler ends in its [catch] with that message, and the chart is not
    redrawn.  [updateStatistics] of part_001, which converts with [Number],
    returns for every argument. *)
Lemma AssetsApp_mean_not_a_number backend p b s (m st : gmap string Val) l v old :
  AssetsApp.validate p = inr (b, s) ->
  AssetsApp.generateRandomNumbers (backend (AssetsApp.request_body b s)) = Normal (VObj m) ->
  m !! "numbers" = Some (VArr l) ->
  m !! "statistics" = Some (VObj st) ->
  st !! "mean" = Some v -> nullish v = false -> (forall n, v <> VNum n) ->
  AssetsApp.dom p !! "meanValue" = Some old ->
  let after := AssetsApp.onGenerate backend p in
  threw (AssetsApp.updateStatistics (VObj st) (AssetsApp.dom p)) = true
  /\ (exists msg, AssetsApp.errors after = AssetsApp.errors p ++ [msg])
  /\ AssetsApp.distributionChart after = AssetsApp.distributionChart p
  /\ AssetsApp.lastResponse after = VObj m
  /\ (forall candidate d, exists d', V2Sync.updateStatistics candidate d = Normal d').
Proof.
  intros Hv Hg Hnum Hst Hmean Hn Hnot Hd after.
  split; [by erewrite AssetsApp_updateStatistics_throws|].
  assert (E : exists d1,
             after = AssetsApp.generate_failed "TypeError: toFixed is not a function"
                       (AssetsApp.set_dom d1
                          (AssetsApp.set_lastResponse (VObj m)
                             (AssetsApp.log_request (AssetsApp.request_body b s) p)))).
  { subst after. unfold AssetsApp.onGenerate. rewrite Hv.
    unfold AssetsApp.generate_body, try_catch.
    rewrite run_bind. cbn [modify]. rewrite run_bind. unfold lift at 1. rewrite Hg.
    rewrite run_bind. cbn [modify].
    unfold AssetsApp.render_response. run_eff.
    rewrite Hnum. cbn [default from_option id or_else truthy]. run_eff.
    rewrite Hst. cbn [default from_option id or_else truthy].
    set (s1 := AssetsApp.set_dom _ _).
    assert (Hd1 : exists o, AssetsApp.dom s1 !! "meanValue" = Some o).
    { subst s1. cbn [AssetsApp.dom AssetsApp.set_dom AssetsApp.set_lastResponse
                     AssetsApp.log_request].
      unfold AssetsApp.updateSourceIndicator, AssetsApp.setText.
      destruct (AssetsApp.dom p !! "sourceIndicator");
        [rewrite lookup_insert_ne by done|]; eauto. }
    destruct Hd1 as [o Hd1].
    unfold AssetsApp.on_dom at 1.
    destruct (AssetsApp.renderTable _ b (AssetsApp.dom s1)) as [d2|msg] eqn:Et.
    - assert (Hd2 : exists o2, d2 !! "meanValue" = Some o2).
      { unfold AssetsApp.renderTable in Et. cbn [default_param] in Et.
        destruct (AssetsApp.dom s1 !! "resultDisplay"); injection Et as <-;
          [rewrite lookup_insert_ne by done|]; eauto. }
      destruct Hd2 as [o2 Hd2]. run_eff.
      unfold AssetsApp.on_dom at 1. cbn [AssetsApp.dom AssetsApp.set_dom].
      change (or_else (VObj st) (VObj ∅)) with (VObj st).
      rewrite (AssetsApp_updateStatistics_throws st d2 o2 v Hd2 Hmean Hn Hnot).
      subst s1. exists d2. reflexivity.
    - unfold AssetsApp.renderTable in Et. cbn [default_param] in Et.
      by destruct (AssetsApp.dom s1 !! "resultDisplay"). }
  destruct E as (d1 & ->). cbn.
  split; [eauto|]. split; [done|]. split; [done|]. apply updateStatistics_returns.
Qed.

(** That fact for a mean sent as the string [2.5]. *)
Lemma AssetsApp_mean_not_a_number_witness :
  let st : gmap string Val := {[ "mean" := VStr "2.5" ]} in
  let m : gmap string Val :=
    {[ "numbers" := VArr [VNum (NInt 2); VNum (NInt 3)]; "statistics" := VObj st ]} in
  let backend := fun _ : Val => Reply true (Some (VObj m)) "" in
  let p := AssetsApp.mkPage {[ "numBits" := "2"; "numSamples" := "2"; "meanValue" := "-" ]}
                            VNull None [] [] in
  AssetsApp.validate p = inr (NInt 2, NInt 2)
  /\ (exists msg, AssetsApp.errors (AssetsApp.onGenerate backend p)
                  = AssetsApp.errors p ++ [msg])
  /\ AssetsApp.lastResponse (AssetsApp.onGenerate backend p) = VObj m.
Proof.
  intros st m backend p.
  assert (H1 : AssetsApp.validate p = inr (NInt 2, NInt 2)) by reflexivity.
  assert (H2 : AssetsApp.generateRandomNumbers
                 (backend (AssetsApp.request_body (NInt 2) (NInt 2))) = Normal (VObj m))
    by reflexivity.
  assert (H3 : m !! "numbers" = Some (VArr [VNum (NInt 2); VNum (NInt 3)])) by reflexivity.
  assert (H4 : m !! "statistics" = Some (VObj st)) by reflexivity.
  assert (H5 : st !! "mean" = Some (VStr "2.5")) by reflexivity.
  assert (H6 : nullish (VStr "2.5") = false) by reflexivity.
  assert (H7 : forall n, VStr "2.5" <> VNum n) by discriminate.
  assert (H8 : AssetsApp.dom p !! "meanValue" = Some "-") by reflexivity.
  pose proof (AssetsApp_mean_not_a_number backend p (NInt 2) (NInt 2) m st _ _ _
                H1 H2 H3 H4 H5 H6 H7 H8) as H.
  split; [exact H1|]. split; [exact (proj1 (proj2 H))|].
  exact (proj1 (proj2 (proj2 (proj2 H)))).
Defined.

End PartialRender.

(* ===================================================================== *)
(** ** The CSV export *)
(* ===================================================================== *)

Section CsvExport.
Import Js.

(** The binary column of a row: the digits of [z] padded to [b] places. *)
Lemma binary_column (b z : Z) :
  1 <= b -> 0 <= z < 2 ^ b ->
  String.length (padStart (Number_toString 2 (NInt z)) b "0") = Z.to_nat b
  /\ parseInt (padStart (Number_toString 2 (NInt z)) b "0") (Some 2) = NInt z.
Proof.
  intros Hb Hz. rewrite Number_toString_nonneg, <- map_id_digit_string by lia.
  assert (Hp : forall d, 0 <= d < 2 -> plain 2 (digit_char d) d)
    by (intros d Hd; apply plain_digit_char; lia).
  split.
  - apply padded_digits_width; [lia|lia|lia].
  - apply padded_digits_parse; [lia|exact Hp|lia].
Qed.

Lemma imap_zip_fmap {A B C} (g : nat -> A -> C) (h : nat -> A * B -> C) (f : A -> B)
    (l : list A) :
  (forall i x, g i x = h i (x, f x)) -> imap g l = imap h (zip l (f <$> l)).
Proof.
  revert g h. induction l as [|x l IH]; intros g h Hgh; [done|].
  csimpl. rewrite Hgh. f_equal. apply IH. intros i y. apply Hgh.
Qed.

Lemma binary_columns (b : Z) (zs : list Z) :
  1 <= b -> Forall (fun z => 0 <= z < 2 ^ b) zs ->
  Forall2 (fun z bin => String.length bin = Z.to_nat b /\ parseInt bin (Some 2) = NInt z)
          zs ((fun z => padStart (Number_toString 2 (NInt z)) b "0") <$> zs).
Proof.
  intros Hb H. induction H as [|z zs Hz _ IH]; csimpl; constructor; [|done].
  by apply binary_column.
Qed.

(** The CSV export of part_002 and of src/frontend/assets/app.js, for a
    stored response whose [numbers] are integers from 0 to [2^b - 1], [b]
    being the number of bits the export takes (1 to 53): one file named
    [qrng_numbers.csv] is handed to [download]; its lines, separated by
    line feeds, are the header and one row for each number, in order; row
    [i] holds [i + 1], the number in decimal and the number in binary, the
    last of exactly [b] digits and reading back as the number in base 2.
    An empty list gives the header alone. *)
Lemma csv_export (b : Z) (zs : list Z) (m : gmap string Val) :
  1 <= b <= 53 -> Forall (fun z => 0 <= z < 2 ^ b) zs ->
  m !! "numbers" = Some (VArr ((fun z => VNum (NInt z)) <$> zs)) ->
  exists bins,
    Forall2 (fun z bin => String.length bin = Z.to_nat b /\ parseInt bin (Some 2) = NInt z)
            zs bins
    /\ let text :=
         join newline
           ("index,decimal,binary"
              :: imap (fun i '(z, bin) =>
                         String_of (NInt (Z.of_nat i + 1)) +:+ "," +:+ String_of (NInt z)
                           +:+ "," +:+ bin)
                      (zip zs bins)) in
       (forall p,
           GsapPage.lastResponse p = VObj m -> m !! "num_bits" = Some (VNum (NInt b)) ->
           GsapPage.onDownloadCsv p = GsapPage.download "qrng_numbers.csv" text p)
       /\ (forall p,
           AssetsApp.lastResponse p = VObj m -> AssetsApp.export_bits p = NInt b ->
           AssetsApp.onDownloadCsv p = (p, Some ("qrng_numbers.csv", text))).
Proof.
  intros Hb Hzs Hnum.
  exists ((fun z => padStart (Number_toString 2 (NInt z)) b "0") <$> zs).
  split; [apply binary_columns; [lia|done]|]. intros text. subst text. split.
  - intros p Hl Hbits. unfold GsapPage.onDownloadCsv. rewrite Hl.
    cbn [truthy negb getProp mbind Completion_bind]. rewrite Hnum, Hbits.
    cbn [default from_option id coalesce nullish toNumber or_else truthy mret Completion_ret].
    do 3 f_equal. rewrite imap_fmap.
    apply imap_zip_fmap. intros i z. unfold GsapPage.csv_row, compose.
    cbn [String_val toNumber toLength]. by rewrite Z.max_r by lia.
  - intros p Hl Hbits. unfold AssetsApp.onDownloadCsv. rewrite Hl.
    cbn [truthy negb getProp orb]. rewrite Hnum.
    cbn [default from_option id truthy negb]. rewrite Hbits.
    do 5 f_equal. rewrite imap_fmap.
    apply imap_zip_fmap. intros i z. unfold AssetsApp.csv_row, compose.
    cbn [toNumber toLength]. by rewrite Z.max_r by lia.
Qed.

(** That fact at three bits and the numbers 5 and 2: the rows [1,5,101] and
    [2,2,010]. *)
Lemma csv_export_witness :
  let m : gmap string Val :=
    {[ "numbers" := VArr [VNum (NInt 5); VNum (NInt 2)]; "num_bits" := VNum (NInt 3) ]} in
  let p := GsapPage.mkPage "" "3" "2" None false None false [] false None false None
                           (VObj m) [] [] in
  1 <= 3 <= 53 /\ Forall (fun z => 0 <= z < 2 ^ 3) [5; 2]
  /\ m !! "numbers" = Some (VArr ((fun z => VNum (NInt z)) <$> [5; 2]))
  /\ (exists bins,
        Forall2 (fun z bin => String.length bin = Z.to_nat 3 /\ parseInt bin (Some 2) = NInt z)
                [5; 2] bins)
  /\ GsapPage.downloads (GsapPage.onDownloadCsv p)
     = [("qrng_numbers.csv",
         "index,decimal,binary" +:+ newline +:+ "1,5,101" +:+ newline +:+ "2,2,010")].
Proof.
  intros m p.
  assert (H1 : 1 <= 3 <= 53) by lia.
  assert (H2 : Forall (fun z => 0 <= z < 2 ^ 3) [5; 2])
    by (repeat constructor; simpl; lia).
  assert (H3 : m !! "numbers" = Some (VArr ((fun z => VNum (NInt z)) <$> [5; 2])))
    by reflexivity.
  split; [exact H1|]. split; [exact H2|]. split; [exact H3|]. split.
  - destruct (csv_export 3 [5; 2] m H1 H2 H3) as (bins & Hb & _). exists bins. exact Hb.
  - reflexivity.
Defined.

End CsvExport.

(* ===================================================================== *)
(** ** The version and the time shown by part_001 *)
(* ===================================================================== *)

Section MetaShown.
Import Js.

Lemma setText_other (id txt key : string) (d : gmap string string) :
  key <> id -> V2Sync.setText id txt d !! key = d !! key.
Proof.
  intros Hk. unfold V2Sync.setText. destruct (d !! id); [|done].
  by rewrite lookup_insert_ne.
Qed.

Lemma setText_same (id txt : string) (d : gmap string string) :
  V2Sync.setText id txt d !! id = match d !! id with Some _ => Some txt | None => None end.
Proof.
  unfold V2Sync.setText. destruct (d !! id) eqn:E; [by rewrite lookup_insert_eq|done].
Qed.

Lemma updateStatistics_shape candidate d :
  exists t1 t2 t3 t4,
    V2Sync.updateStatistics candidate d
    = Normal (V2Sync.setText "maxValue" t4
                (V2Sync.setText "minValue" t3
                   (V2Sync.setText "stdValue" t2 (V2Sync.setText "meanValue" t1 d)))).
Proof.
  unfold V2Sync.updateStatistics, V2Sync.statsObj_of, V2Sync.field_or_0.
  set (s := or_else (default_param candidate (VObj ∅)) (VObj ∅)).
  assert (Hs : nullish s = false).
  { subst s. unfold or_else. destruct (truthy _) eqn:E; [|done].
    by destruct (default_param candidate (VObj ∅)) as [| | | | | |]. }
  assert (Hget : forall v k, nullish v = false -> exists x, getProp v k = Normal x).
  { intros v k Hv. destruct v; try done; simpl; eauto. }
  destruct (Hget s "statistics" Hs) as [a ->]. destruct (Hget s "stats" Hs) as [b ->].
  cbn [mbind Completion_bind mret Completion_ret].
  set (statsObj := coalesce (coalesce a b) s).
  assert (Ho : nullish statsObj = false).
  { subst statsObj. unfold coalesce. destruct (nullish a) eqn:Ea; [|by rewrite Ea].
    destruct (nullish b) eqn:Eb; [by rewrite Hs|by rewrite Eb]. }
  destruct (Hget statsObj "mean" Ho) as [x1 ->]. destruct (Hget statsObj "std" Ho) as [x2 ->].
  destruct (Hget statsObj "min" Ho) as [x3 ->]. destruct (Hget statsObj "max" Ho) as [x4 ->].
  cbn. eauto 10.
Qed.

Section Key.
Variable key : string.
Hypothesis Hkey : key = "metaVersion" \/ key = "metaTime".

Local Abbreviation shown := (fun p : V2Sync.Page => V2Sync.dom p !! key).

Lemma key_not (id : string) :
  id <> "metaVersion" -> id <> "metaTime" -> key <> id.
Proof. destruct Hkey as [-> | ->]; congruence. Qed.

Lemma updateStatistics_key candidate :
  preserves shown (V2Sync.on_dom (V2Sync.updateStatistics candidate)).
Proof.
  intros s. unfold V2Sync.on_dom.
  destruct (updateStatistics_shape candidate (V2Sync.dom s)) as (t1 & t2 & t3 & t4 & ->).
  cbn [snd V2Sync.dom V2Sync.set_dom].
  by rewrite !setText_other by (apply key_not; done).
Qed.

Lemma renderTable_key numbers bits :
  preserves shown (V2Sync.on_dom (V2Sync.renderTable numbers bits)).
Proof.
  intros s. unfold V2Sync.on_dom, V2Sync.renderTable.
  destruct (V2Sync.dom s !! "resultDisplay"), (V2Sync.dom s !! "tableBody"),
    (default_param numbers (VArr [])); cbn [snd V2Sync.dom V2Sync.set_dom]; try done;
    by rewrite lookup_insert_ne by (apply not_eq_sym, key_not; done).
Qed.

Lemma draw_chart_key numbers bits : preserves shown (V2Sync.draw_chart numbers bits).
Proof.
  intros s. unfold V2Sync.draw_chart.
  by destruct (V2Sync.renderDistributionGraph _ _ _) as [[c|]|].
Qed.

Lemma updateSourceIndicator_key source d :
  V2Sync.updateSourceIndicator source d !! key = d !! key.
Proof. unfold V2Sync.updateSourceIndicator. apply setText_other, key_not; done. Qed.

(** What the [try] block leaves under [key] once the response is saved:
    [updateMeta] writes the value found for it when that value is truthy,
    and nothing after [updateMeta] touches it. *)
Lemma render_response_key (m : gmap string Val) bits s0 (field : string) :
  (key = "metaVersion" /\ field = "version") \/ (key = "metaTime" /\ field = "timestamp") ->
  let v := coalesce (default VUndefined (m !! field))
                    (getOpt (default VUndefined (m !! "meta")) field) in
  shown (snd (V2Sync.render_response (VObj m) bits s0))
  = if truthy v
    then match shown s0 with Some _ => Some (String_val v) | None => None end
    else shown s0.
Proof.
  intros Hf v. unfold V2Sync.render_response, V2Sync.select_stats.
  rewrite run_bind. cbn [lift getProp mbind Completion_bind mret Completion_ret].
  rewrite run_bind.
  pose proof (updateStatistics_key
                (coalesce (coalesce (default VUndefined (m !! "stats"))
                                    (default VUndefined (m !! "statistics"))) (VObj m)) s0)
    as H1.
  destruct (V2Sync.on_dom _ s0) as [[[]|msg] s1] eqn:E1; cbn [snd] in H1.
  2:{ exfalso. unfold V2Sync.on_dom in E1.
      destruct (updateStatistics_shape
                  (coalesce (coalesce (default VUndefined (m !! "stats"))
                                      (default VUndefined (m !! "statistics"))) (VObj m))
                  (V2Sync.dom s0)) as (t1 & t2 & t3 & t4 & E).
      rewrite E in E1. discriminate E1. }
  repeat (rewrite run_bind; cbn [lift getProp]).
  cbn [modify].
  match goal with
  | |- V2Sync.dom (snd (?rest ?s2)) !! key = _ =>
      assert (Hrest : preserves shown rest);
      [|rewrite (Hrest s2)]
  end.
  { repeat first
      [ apply preserves_lift
      | apply preserves_modify; intros []; cbn [V2Sync.dom V2Sync.set_dom V2Sync.showToast];
        first [reflexivity | apply setText_other, key_not; done]
      | apply renderTable_key
      | apply draw_chart_key
      | apply preserves_bind; [|intros ?] ]. }
  cbn [V2Sync.dom V2Sync.set_dom]. unfold V2Sync.updateMeta, V2Sync.updateSourceIndicator.
  subst v. destruct Hf as [[Hk ->]|[Hk ->]]; rewrite Hk in H1 |- *;
    repeat match goal with
           | |- context [if truthy ?x then _ else _] => destruct (truthy x)
           end;
    rewrite ?setText_other by done; rewrite ?setText_same;
    rewrite ?setText_other by done; by rewrite H1.
Qed.

End Key.

Lemma generate_failed_key (key msg : string) s :
  key <> "resultDisplay" ->
  V2Sync.dom (V2Sync.generate_failed msg s) !! key = V2Sync.dom s !! key.
Proof.
  intros Hk. unfold V2Sync.generate_failed. cbn [V2Sync.dom V2Sync.set_dom V2Sync.showToast].
  by apply setText_other.
Qed.

(** The version and the time that part_001 shows ([metaVersion] and
    [metaTime]) after a click on Generate.  When the call returns an object
    with [status] "success", the element shows the value of the response
    (the top-level field, else the one under [meta]) if that value is
    truthy, and keeps the text it had if it is not: a response without a
    version leaves the version of an earlier response on the page.  This
    holds also when a later step of the handler throws.  When the inputs
    are rejected, the call fails or the status is refused, the text is
    kept. *)
Lemma meta_shown (key field : string) backend p :
  (key = "metaVersion" /\ field = "version") \/ (key = "metaTime" /\ field = "timestamp") ->
  let after := V2Sync.onGenerate backend p in
  (forall bits samples (m : gmap string Val),
      V2Sync.validate p = inr (bits, samples) ->
      V2Sync.generateRandomNumbers (backend (V2Sync.request_body bits samples))
        = Normal (VObj m) ->
      m !! "status" = Some (VStr "success") ->
      let v := coalesce (default VUndefined (m !! field))
                        (getOpt (default VUndefined (m !! "meta")) field) in
      V2Sync.dom after !! key
      = if truthy v
        then match V2Sync.dom p !! key with Some _ => Some (String_val v) | None => None end
        else V2Sync.dom p !! key)
  /\ (forall msg, V2Sync.validate p = inl msg -> V2Sync.dom after = V2Sync.dom p)
  /\ (forall bits samples,
      V2Sync.validate p = inr (bits, samples) ->
      (forall data,
          V2Sync.generateRandomNumbers (backend (V2Sync.request_body bits samples))
            = Normal data ->
          V2Sync.check_status data <> Normal tt) ->
      V2Sync.dom after !! key = V2Sync.dom p !! key).
Proof.
  intros Hf after. subst after.
  assert (Hkey : key = "metaVersion" \/ key = "metaTime") by (destruct Hf as [[? _]|[? _]]; auto).
  assert (Hrd : key <> "resultDisplay") by (destruct Hkey as [-> | ->]; done).
  assert (Hskel : forall s, V2Sync.showSkeletons (V2Sync.dom s) !! key = V2Sync.dom s !! key)
    by (intros s; unfold V2Sync.showSkeletons; by apply setText_other).
  split; [|split].
  - intros bits samples m Hv Hg Hs v.
    unfold V2Sync.onGenerate. rewrite Hv. unfold V2Sync.generate_body, try_catch.
    rewrite run_bind. cbn [modify]. rewrite run_bind. cbn [modify]. rewrite run_bind.
    unfold lift at 1. rewrite Hg. rewrite run_bind. unfold lift at 1.
    assert (Hc : V2Sync.check_status (VObj m) = Normal tt).
    { unfold V2Sync.check_status. cbn [getProp mbind Completion_bind]. by rewrite Hs. }
    rewrite Hc. rewrite run_bind. cbn [modify].
    match goal with |- context [V2Sync.render_response (VObj m) bits ?s] =>
      pose proof (render_response_key key Hkey m bits s field Hf) as H;
      destruct (V2Sync.render_response (VObj m) bits s) as [[[]|msg] s']
    end; cbn [snd] in H; cbv zeta in H;
      [|rewrite generate_failed_key by done]; rewrite H;
      cbn [V2Sync.dom V2Sync.set_dom V2Sync.set_lastResponse V2Sync.log_request];
      fold v; by rewrite (Hskel p).
  - intros msg Hv. unfold V2Sync.onGenerate. by rewrite Hv.
  - intros bits samples Hv Hfail.
    unfold V2Sync.onGenerate. rewrite Hv. unfold V2Sync.generate_body, try_catch.
    rewrite run_bind. cbn [modify]. rewrite run_bind. cbn [modify]. rewrite run_bind.
    unfold lift at 1.
    destruct (V2Sync.generateRandomNumbers _) as [data|msg] eqn:Hg.
    + rewrite run_bind. unfold lift at 1. specialize (Hfail data eq_refl).
      destruct (V2Sync.check_status data) as [[]|msg]; [done|].
      rewrite generate_failed_key by done.
      cbn [V2Sync.dom V2Sync.set_dom V2Sync.log_request]. apply (Hskel p).
    + rewrite generate_failed_key by done.
      cbn [V2Sync.dom V2Sync.set_dom V2Sync.log_request]. apply (Hskel p).
Qed.

(** That fact for a page that shows version 1.0 and a response without a
    version: 1.0 stays. *)
Lemma meta_shown_witness :
  let m : gmap string Val :=
    {[ "status" := VStr "success"; "numbers" := VArr [VNum (NInt 1)] ]} in
  let backend := fun _ : Val => Reply true (Some (VObj m)) "" in
  let p := V2Sync.mkPage {[ "numBits" := "2"; "numSamples" := "1"; "metaVersion" := "1.0" ]}
                         VNull None [] [] in
  ("metaVersion" = "metaVersion" /\ "version" = "version"
   \/ "metaVersion" = "metaTime" /\ "version" = "timestamp")
  /\ V2Sync.validate p = inr (NInt 2, NInt 1)
  /\ V2Sync.generateRandomNumbers (backend (V2Sync.request_body (NInt 2) (NInt 1)))
     = Normal (VObj m)
  /\ m !! "status" = Some (VStr "success")
  /\ V2Sync.dom (V2Sync.onGenerate backend p) !! "metaVersion" = Some "1.0"
  /\ V2Sync.lastResponse (V2Sync.onGenerate backend p) = VObj m.
Proof.
  intros m backend p.
  assert (H0 : "metaVersion" = "metaVersion" /\ "version" = "version"
               \/ "metaVersion" = "metaTime" /\ "version" = "timestamp") by (left; done).
  assert (H1 : V2Sync.validate p = inr (NInt 2, NInt 1)) by reflexivity.
  assert (H2 : V2Sync.generateRandomNumbers (backend (V2Sync.request_body (NInt 2) (NInt 1)))
               = Normal (VObj m)) by reflexivity.
  assert (H3 : m !! "status" = Some (VStr "success")) by reflexivity.
  split; [exact H0|]. split; [exact H1|]. split; [exact H2|]. split; [exact H3|]. split.
  - exact (proj1 (meta_shown "metaVersion" "version" backend p H0) (NInt 2) (NInt 1) m H1 H2 H3).
  - reflexivity.
Defined.

End MetaShown.

(** ** The page of part_003: a run of [generateQuantumNumbers] *)

Section QuantumPage.
Import Js.

Lemma fold_Math_min (xs : list Z) (m : Z) :
  foldl Math_min (NInt m) (NInt <$> xs) = NInt (foldl Z.min m xs).
Proof.
  revert m. induction xs as [|x xs IH]; intros m; [done|].
  cbn [fmap list_fmap foldl]. unfold Math_min at 2. cbn [isNaN orb leb].
  destruct (Z.leb_spec m x).
  - rewrite IH. by rewrite Z.min_l by lia.
  - rewrite IH. by rewrite Z.min_r by lia.
Qed.

Lemma fold_Math_max (xs : list Z) (m : Z) :
  foldl Math_max (NInt m) (NInt <$> xs) = NInt (foldl Z.max m xs).
Proof.
  revert m. induction xs as [|x xs IH]; intros m; [done|].
  cbn [fmap list_fmap foldl]. unfold Math_max at 2. cbn [isNaN orb leb].
  destruct (Z.leb_spec m x).
  - rewrite IH. by rewrite Z.max_r by lia.
  - rewrite IH. by rewrite Z.max_l by lia.
Qed.

Lemma foldl_min_spec (xs : list Z) (m : Z) :
  foldl Z.min m xs ∈ m :: xs
  /\ foldl Z.min m xs <= m
  /\ Forall (fun n => foldl Z.min m xs <= n) xs.
Proof.
  revert m. induction xs as [|x xs IH]; intros m.
  - cbn. split; [by left|]. split; [lia|constructor].
  - cbn [foldl]. destruct (IH (Z.min m x)) as (Hin & Hle & Hall).
    split; [|split].
    + rewrite !elem_of_cons in Hin |- *. destruct Hin as [Hin|Hin]; [|by right; right].
      rewrite Hin. destruct (Z.min_spec m x) as [[_ ->]|[_ ->]]; [by left|by right; left].
    + lia.
    + constructor; [lia|done].
Qed.

Lemma foldl_max_spec (xs : list Z) (m : Z) :
  foldl Z.max m xs ∈ m :: xs
  /\ m <= foldl Z.max m xs
  /\ Forall (fun n => n <= foldl Z.max m xs) xs.
Proof.
  revert m. induction xs as [|x xs IH]; intros m.
  - cbn. split; [by left|]. split; [lia|constructor].
  - cbn [foldl]. destruct (IH (Z.max m x)) as (Hin & Hle & Hall).
    split; [|split].
    + rewrite !elem_of_cons in Hin |- *. destruct Hin as [Hin|Hin]; [|by right; right].
      rewrite Hin. destruct (Z.max_spec m x) as [[_ ->]|[_ ->]]; [by right; left|by left].
    + lia.
    + constructor; [lia|done].
Qed.

(** What [calculateStatistics] writes for a non-empty array. *)
Lemma calculateStatistics_fields (x : Z) (xs : list Z) (p : QuantumRNG.Page) :
  let q := QuantumRNG.calculateStatistics (x :: xs) p in
  QuantumRNG.statMin q = String_of (NInt (foldl Z.min x xs))
  /\ QuantumRNG.statMax q = String_of (NInt (foldl Z.max x xs))
  /\ QuantumRNG.statRange q = String_of (NInt (foldl Z.max x xs - foldl Z.min x xs))
  /\ QuantumRNG.statsHidden q = false
  /\ QuantumRNG.generateDisabled q = QuantumRNG.generateDisabled p
  /\ QuantumRNG.loadingHidden q = QuantumRNG.loadingHidden p
  /\ QuantumRNG.results q = QuantumRNG.results p.
Proof.
  intros q. subst q. unfold QuantumRNG.calculateStatistics.
  cbn [QuantumRNG.statMin QuantumRNG.statMax QuantumRNG.statRange QuantumRNG.statsHidden
       QuantumRNG.generateDisabled QuantumRNG.loadingHidden QuantumRNG.results].
  assert (Hmin : foldl Math_min (NInf false) (NInt <$> x :: xs) = NInt (foldl Z.min x xs)).
  { cbn [fmap list_fmap foldl]. unfold Math_min at 2. cbn [isNaN orb leb].
    apply fold_Math_min. }
  assert (Hmax : foldl Math_max (NInf true) (NInt <$> x :: xs) = NInt (foldl Z.max x xs)).
  { cbn [fmap list_fmap foldl]. unfold Math_max at 2. cbn [isNaN orb leb].
    apply fold_Math_max. }
  rewrite Hmin, Hmax. cbn [sub]. done.
Qed.

(** A click with a sample count that is not a positive number (an empty
    or non-numeric field, [0], a negative number): the container shows
    the placeholder, the button is enabled again, and the statistics are
    not touched, so the figures of an earlier run, if any, stay on the
    page beside the placeholder. *)
Theorem QuantumRNG_run_without_samples (coin : QuantumRNG.Coins) (p : QuantumRNG.Page) :
  QuantumRNG.iterations (parseInt (QuantumRNG.numSamplesValue p) None) = 0%nat ->
  let q := QuantumRNG.generateQuantumNumbers coin p in
  QuantumRNG.results q = "No results generated"
  /\ QuantumRNG.statsHidden q = QuantumRNG.statsHidden p
  /\ QuantumRNG.statMean q = QuantumRNG.statMean p
  /\ QuantumRNG.statMin q = QuantumRNG.statMin p
  /\ QuantumRNG.statMax q = QuantumRNG.statMax p
  /\ QuantumRNG.statRange q = QuantumRNG.statRange p
  /\ QuantumRNG.generateDisabled q = false
  /\ QuantumRNG.loadingHidden q = true.
Proof.
  intros H q. subst q. unfold QuantumRNG.generateQuantumNumbers,
    QuantumRNG.simulateQuantumCircuit. rewrite H.
  cbn [QuantumRNG.sample_loop]. done.
Qed.

(** Such a click after a run that had shown statistics. *)
Lemma QuantumRNG_run_without_samples_witness :
  let p := QuantumRNG.mkPage "8" "0" "decimal" false true "17 4" false "10.50" "4" "17" "13" in
  let q := QuantumRNG.generateQuantumNumbers (fun _ => true) p in
  QuantumRNG.iterations (parseInt (QuantumRNG.numSamplesValue p) None) = 0%nat
  /\ QuantumRNG.results q = "No results generated"
  /\ QuantumRNG.statsHidden q = false
  /\ QuantumRNG.statMean q = "10.50"
  /\ QuantumRNG.statRange q = "13".
Proof.
  intros p q.
  assert (H : QuantumRNG.iterations (parseInt (QuantumRNG.numSamplesValue p) None) = 0%nat)
    by reflexivity.
  pose proof (QuantumRNG_run_without_samples (fun _ => true) p H) as (H1 & H2 & H3 & _ & _ & H6 & _).
  split; [exact H|]. split; [exact H1|]. split; [exact H2|]. split; [exact H3|exact H6].
Defined.

(** A click with a positive sample count: the statistics are shown, the
    minimum and the maximum on the page are numbers of the run that bound
    all others, the range is their difference, and the button is enabled
    again.  With at most 31 bits (none for a field that is not a number)
    both lie in [0, 2^numBits - 1]. *)
Theorem QuantumRNG_statistics (coin : QuantumRNG.Coins) (p : QuantumRNG.Page) :
  (0 < QuantumRNG.iterations (parseInt (QuantumRNG.numSamplesValue p) None))%nat ->
  let numBits := parseInt (QuantumRNG.numBitsValue p) None in
  let numbers :=
    QuantumRNG.simulateQuantumCircuit coin numBits
      (parseInt (QuantumRNG.numSamplesValue p) None) in
  let q := QuantumRNG.generateQuantumNumbers coin p in
  exists mn mx : Z,
    mn ∈ numbers /\ mx ∈ numbers
    /\ Forall (fun n => mn <= n <= mx) numbers
    /\ QuantumRNG.statMin q = String_of (NInt mn)
    /\ QuantumRNG.statMax q = String_of (NInt mx)
    /\ QuantumRNG.statRange q = String_of (NInt (mx - mn))
    /\ QuantumRNG.statsHidden q = false
    /\ QuantumRNG.generateDisabled q = false
    /\ QuantumRNG.loadingHidden q = true
    /\ ((QuantumRNG.iterations numBits <= 31)%nat ->
        0 <= mn /\ mx <= 2 ^ Z.of_nat (QuantumRNG.iterations numBits) - 1).
Proof.
  intros H numBits numbers q.
  assert (Hlen : length numbers
                 = QuantumRNG.iterations (parseInt (QuantumRNG.numSamplesValue p) None))
    by apply sample_loop_length.
  destruct numbers as [|x xs] eqn:Hn; [simpl in Hlen; lia|].
  assert (Hq : q = QuantumRNG.hideLoading
                 (QuantumRNG.calculateStatistics (x :: xs)
                    (QuantumRNG.set_results
                       (QuantumRNG.displayResults (QuantumRNG.numBitsValue p) (x :: xs)
                          (QuantumRNG.outputFormat p))
                       (QuantumRNG.showLoading p)))).
  { subst q. unfold QuantumRNG.generateQuantumNumbers. fold numBits.
    change (QuantumRNG.simulateQuantumCircuit coin numBits
              (parseInt (QuantumRNG.numSamplesValue p) None)) with numbers.
    by rewrite Hn. }
  pose proof (calculateStatistics_fields x xs
                (QuantumRNG.set_results
                   (QuantumRNG.displayResults (QuantumRNG.numBitsValue p) (x :: xs)
                      (QuantumRNG.outputFormat p))
                   (QuantumRNG.showLoading p))) as (F1 & F2 & F3 & F4 & _).
  destruct (foldl_min_spec xs x) as (Min1 & Min2 & Min3).
  destruct (foldl_max_spec xs x) as (Max1 & Max2 & Max3).
  exists (foldl Z.min x xs), (foldl Z.max x xs).
  split; [done|]. split; [done|].
  split.
  { constructor; [lia|].
    rewrite Forall_forall in Min3, Max3. apply Forall_forall. intros n Hin.
    specialize (Min3 n Hin). specialize (Max3 n Hin). lia. }
  rewrite Hq. cbn [QuantumRNG.hideLoading QuantumRNG.statMin QuantumRNG.statMax
                   QuantumRNG.statRange QuantumRNG.statsHidden
                   QuantumRNG.generateDisabled QuantumRNG.loadingHidden].
  do 4 (split; [done|]). split; [done|]. split; [done|].
  intros Hb.
  pose proof (sample_loop_range coin (QuantumRNG.iterations numBits)
                (QuantumRNG.iterations (parseInt (QuantumRNG.numSamplesValue p) None)) 0
                ltac:(lia)) as Hr.
  change (QuantumRNG.sample_loop coin (QuantumRNG.iterations numBits)
            (QuantumRNG.iterations (parseInt (QuantumRNG.numSamplesValue p) None)) 0)
    with numbers in Hr.
  rewrite Hn in Hr. rewrite Forall_forall in Hr.
  pose proof (Hr _ Min1). pose proof (Hr _ Max1). lia.
Qed.

(** Four samples of three bits, the coin setting every other bit: the
    numbers are 5, 2, 5, 2. *)
Lemma QuantumRNG_statistics_witness :
  let p := QuantumRNG.mkPage "3" "4" "decimal" false true "" true "" "" "" "" in
  let q := QuantumRNG.generateQuantumNumbers Nat.even p in
  (0 < QuantumRNG.iterations (parseInt (QuantumRNG.numSamplesValue p) None))%nat
  /\ QuantumRNG.simulateQuantumCircuit Nat.even (NInt 3) (NInt 4) = [5; 2; 5; 2]
  /\ QuantumRNG.statMin q = "2"
  /\ QuantumRNG.statMax q = "5"
  /\ QuantumRNG.statRange q = "3"
  /\ QuantumRNG.statMean q = "3.50"
  /\ exists mn mx : Z,
       mn ∈ QuantumRNG.simulateQuantumCircuit Nat.even (NInt 3) (NInt 4)
       /\ mx ∈ QuantumRNG.simulateQuantumCircuit Nat.even (NInt 3) (NInt 4)
       /\ Forall (fun n => mn <= n <= mx)
                 (QuantumRNG.simulateQuantumCircuit Nat.even (NInt 3) (NInt 4))
       /\ QuantumRNG.statMin q = String_of (NInt mn)
       /\ QuantumRNG.statMax q = String_of (NInt mx)
       /\ QuantumRNG.statRange q = String_of (NInt (mx - mn))
       /\ QuantumRNG.statsHidden q = false
       /\ QuantumRNG.generateDisabled q = false
       /\ QuantumRNG.loadingHidden q = true
       /\ ((3 <= 31)%nat -> 0 <= mn /\ mx <= 2 ^ Z.of_nat 3 - 1).
Proof.
  intros p q.
  assert (H : (0 < QuantumRNG.iterations (parseInt (QuantumRNG.numSamplesValue p) None))%nat)
    by (vm_compute; lia).
  split; [exact H|]. do 5 (split; [reflexivity|]).
  exact (QuantumRNG_statistics Nat.even p H).
Defined.

End QuantumPage.
